(** * etl_pipeline.py: CSV -> Postgres staging -> final tables -> report

    A shallow embedding of [src/etl_pipeline.py].  The Python functions become
    computations in a small monad that threads the database, collects the
    observable events of the run (file checks, connection attempts, SQL
    statements, log lines) and propagates Python exceptions.  The SQL text
    sent by the program is embedded statement by statement with the meaning
    PostgreSQL gives it. *)

From Stdlib Require Import Ascii String QArith.QArith_base.
From stdpp Require Import gmap strings list pretty.

Open Scope string_scope.
Open Scope list_scope.

(** ** SQL scalar functions used by the promotion query *)

Module Sql.

(** [COALESCE(x, d)] *)
Definition coalesce {A} (x : option A) (d : A) : A :=
  match x with
  | Some v => v
  | None => d
  end.

(** Removal of the longest prefix made of characters satisfying [p]. *)
Fixpoint ltrim (p : ascii -> bool) (s : string) : string :=
  match s with
  | EmptyString => EmptyString
  | String c s' => if p c then ltrim p s' else s
  end.

(** Removal of the longest suffix made of characters satisfying [p]. *)
Fixpoint rtrim (p : ascii -> bool) (s : string) : string :=
  match s with
  | EmptyString => EmptyString
  | String c s' =>
      match rtrim p s' with
      | EmptyString => if p c then EmptyString else String c EmptyString
      | t => String c t
      end
  end.

Definition btrim (p : ascii -> bool) (s : string) : string :=
  rtrim p (ltrim p s).

(** The character set of a one-argument [TRIM]: the space, U+0020. *)
Definition is_space (c : ascii) : bool := Ascii.eqb c " "%char.

(** [TRIM(s)], that is [TRIM(BOTH ' ' FROM s)]. *)
Definition trim (s : string) : string := btrim is_space s.

Definition lower_ascii (c : ascii) : ascii :=
  let n := nat_of_ascii c in
  if (65 <=? n)%nat && (n <=? 90)%nat then ascii_of_nat (n + 32) else c.

(** The ASCII rule of [LOWER]: the letters A to Z, byte by byte; bytes
    above 127 are left alone. *)
Fixpoint lower_bytes (s : string) : string :=
  match s with
  | EmptyString => EmptyString
  | String c s' => String (lower_ascii c) (lower_bytes s')
  end.

(** [LOWER(s)].  PostgreSQL lower-cases with the case mapping of the
    database's locale (its LC_CTYPE), which the repository does not fix:
    [lc_ctype] is what that locale does to a string beyond the ASCII rule.
    It is the identity for the locale C, where [LOWER] changes the letters A
    to Z only; for a UTF-8 locale it lower-cases the letters outside ASCII,
    which the string holds as sequences of bytes above 127.  No locale
    leaves or produces one of the letters A to Z. *)
Definition lower (lc_ctype : string -> string) (s : string) : string :=
  lower_bytes (lc_ctype s).

(** Strings made only of characters satisfying [p]. *)
Fixpoint all_chars (p : ascii -> bool) (s : string) : bool :=
  match s with
  | EmptyString => true
  | String c s' => p c && all_chars p s'
  end.

Definition starts_with (p : ascii -> bool) (s : string) : bool :=
  match s with
  | EmptyString => false
  | String c _ => p c
  end.

Fixpoint ends_with (p : ascii -> bool) (s : string) : bool :=
  match s with
  | EmptyString => false
  | String c EmptyString => p c
  | String _ s' => ends_with p s'
  end.

End Sql.

(** ** pandas: the part of the DataFrame interface the program uses *)

Module Pandas.

Inductive Cell :=
| NaN
| IntCell (z : Z)
| FloatCell (q : Q)
| StrCell (s : string).

Abbreviation Series := (list Cell).

(** A frame keeps its row count in the index, also when it has no column;
    labels may repeat and keep their order. *)
Record DataFrame := mkDataFrame {
  index_len : nat;
  columns : list (string * Series)
}.

Definition labels (df : DataFrame) : list string := fst <$> columns df.

(** Every column is as long as the index. *)
Definition wf (df : DataFrame) : Prop :=
  Forall (fun c => length (snd c) = index_len df) (columns df).

(** [df.rename(columns=m)]: labels that are keys of [m] are replaced. *)
Fixpoint rename_label (m : list (string * string)) (l : string) : string :=
  match m with
  | [] => l
  | (k, v) :: m' => if String.eqb k l then v else rename_label m' l
  end.

Definition rename (m : list (string * string)) (df : DataFrame) : DataFrame :=
  {| index_len := index_len df;
     columns := (fun c => (rename_label m (fst c), snd c)) <$> columns df |}.

(** [v in df.columns] *)
Definition has_column (df : DataFrame) (v : string) : bool :=
  existsb (String.eqb v) (labels df).

Definition columns_named (df : DataFrame) (v : string) : list (string * Series) :=
  filter (fun c => fst c = v) (columns df).

(** [df[[v1, ..., vn]]] for labels that are all present: the columns
    carrying [v1], then those carrying [v2], and so on. *)
Definition select (df : DataFrame) (vs : list string) : DataFrame :=
  {| index_len := index_len df;
     columns := vs ≫= columns_named df |}.

(** [df[k]]: [KeyError] without such a label, a Series for a label that
    occurs once, a frame for a repeated label. *)
Inductive Item :=
| ItemSeries (s : Series)
| ItemFrame (cols : list (string * Series)).

Definition getitem (df : DataFrame) (k : string) : option Item :=
  match columns_named df k with
  | [] => None
  | [c] => Some (ItemSeries (snd c))
  | cs => Some (ItemFrame cs)
  end.

Definition isna (c : Cell) : bool :=
  match c with
  | NaN => true
  | _ => false
  end.

Definition count_na (s : Series) : nat := length (filter (fun c => isna c = true) s).

(** [x.isna().sum()]: a number for a Series, one number per column for a
    frame. *)
Inductive NaCount :=
| NaScalar (n : nat)
| NaPerColumn (ns : list (string * nat)).

Definition isna_sum (x : Item) : NaCount :=
  match x with
  | ItemSeries s => NaScalar (count_na s)
  | ItemFrame cs => NaPerColumn ((fun c => (fst c, count_na (snd c))) <$> cs)
  end.

(** One record of the frame: the labels with the values of row [i]. *)
Abbreviation Row := (list (string * Cell)).

Definition row (df : DataFrame) (i : nat) : Row :=
  (fun c => (fst c, default NaN (snd c !! i))) <$> columns df.

Definition rows (df : DataFrame) : list Row := row df <$> seq 0 (index_len df).

End Pandas.

(** ** The relational store

    The DDL is not part of the repository; the tables are the ones the
    program's SQL names, with the columns that SQL reads and writes. *)

(** A row of [staging_passengers]: every column is nullable. *)
Module StagingPassenger.
Record t := mk {
  passenger_id : option Z;
  name : option string;
  sex : option string;
  age : option Q;
  sibsp : option Z;
  parch : option Z;
  fare : option Q;
  embarked : option string
}.
End StagingPassenger.

(** A row of [staging_tickets]. *)
Module StagingTicket.
Record t := mk {
  ticket_id : option Z;
  passenger_id : option Z;
  ticket : option string;
  class : option Z;
  cabin : option string
}.
End StagingTicket.

(** The non-key columns of a row of [passengers]; the table is a finite map
    from the primary key [passenger_id] to these. *)
Module Passenger.
Record t := mk {
  name : option string;
  sex : option string;
  age : Q;
  family_size : Z;
  embarked : string
}.
End Passenger.

(** The non-key columns of a row of [tickets], keyed by [ticket_id]. *)
Module Ticket.
Record t := mk {
  passenger_id : option Z;
  ticket_number : option string;
  class : option Z;
  cabin : option string
}.
End Ticket.

(** A staging table: its rows in insertion order and, when the table owns an
    identity sequence, how many values were drawn from it since its last
    restart. *)
Record StagingTable (R : Type) := mkStagingTable {
  table_rows : list R;
  identity : option nat
}.
Arguments mkStagingTable {R} _ _.
Arguments table_rows {R} _.
Arguments identity {R} _.

Record DB := mkDB {
  staging_passengers : StagingTable StagingPassenger.t;
  staging_tickets : StagingTable StagingTicket.t;
  passengers : gmap Z Passenger.t;
  tickets : gmap Z Ticket.t
}.

(** What the pre-provisioned database decides and the repository does not
    show: how Postgres coerces one DataFrame record into a staging row
    ([None] when it rejects the record), the constraints of the final
    tables besides their primary keys (the check on a ticket sees the
    [passengers] table, as a foreign key would), and the case mapping of
    the database's locale beyond the ASCII rule (see [Sql.lower]). *)
Record Schema := mkSchema {
  stage_passenger : Pandas.Row -> option StagingPassenger.t;
  stage_ticket : Pandas.Row -> option StagingTicket.t;
  passenger_ok : Z -> Passenger.t -> bool;
  ticket_ok : gmap Z Passenger.t -> Z -> Ticket.t -> bool;
  lc_ctype : string -> string
}.

(** One row of the view [analytics_summary] as the driver returns it. *)
Record Summary := mkSummary {
  s_sex : option string;
  s_embarked : option string;
  s_avg_age : option Q;
  s_passenger_count : option Z
}.

(** The surroundings of a run: the file system, the CSV reader, the
    reachability of the database and the contents of the aggregate view
    (already ordered by the query's [ORDER BY]; [None] when the query
    fails). *)
Record World := mkWorld {
  path_exists : string -> bool;
  read_csv : string -> option Pandas.DataFrame;
  db_reachable : bool;
  analytics_summary : DB -> option (list Summary)
}.

(** ** Exceptions, events and the monad of runs *)

Inductive SqlState :=
| NotNullViolation
| CardinalityViolation
| SchemaViolation.

Inductive Exc :=
| SystemExit (code : Z)
| KeyError (key : string)
| ValueError
| NameError (name : string)
| TypeError
| ParserError
| OperationalError
| SQLError (st : SqlState).

Inductive Stmt :=
| SelectOne
| TruncateStaging
| AppendStagingPassengers
| AppendStagingTickets
| DeleteTickets
| DeletePassengers
| InsertPassengers
| InsertTickets
| SelectAnalytics.

Inductive LogLine :=
| Starting
| ConnectionSuccessful
| ConnectionFailed
| LoadedRows (n : nat) (path : string)
| DataPrepared (n : nat) (missing_ages : Pandas.NaCount)
| PrepareError
| StagingLoaded
| TransformationComplete
| AnalyticsResults
| AnalyticsHeader
| AnalyticsRow (r : Summary)
| PassengersNotFound (path : string)
| TicketsNotFound (path : string)
| Completed.

Inductive Event :=
| EvExists (path : string) (found : bool)
| EvConnect
| EvReadCsv (path : string)
| EvBegin
| EvSql (s : Stmt)
| EvCommit
| EvRollback
| EvInfo (l : LogLine)
| EvError (l : LogLine).

Inductive Result (A : Type) :=
| Ok (a : A)
| Raise (e : Exc).
Arguments Ok {A} _.
Arguments Raise {A} _.

(** The outcome of running a computation from some database: its result,
    the database it leaves and the events it produced, oldest first. *)
Record Run (A : Type) := mkRun {
  result : Result A;
  final : DB;
  trace : list Event
}.
Arguments mkRun {A} _ _ _.
Arguments result {A} _.
Arguments final {A} _.
Arguments trace {A} _.

Definition M (A : Type) : Type := DB -> Run A.

Definition ret {A} (a : A) : M A := fun db => mkRun (Ok a) db [].

Definition bind {A B} (m : M A) (k : A -> M B) : M B := fun db =>
  let r := m db in
  match result r with
  | Ok a =>
      let r' := k a (final r) in
      mkRun (result r') (final r') (trace r ++ trace r')
  | Raise e => mkRun (Raise e) (final r) (trace r)
  end.

#[global] Instance M_ret : MRet M := @ret.
#[global] Instance M_bind : MBind M := fun A B k m => bind m k.

Definition raise {A} (e : Exc) : M A := fun db => mkRun (Raise e) db [].

Definition emit (ev : Event) : M unit := fun db => mkRun (Ok tt) db [ev].

Definition get : M DB := fun db => mkRun (Ok db) db [].

Definition put (db : DB) : M unit := fun _ => mkRun (Ok tt) db [].

(** [sys.exit(code)] *)
Definition sys_exit {A} (code : Z) : M A := raise (SystemExit code).

(** [logger.info] and [logger.error] *)
Definition logger_info (l : LogLine) : M unit := emit (EvInfo l).
Definition logger_error (l : LogLine) : M unit := emit (EvError l).

(** [try: body except Exception as e: handler]; [SystemExit] is not an
    [Exception] and passes through. *)
Definition try_except {A} (body : M A) (handler : Exc -> M A) : M A := fun db =>
  let r := body db in
  match result r with
  | Ok _ => r
  | Raise (SystemExit _) => r
  | Raise e =>
      let r' := handler e (final r) in
      mkRun (result r') (final r') (trace r ++ trace r')
  end.

(** [with engine.begin() as conn: body]: commit when the body returns,
    roll back to the database of entry and re-raise when it raises. *)
Definition engine_begin {A} (body : M A) : M A := fun db =>
  let r := body db in
  match result r with
  | Ok a => mkRun (Ok a) (final r) (EvBegin :: trace r ++ [EvCommit])
  | Raise e => mkRun (Raise e) db (EvBegin :: trace r ++ [EvRollback])
  end.

(** The status the operating system sees: 0 when [main] returns, the
    argument of [sys.exit], and 1 for an exception nobody caught. *)
Definition exit_status {A} (r : Result A) : Z :=
  match r with
  | Ok _ => 0
  | Raise (SystemExit code) => code
  | Raise _ => 1
  end.

(** ** [connect_db] *)

(** [create_engine(...)], [engine.connect()] and [SELECT 1]. *)
Definition engine_connect (w : World) : M unit :=
  emit EvConnect;;
  if db_reachable w then emit (EvSql SelectOne) else raise OperationalError.

Definition connect_db (w : World) : M unit :=
  try_except
    (engine_connect w;;
     logger_info ConnectionSuccessful)
    (fun _ =>
       logger_error ConnectionFailed;;
       sys_exit 1).

(** ** [load_and_prepare_passengers] *)

Definition column_map : list (string * string) :=
  [ ("PassengerId", "passenger_id");
    ("Name", "name");
    ("Sex", "sex");
    ("Age", "age");
    ("SibSp", "sibsp");
    ("Parch", "parch");
    ("Fare", "fare");
    ("Embarked", "embarked") ].

(** [column_map.values()] *)
Definition column_map_values : list string := snd <$> column_map.

(** [pd.read_csv(csv_path)] *)
Definition pd_read_csv (w : World) (csv_path : string) : M Pandas.DataFrame :=
  emit (EvReadCsv csv_path);;
  match read_csv w csv_path with
  | Some df => mret df
  | None => raise ParserError
  end.

(** The two reassignments of [df]: the rename, then the selection of the
    canonical labels that are present. *)
Definition prepare (df : Pandas.DataFrame) : Pandas.DataFrame :=
  let df := Pandas.rename column_map df in
  Pandas.select df (List.filter (Pandas.has_column df) column_map_values).

(** [df['age'].isna().sum()] *)
Definition missing_ages (df : Pandas.DataFrame) : M Pandas.NaCount :=
  match Pandas.getitem df "age" with
  | Some x => mret (Pandas.isna_sum x)
  | None => raise (KeyError "age")
  end.

Definition load_and_prepare_passengers (w : World) (csv_path : string)
  : M Pandas.DataFrame :=
  try_except
    (df ← pd_read_csv w csv_path;
     logger_info (LoadedRows (Pandas.index_len df) csv_path);;
     let df := prepare df in
     n ← missing_ages df;
     logger_info (DataPrepared (Pandas.index_len df) n);;
     mret df)
    (fun _ =>
       logger_error PrepareError;;
       sys_exit 1).

(** ** [create_tickets_df] *)

(** [['T' + str(i) for i in range(1, n+1)]] *)
Definition ticket_numbers (n : nat) : list string :=
  (fun i => "T" +:+ pretty i) <$> seq 1 n.

(** The DataFrame constructor on the dictionary of the source: the index is
    the one of the Series, the list has to be as long as that index, the
    two scalars are repeated along it.  A frame in place of a Series (a
    repeated [passenger_id] label) is refused. *)
Definition create_tickets_df (passengers_df : Pandas.DataFrame)
  : M Pandas.DataFrame :=
  match Pandas.getitem passengers_df "passenger_id" with
  | None => raise (KeyError "passenger_id")
  | Some (Pandas.ItemFrame _) => raise ValueError
  | Some (Pandas.ItemSeries ids) =>
      let ticket := Pandas.StrCell <$> ticket_numbers (Pandas.index_len passengers_df) in
      if decide (length ticket = length ids) then
        mret (Pandas.mkDataFrame (length ids)
          [ ("ticket_id", ids);
            ("passenger_id", ids);
            ("ticket", ticket);
            ("class", replicate (length ids) (Pandas.IntCell 3));
            ("cabin", replicate (length ids) (Pandas.StrCell "Unknown")) ])
      else raise ValueError
  end.

(** ** [load_to_staging] *)

Definition set_staging_passengers (t : StagingTable StagingPassenger.t) (db : DB) : DB :=
  mkDB t (staging_tickets db) (passengers db) (tickets db).

Definition set_staging_tickets (t : StagingTable StagingTicket.t) (db : DB) : DB :=
  mkDB (staging_passengers db) t (passengers db) (tickets db).

Definition set_passengers (t : gmap Z Passenger.t) (db : DB) : DB :=
  mkDB (staging_passengers db) (staging_tickets db) t (tickets db).

Definition set_tickets (t : gmap Z Ticket.t) (db : DB) : DB :=
  mkDB (staging_passengers db) (staging_tickets db) (passengers db) t.

Definition modify (f : DB -> DB) : M unit := fun db => mkRun (Ok tt) (f db) [].

(** [TRUNCATE ... RESTART IDENTITY] on one table: no row is left and an
    owned sequence is back at its start. *)
Definition truncate_restart {R} (t : StagingTable R) : StagingTable R :=
  mkStagingTable [] ((fun _ => 0%nat) <$> identity t).

(** Appended rows go behind the rows already there; each draws one value
    from the identity sequence when the table owns one. *)
Definition append_rows {R} (new : list R) (t : StagingTable R) : StagingTable R :=
  mkStagingTable (table_rows t ++ new) ((fun n => n + length new)%nat <$> identity t).

(** [TRUNCATE TABLE staging_passengers, staging_tickets RESTART IDENTITY;] *)
Definition truncate_staging : M unit :=
  emit (EvSql TruncateStaging);;
  modify (fun db =>
    set_staging_tickets (truncate_restart (staging_tickets db))
      (set_staging_passengers (truncate_restart (staging_passengers db)) db)).

(** [passengers_df.to_sql('staging_passengers', conn, if_exists='append',
    index=False, method='multi')]: one multi-row INSERT, refused as a whole
    when Postgres refuses one of its records.  For a frame without rows
    pandas returns before it sends a statement. *)
Definition to_sql_staging_passengers (sch : Schema) (df : Pandas.DataFrame) : M unit :=
  if (Pandas.index_len df =? 0)%nat then mret tt
  else
    emit (EvSql AppendStagingPassengers);;
    match mapM (stage_passenger sch) (Pandas.rows df) with
    | Some rs => modify (fun db => set_staging_passengers (append_rows rs (staging_passengers db)) db)
    | None => raise (SQLError SchemaViolation)
    end.

Definition to_sql_staging_tickets (sch : Schema) (df : Pandas.DataFrame) : M unit :=
  if (Pandas.index_len df =? 0)%nat then mret tt
  else
    emit (EvSql AppendStagingTickets);;
    match mapM (stage_ticket sch) (Pandas.rows df) with
    | Some rs => modify (fun db => set_staging_tickets (append_rows rs (staging_tickets db)) db)
    | None => raise (SQLError SchemaViolation)
    end.

Definition load_to_staging (sch : Schema) (passengers_df tickets_df : Pandas.DataFrame)
  : M unit :=
  engine_begin
    (truncate_staging;;
     to_sql_staging_passengers sch passengers_df;;
     to_sql_staging_tickets sch tickets_df);;
  logger_info StagingLoaded.

(** ** [transform_and_load] *)

(** [INSERT INTO t (key, cols) SELECT ... FROM src ON CONFLICT (key) DO
    UPDATE SET ...], row by row in the order of the source table.  A null
    key violates the primary key, the table's constraints are checked on the
    proposed row, a key this command has already written cannot be written
    again ("ON CONFLICT DO UPDATE command cannot affect row a second
    time"), a key that was there before the command is updated, any other
    key is inserted. *)
Section Upsert.

Context {S R : Type}.
Variable key : S -> option Z.
Variable excluded : S -> R.
Variable constraint : Z -> R -> bool.
Variable do_update : R -> R -> R.

Fixpoint upsert (src : list S) (written : gset Z) (tbl : gmap Z R)
  : SqlState + gmap Z R :=
  match src with
  | [] => inr tbl
  | s :: src' =>
      match key s with
      | None => inl NotNullViolation
      | Some k =>
          if negb (constraint k (excluded s)) then inl SchemaViolation
          else if decide (k ∈ written) then inl CardinalityViolation
          else
            let row :=
              match tbl !! k with
              | Some existing => do_update existing (excluded s)
              | None => excluded s
              end in
            upsert src' ({[k]} ∪ written) (<[k := row]> tbl)
      end
  end.

End Upsert.

(** The SELECT list of the passengers query without the key. *)
Definition select_passenger (sch : Schema) (r : StagingPassenger.t) : Passenger.t :=
  {| Passenger.name := Sql.trim <$> StagingPassenger.name r;
     Passenger.sex := Sql.lower (lc_ctype sch) <$> StagingPassenger.sex r;
     Passenger.age := Sql.coalesce (StagingPassenger.age r) (30 # 1);
     Passenger.family_size :=
       (Sql.coalesce (StagingPassenger.sibsp r) 0
        + Sql.coalesce (StagingPassenger.parch r) 0 + 1)%Z;
     Passenger.embarked := Sql.coalesce (StagingPassenger.embarked r) "S" |}.

(** [DO UPDATE SET name = EXCLUDED.name, sex = EXCLUDED.sex, age =
    EXCLUDED.age, family_size = EXCLUDED.family_size, embarked =
    EXCLUDED.embarked] *)
Definition update_passenger (existing new : Passenger.t) : Passenger.t :=
  {| Passenger.name := Passenger.name new;
     Passenger.sex := Passenger.sex new;
     Passenger.age := Passenger.age new;
     Passenger.family_size := Passenger.family_size new;
     Passenger.embarked := Passenger.embarked new |}.

(** [SELECT ticket_id, passenger_id, ticket, class, cabin] without the key. *)
Definition select_ticket (r : StagingTicket.t) : Ticket.t :=
  {| Ticket.passenger_id := StagingTicket.passenger_id r;
     Ticket.ticket_number := StagingTicket.ticket r;
     Ticket.class := StagingTicket.class r;
     Ticket.cabin := StagingTicket.cabin r |}.

(** [DO UPDATE SET passenger_id = EXCLUDED.passenger_id, ticket_number =
    EXCLUDED.ticket_number, class = EXCLUDED.class, cabin = EXCLUDED.cabin] *)
Definition update_ticket (existing new : Ticket.t) : Ticket.t :=
  {| Ticket.passenger_id := Ticket.passenger_id new;
     Ticket.ticket_number := Ticket.ticket_number new;
     Ticket.class := Ticket.class new;
     Ticket.cabin := Ticket.cabin new |}.

Definition upsert_passengers (sch : Schema) (db : DB) : SqlState + gmap Z Passenger.t :=
  upsert StagingPassenger.passenger_id (select_passenger sch) (passenger_ok sch)
    update_passenger (table_rows (staging_passengers db)) ∅ (passengers db).

Definition upsert_tickets (sch : Schema) (db : DB) : SqlState + gmap Z Ticket.t :=
  upsert StagingTicket.ticket_id select_ticket (ticket_ok sch (passengers db))
    update_ticket (table_rows (staging_tickets db)) ∅ (tickets db).

(** [DELETE FROM tickets; DELETE FROM passengers;] *)
Definition delete_final : M unit :=
  emit (EvSql DeleteTickets);;
  modify (set_tickets ∅);;
  emit (EvSql DeletePassengers);;
  modify (set_passengers ∅).

Definition insert_passengers (sch : Schema) : M unit :=
  emit (EvSql InsertPassengers);;
  db ← get;
  match upsert_passengers sch db with
  | inr tbl => put (set_passengers tbl db)
  | inl st => raise (SQLError st)
  end.

Definition insert_tickets (sch : Schema) : M unit :=
  emit (EvSql InsertTickets);;
  db ← get;
  match upsert_tickets sch db with
  | inr tbl => put (set_tickets tbl db)
  | inl st => raise (SQLError st)
  end.

Definition transform_and_load (sch : Schema) : M unit :=
  engine_begin
    (delete_final;;
     insert_passengers sch;;
     insert_tickets sch);;
  logger_info TransformationComplete.

(** ** [show_analytics] *)

(** The f-string of the report accepts no [None]: a format specification
    on [None] raises [TypeError]. *)
Definition format_row (r : Summary) : M unit :=
  match s_sex r, s_embarked r, s_avg_age r, s_passenger_count r with
  | Some _, Some _, Some _, Some _ => logger_info (AnalyticsRow r)
  | _, _, _, _ => raise TypeError
  end.

Fixpoint for_each {A} (f : A -> M unit) (l : list A) : M unit :=
  match l with
  | [] => mret tt
  | x :: l' => f x;; for_each f l'
  end.

Definition show_analytics (w : World) : M unit :=
  emit (EvSql SelectAnalytics);;
  db ← get;
  match analytics_summary w db with
  | None => raise (SQLError SchemaViolation)
  | Some result =>
      logger_info AnalyticsResults;;
      logger_info AnalyticsHeader;;
      for_each format_row result
  end.

(** ** [main] *)

(** Truth value of [tickets_csv]: [None] and the empty string are false. *)
Definition truthy (s : option string) : bool :=
  match s with
  | Some s => negb (String.eqb s "")
  | None => false
  end.

(** [Path(p).exists()] *)
Definition exists_ (w : World) (p : string) : M bool :=
  let b := path_exists w p in
  emit (EvExists p b);;
  mret b.

(** The call of a name that no [def], import or assignment of the module
    binds. *)
Definition load_and_prepare_tickets (tickets_path : string) : M Pandas.DataFrame :=
  raise (NameError "load_and_prepare_tickets").

Definition main (sch : Schema) (w : World)
    (passengers_csv : string) (tickets_csv : option string) : M unit :=
  logger_info Starting;;
  found ← exists_ w passengers_csv;
  (if negb found then
     logger_error (PassengersNotFound passengers_csv);;
     sys_exit 1
   else mret tt);;
  connect_db w;;
  passengers_df ← load_and_prepare_passengers w passengers_csv;
  tickets_df ←
    (if truthy tickets_csv then
       let tickets_path := default "" tickets_csv in
       found ← exists_ w tickets_path;
       (if negb found then
          logger_error (TicketsNotFound tickets_path);;
          sys_exit 1
        else mret tt);;
       load_and_prepare_tickets tickets_path
     else create_tickets_df passengers_df);
  load_to_staging sch passengers_df tickets_df;;
  transform_and_load sch;;
  show_analytics w;;
  logger_info Completed.

(** ** A concrete schema and concrete runs

    The column types the program's SQL suggests: integer keys, [sibsp],
    [parch] and [class]; text [name], [sex], [embarked], [ticket] and
    [cabin]; numeric [age] and [fare]; no constraint besides the primary
    keys.  A column the frame does not carry is stored as NULL.  The
    locale is a UTF-8 one, of which the letters of the Latin-1 Supplement
    are modelled. *)
Module Titanic.

Definition field (r : Pandas.Row) (label : string) : Pandas.Cell :=
  match List.find (fun c => String.eqb (fst c) label) r with
  | Some c => snd c
  | None => Pandas.NaN
  end.

Definition as_integer (c : Pandas.Cell) : option (option Z) :=
  match c with
  | Pandas.NaN => Some None
  | Pandas.IntCell z => Some (Some z)
  | _ => None
  end.

Definition as_numeric (c : Pandas.Cell) : option (option Q) :=
  match c with
  | Pandas.NaN => Some None
  | Pandas.IntCell z => Some (Some (z # 1))
  | Pandas.FloatCell q => Some (Some q)
  | Pandas.StrCell _ => None
  end.

Definition as_text (c : Pandas.Cell) : option (option string) :=
  match c with
  | Pandas.NaN => Some None
  | Pandas.StrCell s => Some (Some s)
  | _ => None
  end.

Definition stage_passenger (r : Pandas.Row) : option StagingPassenger.t :=
  passenger_id ← as_integer (field r "passenger_id");
  name ← as_text (field r "name");
  sex ← as_text (field r "sex");
  age ← as_numeric (field r "age");
  sibsp ← as_integer (field r "sibsp");
  parch ← as_integer (field r "parch");
  fare ← as_numeric (field r "fare");
  embarked ← as_text (field r "embarked");
  Some (StagingPassenger.mk passenger_id name sex age sibsp parch fare embarked).

Definition stage_ticket (r : Pandas.Row) : option StagingTicket.t :=
  ticket_id ← as_integer (field r "ticket_id");
  passenger_id ← as_integer (field r "passenger_id");
  ticket ← as_text (field r "ticket");
  class ← as_integer (field r "class");
  cabin ← as_text (field r "cabin");
  Some (StagingTicket.mk ticket_id passenger_id ticket class cabin).

(** The upper-case letters U+00C0 to U+00DE (without the sign U+00D7) are
    the byte 195 followed by a byte from 128 to 158 (without 151); the
    second byte of their lower-case letters is 32 higher. *)
Definition latin1_upper (c d : ascii) : bool :=
  (nat_of_ascii c =? 195)%nat
  && (128 <=? nat_of_ascii d)%nat && (nat_of_ascii d <=? 158)%nat
  && negb (nat_of_ascii d =? 151)%nat.

Fixpoint latin1_lower (s : string) : string :=
  match s with
  | EmptyString => EmptyString
  | String c EmptyString => s
  | String c (String d s' as t) =>
      if latin1_upper c d
      then String c (String (ascii_of_nat (nat_of_ascii d + 32)) (latin1_lower s'))
      else String c (latin1_lower t)
  end.

Definition schema : Schema :=
  mkSchema stage_passenger stage_ticket (fun _ _ => true) (fun _ _ _ => true)
    latin1_lower.

Definition empty_table {R} : StagingTable R := mkStagingTable [] None.

Definition empty_db : DB := mkDB empty_table empty_table ∅ ∅.

(** The two-passenger file of the end-to-end scenario. *)
Definition two_passengers : Pandas.DataFrame :=
  Pandas.mkDataFrame 2
    [ ("PassengerId", [Pandas.IntCell 1; Pandas.IntCell 2]);
      ("Name", [Pandas.StrCell " Alice "; Pandas.StrCell "Bob"]);
      ("Sex", [Pandas.StrCell "Female"; Pandas.StrCell "Male"]);
      ("Age", [Pandas.NaN; Pandas.FloatCell (40 # 1)]);
      ("SibSp", [Pandas.IntCell 1; Pandas.IntCell 0]);
      ("Parch", [Pandas.IntCell 0; Pandas.IntCell 0]);
      ("Embarked", [Pandas.StrCell "C"; Pandas.NaN]) ].

(** A world with one readable file, [passengers.csv], a reachable database
    and an empty report. *)
Definition world (df : Pandas.DataFrame) : World :=
  mkWorld (fun p => String.eqb p "passengers.csv")
          (fun p => if String.eqb p "passengers.csv" then Some df else None)
          true
          (fun _ => Some []).

End Titanic.

(** ** The specification's reading of the name rule

    "name = trimmed of surrounding whitespace": every whitespace character
    (space, tab, line feed, vertical tab, form feed, carriage return) is
    stripped from both ends. *)
Module Spec.

Definition is_whitespace (c : ascii) : bool :=
  let n := nat_of_ascii c in
  (n =? 32)%nat || ((9 <=? n)%nat && (n <=? 13)%nat).

Definition strip_whitespace (s : string) : string := Sql.btrim is_whitespace s.

End Spec.

(** A staged passenger whose name starts with a tab. *)
Definition tab : string := String (ascii_of_nat 9) EmptyString.

Definition tab_bob : StagingPassenger.t :=
  StagingPassenger.mk (Some 7%Z) (Some (tab +:+ "Bob")) (Some "male")
    (Some (40 # 1)) None None None (Some "Q").

Definition tab_db : DB :=
  mkDB (mkStagingTable [tab_bob] None) Titanic.empty_table ∅ ∅.

(** A staged passenger whose name and sex hold letters outside ASCII. *)
Definition zoe : StagingPassenger.t :=
  StagingPassenger.mk (Some 3%Z) (Some " Zoé ") (Some "Female ÉÄ") None
    None (Some 2%Z) None None.

Definition accent_db : DB :=
  mkDB (mkStagingTable [zoe] None) Titanic.empty_table ∅ ∅.

(** The staging tables of the end-to-end scenario. *)
Definition alice : StagingPassenger.t :=
  StagingPassenger.mk (Some 1%Z) (Some " Alice ") (Some "Female") None
    (Some 1%Z) (Some 0%Z) None (Some "C").

Definition bob : StagingPassenger.t :=
  StagingPassenger.mk (Some 2%Z) (Some "Bob") (Some "Male") (Some (40 # 1))
    (Some 0%Z) (Some 0%Z) None None.

Definition ticket_of (i : Z) (number : string) : StagingTicket.t :=
  StagingTicket.mk (Some i) (Some i) (Some number) (Some 3%Z) (Some "Unknown").

Definition staged_db : DB :=
  mkDB (mkStagingTable [alice; bob] None)
       (mkStagingTable [ticket_of 1 "T1"; ticket_of 2 "T2"] None) ∅ ∅.

(** Staging tables in which the second passenger repeats the key of the
    first, over final tables that already hold a row each. *)
Definition old_passenger : Passenger.t :=
  Passenger.mk (Some "Carol") (Some "female") (22 # 1) 1 "S".

Definition old_ticket : Ticket.t :=
  Ticket.mk (Some 9%Z) (Some "T9") (Some 1%Z) (Some "C85").

Definition clash_db : DB :=
  mkDB (mkStagingTable [alice; alice] None)
       (mkStagingTable [ticket_of 1 "T1"] None)
       {[ 9%Z := old_passenger ]} {[ 9%Z := old_ticket ]}.

(** The Ticket batch of the scenario, a Ticket batch the database refuses,
    a batch without rows, and staging tables that hold rows of an earlier
    run and have drawn five values from their sequences. *)
Definition two_tickets : Pandas.DataFrame :=
  Pandas.mkDataFrame 2
    [ ("ticket_id", [Pandas.IntCell 1; Pandas.IntCell 2]);
      ("passenger_id", [Pandas.IntCell 1; Pandas.IntCell 2]);
      ("ticket", [Pandas.StrCell "T1"; Pandas.StrCell "T2"]);
      ("class", [Pandas.IntCell 3; Pandas.IntCell 3]);
      ("cabin", [Pandas.StrCell "Unknown"; Pandas.StrCell "Unknown"]) ].

Definition bad_tickets : Pandas.DataFrame :=
  Pandas.mkDataFrame 1 [("ticket_id", [Pandas.StrCell "x"])].

Definition no_rows : Pandas.DataFrame := Pandas.mkDataFrame 0 [].

Definition used_db : DB :=
  mkDB (mkStagingTable [bob] (Some 5)) (mkStagingTable [ticket_of 9 "T9"] (Some 5))
       {[ 9%Z := old_passenger ]} {[ 9%Z := old_ticket ]}.

(** A passengers file whose two records have the same PassengerId. *)
Definition twins : Pandas.DataFrame :=
  Pandas.mkDataFrame 2
    [ ("PassengerId", [Pandas.IntCell 1; Pandas.IntCell 1]);
      ("Name", [Pandas.StrCell "Ann"; Pandas.StrCell "Amy"]);
      ("Age", [Pandas.FloatCell (4 # 1); Pandas.FloatCell (4 # 1)]) ].

Definition twin_tickets : Pandas.DataFrame :=
  Pandas.mkDataFrame 2
    [ ("ticket_id", [Pandas.IntCell 1; Pandas.IntCell 1]);
      ("passenger_id", [Pandas.IntCell 1; Pandas.IntCell 1]);
      ("ticket", [Pandas.StrCell "T1"; Pandas.StrCell "T2"]);
      ("class", [Pandas.IntCell 3; Pandas.IntCell 3]);
      ("cabin", [Pandas.StrCell "Unknown"; Pandas.StrCell "Unknown"]) ].

(** The database right after [DELETE FROM tickets; DELETE FROM passengers;]. *)
Definition cleared (db : DB) : DB := set_passengers ∅ (set_tickets ∅ db).

(** The events of a promotion up to and including the passengers INSERT. *)
Definition promotion_prefix : list Event :=
  [EvBegin; EvSql DeleteTickets; EvSql DeletePassengers; EvSql InsertPassengers].

(** The statement [to_sql] sends for a frame: one INSERT, and none for a
    frame without rows. *)
Definition append_events (s : Stmt) (df : Pandas.DataFrame) : list Event :=
  if (Pandas.index_len df =? 0)%nat then [] else [EvSql s].

(** The events of a staging load up to and including the passengers append. *)
Definition staging_prefix (passengers_df : Pandas.DataFrame) : list Event :=
  [EvBegin; EvSql TruncateStaging]
  ++ append_events AppendStagingPassengers passengers_df.

(** A file with a key, a name and a column the program does not know, and
    no Age column. *)
Definition no_age : Pandas.DataFrame :=
  Pandas.mkDataFrame 1
    [ ("PassengerId", [Pandas.IntCell 1]);
      ("Name", [Pandas.StrCell "Alice"]);
      ("Ticket", [Pandas.StrCell "A/5 21171"]) ].

(** The events of [main] up to the successful connection check. *)
Definition connected (p : string) : list Event :=
  [EvInfo Starting; EvExists p true; EvConnect; EvSql SelectOne;
   EvInfo ConnectionSuccessful].

(** The events of [main] up to the prepared Passenger batch. *)
Definition prepared (p : string) (raw : Pandas.DataFrame) (x : Pandas.Item)
  : list Event :=
  connected p
  ++ [EvReadCsv p; EvInfo (LoadedRows (Pandas.index_len raw) p);
      EvInfo (DataPrepared (Pandas.index_len (prepare raw)) (Pandas.isna_sum x))].

(** The last four statements of [main]. *)
Definition pipeline (sch : Schema) (w : World)
    (passengers_df tickets_df : Pandas.DataFrame) : M unit :=
  load_to_staging sch passengers_df tickets_df;;
  transform_and_load sch;;
  show_analytics w;;
  logger_info Completed.

(** Events that record a failure: a path that does not exist, an error
    line of the log, a rolled-back transaction. *)
Definition failure_event (ev : Event) : bool :=
  match ev with
  | EvExists _ false => true
  | EvError _ => true
  | EvRollback => true
  | _ => false
  end.

(** Events of the two transactional stages. *)
Definition store_event (ev : Event) : bool :=
  match ev with
  | EvBegin | EvCommit | EvRollback => true
  | EvSql SelectOne => false
  | EvSql SelectAnalytics => false
  | EvSql _ => true
  | _ => false
  end.

(** What [show_analytics] produces. *)
Definition report_event (ev : Event) : bool :=
  match ev with
  | EvSql SelectAnalytics => true
  | EvInfo AnalyticsResults => true
  | EvInfo AnalyticsHeader => true
  | EvInfo (AnalyticsRow _) => true
  | _ => false
  end.

(** A run that comes after the events [t]. *)
Definition prepend {A} (t : list Event) (r : Run A) : Run A :=
  mkRun (result r) (final r) (t ++ trace r).

(** ** Further concrete data and event classes *)

(** An upper-case ASCII letter. *)
Definition is_upper_ascii (c : ascii) : bool :=
  let n := nat_of_ascii c in
  (65 <=? n)%nat && (n <=? 90)%nat.

(** A row of the report without a null field. *)
Definition complete_row (r : Summary) : bool :=
  match s_sex r, s_embarked r, s_avg_age r, s_passenger_count r with
  | Some _, Some _, Some _, Some _ => true
  | _, _, _, _ => false
  end.

(** The events of a report that prints the rows [rows]. *)
Definition report_of (rows : list Summary) : list Event :=
  [EvSql SelectAnalytics; EvInfo AnalyticsResults; EvInfo AnalyticsHeader]
  ++ ((fun r => EvInfo (AnalyticsRow r)) <$> rows).

(** Staging tables with a ticket whose passenger is not staged. *)
Definition orphan_ticket : StagingTicket.t :=
  StagingTicket.mk (Some 5%Z) (Some 99%Z) (Some "PC 17599") None None.

Definition orphan_db : DB :=
  mkDB (mkStagingTable [alice] None) (mkStagingTable [orphan_ticket] None) ∅ ∅.

(** The scenario's staging tables over final tables that hold a row each
    from an earlier run. *)
Definition stale_db : DB :=
  mkDB (staging_passengers staged_db) (staging_tickets staged_db)
       {[ 9%Z := old_passenger ]} {[ 9%Z := old_ticket ]}.

(** Two rows of a report, and a row for the passengers whose sex is null. *)
Definition report_rows : list Summary :=
  [ mkSummary (Some "male") (Some "S") (Some (40 # 1)) (Some 1%Z);
    mkSummary (Some "female") (Some "C") (Some (30 # 1)) (Some 1%Z) ].

Definition null_sex_row : Summary :=
  mkSummary None (Some "Q") (Some (30 # 1)) (Some 3%Z).

(** Events that [main] produces before the staging stage. *)
Definition prelude_event (ev : Event) : bool :=
  match ev with
  | EvExists _ _ | EvConnect | EvReadCsv _ | EvError _ => true
  | EvSql SelectOne => true
  | EvInfo Starting | EvInfo ConnectionSuccessful => true
  | EvInfo (LoadedRows _ _) | EvInfo (DataPrepared _ _) => true
  | _ => false
  end.

(** The database after a staging load of the rows [ps] and [ts]. *)
Definition staged (ps : list StagingPassenger.t) (ts : list StagingTicket.t)
    (db : DB) : DB :=
  mkDB (append_rows ps (truncate_restart (staging_passengers db)))
       (append_rows ts (truncate_restart (staging_tickets db)))
       (passengers db) (tickets db).

(** The events of a staging load and of a promotion that commit. *)
Definition staged_events (passengers_df tickets_df : Pandas.DataFrame)
  : list Event :=
  staging_prefix passengers_df
  ++ append_events AppendStagingTickets tickets_df
  ++ [EvCommit; EvInfo StagingLoaded].

Definition promoted_events : list Event :=
  promotion_prefix ++ [EvSql InsertTickets; EvCommit; EvInfo TransformationComplete].

(** The scenario's world with a report that has a row for passengers whose
    sex is null. *)
Definition null_report_world : World :=
  mkWorld (fun p => String.eqb p "passengers.csv")
          (fun p => if String.eqb p "passengers.csv"
                    then Some Titanic.two_passengers else None)
          true
          (fun _ => Some [null_sex_row]).

(** A file with names and ages and no PassengerId column. *)
Definition no_key : Pandas.DataFrame :=
  Pandas.mkDataFrame 1
    [ ("Name", [Pandas.StrCell "Alice"]);
      ("Age", [Pandas.FloatCell (29 # 1)]) ].

(** A world whose passengers file exists and cannot be parsed. *)
Definition unreadable_world : World :=
  mkWorld (fun p => String.eqb p "passengers.csv") (fun _ => None) true
          (fun _ => Some []).

(** A world whose database refuses the connection. *)
Definition offline_world : World :=
  mkWorld (fun p => String.eqb p "passengers.csv")
          (fun p => if String.eqb p "passengers.csv"
                    then Some Titanic.two_passengers else None)
          false
          (fun _ => Some []).

(** A file whose columns come in another order than the column map, with
    one label already canonical and one column the map does not know. *)
Definition shuffled : Pandas.DataFrame :=
  Pandas.mkDataFrame 1
    [ ("Embarked", [Pandas.StrCell "Q"]);
      ("Cabin", [Pandas.StrCell "C85"]);
      ("age", [Pandas.FloatCell (22 # 1)]);
      ("Name", [Pandas.StrCell "Carol"]);
      ("PassengerId", [Pandas.IntCell 3]) ].

(** Events that touch the file content or the tables. *)
Definition data_event (ev : Event) : bool :=
  match ev with
  | EvReadCsv _ => true
  | EvBegin | EvCommit | EvRollback => true
  | EvSql _ => true
  | _ => false
  end.

(** * Properties *)

(** ** The monad *)

Ltac unfold_M :=
  unfold mbind, M_bind, bind, mret, M_ret, ret, raise, emit, modify, get, put,
    sys_exit, logger_info, logger_error, try_except, engine_begin in *.

Lemma bind_ok {A B} (m : M A) (k : A → M B) db a db1 t1 :
  m db = mkRun (Ok a) db1 t1 → (m ≫= k) db = prepend t1 (k a db1).
Proof. intros H. unfold mbind, M_bind, bind. by rewrite H. Qed.

Lemma bind_raise {A B} (m : M A) (k : A → M B) db e db1 t1 :
  m db = mkRun (Raise e) db1 t1 → (m ≫= k) db = mkRun (Raise e) db1 t1.
Proof. intros H. unfold mbind, M_bind, bind. by rewrite H. Qed.

Lemma logger_info_run l db : logger_info l db = mkRun (Ok tt) db [EvInfo l].
Proof. reflexivity. Qed.

Lemma logger_error_run l db : logger_error l db = mkRun (Ok tt) db [EvError l].
Proof. reflexivity. Qed.

Lemma run_result {A} (r : Result A) d t : result (mkRun r d t) = r.
Proof. reflexivity. Qed.

Lemma run_final {A} (r : Result A) d t : final (mkRun r d t) = d.
Proof. reflexivity. Qed.

Lemma run_trace {A} (r : Result A) d t : trace (mkRun r d t) = t.
Proof. reflexivity. Qed.

Ltac run_proj := cbv beta iota; rewrite ?run_result, ?run_final, ?run_trace.

(** ** SQL string functions *)

Lemma append_cons c (l x : string) : String c l +:+ x = String c (l +:+ x).
Proof. reflexivity. Qed.

Lemma append_empty (x : string) : "" +:+ x = x.
Proof. reflexivity. Qed.

Lemma ltrim_decompose p s :
  ∃ l, s = l +:+ Sql.ltrim p s ∧ Sql.all_chars p l = true
       ∧ Sql.starts_with p (Sql.ltrim p s) = false.
Proof.
  induction s as [|c s IH]; simpl.
  - by exists "".
  - destruct (p c) eqn:Hc.
    + destruct IH as (l & Hs & Hl & Hst).
      exists (String c l). rewrite append_cons. simpl. rewrite Hc, Hl.
      split; [by f_equal|done].
    + exists "". rewrite append_empty. simpl. by rewrite Hc.
Qed.

Lemma rtrim_decompose p s :
  ∃ t, s = Sql.rtrim p s +:+ t ∧ Sql.all_chars p t = true
       ∧ Sql.ends_with p (Sql.rtrim p s) = false.
Proof.
  induction s as [|c s IH]; simpl.
  - by exists "".
  - destruct IH as (t & Hs & Ht & He).
    destruct (Sql.rtrim p s) as [|d u] eqn:Hr.
    + rewrite append_empty in Hs. subst t. destruct (p c) eqn:Hc.
      * exists (String c s). rewrite append_empty. simpl. by rewrite Hc, Ht.
      * exists s. rewrite append_cons, append_empty. simpl. by rewrite Hc.
    + exists t. rewrite append_cons. split; [by f_equal|]. split; [done|].
      simpl in He. done.
Qed.

Lemma rtrim_starts_with p s :
  Sql.starts_with p s = false → Sql.starts_with p (Sql.rtrim p s) = false.
Proof.
  destruct s as [|c s]; simpl; [done|].
  intros Hc. destruct (Sql.rtrim p s); simpl; [|done].
  by rewrite Hc.
Qed.

(** [TRIM] removes a run of spaces at each end and nothing else, and what
    is left neither starts nor ends with a space. *)
Lemma trim_decompose s :
  ∃ l t, s = l +:+ (Sql.trim s +:+ t)
         ∧ Sql.all_chars Sql.is_space l = true
         ∧ Sql.all_chars Sql.is_space t = true
         ∧ Sql.starts_with Sql.is_space (Sql.trim s) = false
         ∧ Sql.ends_with Sql.is_space (Sql.trim s) = false.
Proof.
  unfold Sql.trim, Sql.btrim.
  destruct (ltrim_decompose Sql.is_space s) as (l & Hs & Hl & Hst).
  destruct (rtrim_decompose Sql.is_space (Sql.ltrim Sql.is_space s)) as (t & Hm & Ht & He).
  exists l, t. split; [|by auto using rtrim_starts_with].
  by rewrite <- Hm.
Qed.

(** ** The upsert *)

Section UpsertFacts.

Context {S R : Type}.
Variable key : S → option Z.
Variable excluded : S → R.
Variable constraint : Z → R → bool.
Variable do_update : R → R → R.
Hypothesis do_update_excluded : ∀ existing new, do_update existing new = new.

Lemma upsert_insert (src : list S) written (tbl tbl' : gmap Z R) :
  upsert key excluded constraint do_update src written tbl = inr tbl' →
  (∀ s, s ∈ src →
     ∃ k, key s = Some k ∧ (k ∉ written) ∧ constraint k (excluded s) = true
          ∧ tbl' !! k = Some (excluded s))
  ∧ (∀ k, (∀ s, s ∈ src → key s ≠ Some k) → tbl' !! k = tbl !! k).
Proof.
  revert written tbl. induction src as [|s src IH]; intros written tbl; simpl.
  - intros [= <-]. split; [by intros s ?%elem_of_nil|done].
  - destruct (key s) as [k|] eqn:Hk; [|done].
    destruct (constraint k (excluded s)) eqn:Hc; simpl; [|done].
    destruct (decide (k ∈ written)) as [|Hfresh]; [done|].
    intros H. apply IH in H as [Hin Hout]. split.
    + intros s' [->|Hs']%elem_of_cons.
      * exists k. repeat split; try done.
        rewrite Hout.
        -- rewrite lookup_insert_eq. destruct (tbl !! k); by rewrite ?do_update_excluded.
        -- intros s' Hs' Hk'. destruct (Hin s' Hs') as (k' & Hk'' & Hnot & _).
           assert (k' = k) as -> by congruence.
           apply Hnot, elem_of_union. left. by apply elem_of_singleton.
      * destruct (Hin s' Hs') as (k' & ? & Hnot & ? & ?).
        exists k'. repeat split; try done.
        intros ?. apply Hnot, elem_of_union. by right.
    + intros k' Hk'. rewrite Hout.
      * apply lookup_insert_ne. intros ->. by apply (Hk' s); [left|].
      * intros s' Hs'. apply Hk'. by right.
Qed.

(** A statement that succeeds has read pairwise distinct keys. *)
Lemma upsert_keys_distinct (src : list S) written (tbl tbl' : gmap Z R) :
  upsert key excluded constraint do_update src written tbl = inr tbl' →
  NoDup (key <$> src).
Proof.
  revert written tbl. induction src as [|s src IH]; intros written tbl; simpl.
  - intros _. constructor.
  - destruct (key s) as [k|] eqn:Hk; [|done].
    destruct (constraint k (excluded s)); simpl; [|done].
    destruct (decide (k ∈ written)); [done|].
    intros H. constructor; [|by apply IH in H].
    intros (s' & Hk' & Hs')%list_elem_of_fmap.
    destruct (upsert_insert _ _ _ _ H) as [Hin _].
    destruct (Hin s' Hs') as (k' & Hk'' & Hnot & _).
    assert (k' = k) as -> by congruence.
    apply Hnot, elem_of_union. left. by apply elem_of_singleton.
Qed.

(** Every key of the table after the statement was there before or was read
    from the source. *)
Lemma upsert_keys (src : list S) written (tbl tbl' : gmap Z R) :
  upsert key excluded constraint do_update src written tbl = inr tbl' →
  ∀ k, is_Some (tbl' !! k) →
       is_Some (tbl !! k) ∨ ∃ s, s ∈ src ∧ key s = Some k.
Proof.
  revert written tbl. induction src as [|s src IH]; intros written tbl; simpl.
  - intros [= <-] k Hk. by left.
  - destruct (key s) as [k0|] eqn:Hk0; [|done].
    destruct (constraint k0 (excluded s)); simpl; [|done].
    destruct (decide (k0 ∈ written)); [done|].
    intros H k Hk. destruct (IH _ _ H k Hk) as [Hold | (s' & Hs' & Hk')].
    + destruct (decide (k0 = k)) as [<-|Hne].
      * right. exists s. split; [left|done].
      * left. by rewrite lookup_insert_ne in Hold.
    + right. exists s'. split; [by right|done].
Qed.

End UpsertFacts.

Lemma update_passenger_excluded existing new : update_passenger existing new = new.
Proof. by destruct new. Qed.

Lemma update_ticket_excluded existing new : update_ticket existing new = new.
Proof. by destruct new. Qed.


(** ** [transform_and_load] as one equation *)

Ltac run_M :=
  cbv beta iota zeta delta
    [mbind M_bind bind mret M_ret ret raise emit modify get put sys_exit
     logger_info logger_error try_except engine_begin result final trace].

Lemma transform_and_load_run sch db :
  transform_and_load sch db =
  match upsert_passengers sch (cleared db) with
  | inl st =>
      mkRun (Raise (SQLError st)) db (promotion_prefix ++ [EvRollback])
  | inr ps =>
      match upsert_tickets sch (set_passengers ps (cleared db)) with
      | inl st =>
          mkRun (Raise (SQLError st)) db
            (promotion_prefix ++ [EvSql InsertTickets; EvRollback])
      | inr ts =>
          mkRun (Ok tt) (set_tickets ts (set_passengers ps (cleared db)))
            (promotion_prefix
               ++ [EvSql InsertTickets; EvCommit; EvInfo TransformationComplete])
      end
  end.
Proof.
  unfold transform_and_load, delete_final, insert_passengers, insert_tickets.
  run_M.
  change (set_passengers ∅ (set_tickets ∅ db)) with (cleared db).
  destruct (upsert_passengers sch (cleared db)) as [st|ps]; [reflexivity|].
  run_M.
  destruct (upsert_tickets sch (set_passengers ps (cleared db))) as [st|ts];
    reflexivity.
Qed.

Lemma promoted_tables sch db ps ts :
  upsert_passengers sch (cleared db) = inr ps →
  upsert_tickets sch (set_passengers ps (cleared db)) = inr ts →
  transform_and_load sch db
  = mkRun (Ok tt) (set_tickets ts (set_passengers ps (cleared db)))
      (promotion_prefix
         ++ [EvSql InsertTickets; EvCommit; EvInfo TransformationComplete]).
Proof. intros Hp Ht. by rewrite transform_and_load_run, Hp, Ht. Qed.

Lemma promotion_succeeded sch db :
  result (transform_and_load sch db) = Ok tt →
  ∃ ps ts,
    upsert_passengers sch (cleared db) = inr ps
    ∧ upsert_tickets sch (set_passengers ps (cleared db)) = inr ts.
Proof.
  rewrite transform_and_load_run.
  destruct (upsert_passengers sch (cleared db)) as [st|ps]; [done|].
  destruct (upsert_tickets sch (set_passengers ps (cleared db))) as [st|ts] eqn:Ht;
    [done|].
  by exists ps, ts.
Qed.

Lemma promotion_failed sch db e :
  result (transform_and_load sch db) = Raise e →
  final (transform_and_load sch db) = db
  ∧ (∃ st, e = SQLError st)
  ∧ (trace (transform_and_load sch db) = promotion_prefix ++ [EvRollback]
     ∨ trace (transform_and_load sch db)
       = promotion_prefix ++ [EvSql InsertTickets; EvRollback]).
Proof.
  rewrite transform_and_load_run.
  destruct (upsert_passengers sch (cleared db)) as [st|ps]; simpl.
  { intros [= <-]. eauto. }
  destruct (upsert_tickets sch (set_passengers ps (cleared db))) as [st|ts]; simpl; [|done].
  intros [= <-]. eauto.
Qed.

(** C1, as amended: when the promotion succeeds, every staging Passenger
    row has a key, and the final Passenger row under that key has name equal
    to the staged name with the spaces (U+0020) at both ends removed, sex
    equal to [LOWER] of the staged sex under the locale of the database
    (the letters A to Z lower-cased, and the letters outside ASCII as the
    case mapping of that locale says), age equal to the staged age or 30.0
    when that is null, family_size equal to sibsp + parch + 1 with a null
    sibsp or parch counted as 0, and embarked equal to the staged embarked
    or 'S' when that is null; a null name or sex stays null. *)
Theorem promoted_passenger_fields sch db (r : StagingPassenger.t) :
  result (transform_and_load sch db) = Ok tt →
  r ∈ table_rows (staging_passengers db) →
  ∃ k p,
    StagingPassenger.passenger_id r = Some k
    ∧ passengers (final (transform_and_load sch db)) !! k = Some p
    ∧ Passenger.name p = Sql.trim <$> StagingPassenger.name r
    ∧ Passenger.sex p
      = Sql.lower (lc_ctype sch) <$> StagingPassenger.sex r
    ∧ Passenger.age p = default (30 # 1) (StagingPassenger.age r)
    ∧ Passenger.family_size p
      = (default 0 (StagingPassenger.sibsp r)
         + default 0 (StagingPassenger.parch r) + 1)%Z
    ∧ Passenger.embarked p = default "S" (StagingPassenger.embarked r).
Proof.
  intros (ps & ts & Hp & Ht)%promotion_succeeded Hr.
  rewrite (promoted_tables _ _ _ _ Hp Ht). simpl.
  apply upsert_insert in Hp as [Hin _]; [|apply update_passenger_excluded].
  destruct (Hin r Hr) as (k & Hk & _ & _ & Hlook).
  exists k, (select_passenger sch r). split; [done|]. split; [done|].
  destruct r as [pid name sex age sibsp parch fare embarked]; simpl.
  by destruct age, sibsp, parch, embarked.
Qed.

(** On a staged row whose name and sex hold letters outside ASCII, under
    the UTF-8 locale of the scenario: the stored sex is lower-cased in its
    ASCII and in its accented letters. *)
Lemma promoted_passenger_fields_witness :
  result (transform_and_load Titanic.schema accent_db) = Ok tt
  ∧ zoe ∈ table_rows (staging_passengers accent_db)
  ∧ ∃ p,
      passengers (final (transform_and_load Titanic.schema accent_db)) !! 3%Z
      = Some p
      ∧ Passenger.name p = Some "Zoé"
      ∧ Passenger.sex p = Some "female éä"
      ∧ Passenger.age p = (30 # 1)
      ∧ Passenger.family_size p = 3%Z
      ∧ Passenger.embarked p = "S".
Proof.
  assert (Hok : result (transform_and_load Titanic.schema accent_db) = Ok tt)
    by (vm_compute; reflexivity).
  assert (Hin : zoe ∈ table_rows (staging_passengers accent_db))
    by (simpl; left).
  split; [exact Hok|]. split; [exact Hin|].
  destruct (promoted_passenger_fields Titanic.schema accent_db zoe Hok Hin)
    as (k & p & Hk & Hp & Hname & Hsex & Hage & Hfam & Hemb).
  injection Hk as <-. exists p. split; [exact Hp|].
  split; [exact Hname|]. split; [exact Hsex|]. split; [exact Hage|].
  split; [exact Hfam|exact Hemb].
Defined.

(** C1 as the specification words it fails on a name that starts with a
    tab: the promotion of [tab_db] succeeds and stores the name with its
    tab, whereas the name trimmed of surrounding whitespace is "Bob". *)
Lemma promoted_name_keeps_tab :
  result (transform_and_load Titanic.schema tab_db) = Ok tt
  ∧ Passenger.name <$> passengers (final (transform_and_load Titanic.schema tab_db)) !! 7%Z
    = Some (Some (tab +:+ "Bob"))
  ∧ Spec.strip_whitespace <$> StagingPassenger.name tab_bob = Some "Bob"
  ∧ Passenger.name <$> passengers (final (transform_and_load Titanic.schema tab_db)) !! 7%Z
    ≠ Some (Spec.strip_whitespace <$> StagingPassenger.name tab_bob).
Proof.
  split; [by vm_compute|]. split; [by vm_compute|]. split; [by vm_compute|].
  vm_compute. intros H. discriminate H.
Qed.

(** The promotion reads the staging tables only: what the final tables held
    before does not reach its result. *)
Lemma cleared_idem db ps ts :
  cleared (set_tickets ts (set_passengers ps (cleared db))) = cleared db.
Proof. reflexivity. Qed.

(** C2: running the transform-and-promote step a second time on the
    database the first run left (the staging tables are the same) ends the
    same way and leaves the same database: the same final tables after a
    successful first run, and the untouched ones after a failed first run. *)
Theorem promotion_idempotent sch db :
  let once := transform_and_load sch db in
  let twice := transform_and_load sch (final once) in
  final twice = final once
  ∧ result twice = result once
  ∧ passengers (final twice) = passengers (final once)
  ∧ tickets (final twice) = tickets (final once).
Proof.
  cbv zeta.
  assert (H : final (transform_and_load sch (final (transform_and_load sch db)))
              = final (transform_and_load sch db)
            ∧ result (transform_and_load sch (final (transform_and_load sch db)))
              = result (transform_and_load sch db)).
  { rewrite (transform_and_load_run sch db).
    destruct (upsert_passengers sch (cleared db)) as [st|ps] eqn:Hp; simpl.
    { by rewrite transform_and_load_run, Hp. }
    destruct (upsert_tickets sch (set_passengers ps (cleared db))) as [st|ts] eqn:Ht; simpl.
    { by rewrite transform_and_load_run, Hp, Ht. }
    rewrite transform_and_load_run, cleared_idem, Hp, Ht. done. }
  destruct H as [Hf Hr]. by rewrite Hf.
Qed.

(** The same staging tables promote to the same final tables, whatever the
    final tables held before. *)
Lemma promotion_reads_staging_only sch db db' :
  staging_passengers db' = staging_passengers db →
  staging_tickets db' = staging_tickets db →
  result (transform_and_load sch db) = Ok tt →
  result (transform_and_load sch db') = Ok tt
  ∧ passengers (final (transform_and_load sch db'))
    = passengers (final (transform_and_load sch db))
  ∧ tickets (final (transform_and_load sch db'))
    = tickets (final (transform_and_load sch db)).
Proof.
  intros Hsp Hst (ps & ts & Hp & Ht)%promotion_succeeded.
  assert (Hc : cleared db' = cleared db).
  { unfold cleared, set_passengers, set_tickets. simpl. by rewrite Hsp, Hst. }
  rewrite (promoted_tables _ _ _ _ Hp Ht).
  rewrite <- Hc in Hp, Ht. by rewrite (promoted_tables _ _ _ _ Hp Ht).
Qed.

(** C5: when a statement of the transform-and-promote transaction fails,
    the transaction is rolled back, so that the database, and with it the
    final passengers and tickets tables, is exactly the one from before the
    transaction; the exception is an SQL error that leaves
    [transform_and_load], nothing that follows it in the run is executed,
    and the process ends with status 1. *)
Theorem failed_promotion_rolls_back sch db e :
  result (transform_and_load sch db) = Raise e →
  final (transform_and_load sch db) = db
  ∧ passengers (final (transform_and_load sch db)) = passengers db
  ∧ tickets (final (transform_and_load sch db)) = tickets db
  ∧ last (trace (transform_and_load sch db)) = Some EvRollback
  ∧ (∀ rest : M unit,
       (transform_and_load sch;; rest) db = transform_and_load sch db)
  ∧ exit_status (result (transform_and_load sch db)) = 1%Z.
Proof.
  intros He. destruct (promotion_failed _ _ _ He) as (Hf & [st ->] & Htr).
  split; [done|]. rewrite Hf. split; [done|]. split; [done|]. split.
  { by destruct Htr as [-> | ->]. }
  split; [|by rewrite He].
  intros rest. unfold_M. rewrite He.
  destruct (transform_and_load sch db) as [res fin tr]. simpl in *. by subst.
Qed.

(** On [clash_db] the second staged passenger repeats the key of the first:
    the INSERT fails on its second row, after both DELETEs and the first
    insertion, and the old rows are all there afterwards. *)
Lemma failed_promotion_rolls_back_witness :
  result (transform_and_load Titanic.schema clash_db)
  = Raise (SQLError CardinalityViolation)
  ∧ final (transform_and_load Titanic.schema clash_db) = clash_db
  ∧ passengers (final (transform_and_load Titanic.schema clash_db)) = passengers clash_db
  ∧ tickets (final (transform_and_load Titanic.schema clash_db)) = tickets clash_db
  ∧ last (trace (transform_and_load Titanic.schema clash_db)) = Some EvRollback
  ∧ (∀ rest : M unit,
       (transform_and_load Titanic.schema;; rest) clash_db
       = transform_and_load Titanic.schema clash_db)
  ∧ exit_status (result (transform_and_load Titanic.schema clash_db)) = 1%Z.
Proof.
  assert (He : result (transform_and_load Titanic.schema clash_db)
               = Raise (SQLError CardinalityViolation))
    by (vm_compute; reflexivity).
  split; [exact He|].
  exact (failed_promotion_rolls_back Titanic.schema clash_db _ He).
Defined.

(** The promotion fails whenever a staged passenger has no key or two
    staged passengers have the same key: the staging tables enforce
    neither, the INSERT into [passengers] does. *)
Lemma promotion_fails_on_bad_keys sch db :
  None ∈ StagingPassenger.passenger_id <$> table_rows (staging_passengers db)
  ∨ ¬ NoDup (StagingPassenger.passenger_id <$> table_rows (staging_passengers db)) →
  ∃ st, result (transform_and_load sch db) = Raise (SQLError st).
Proof.
  intros Hbad. rewrite transform_and_load_run.
  destruct (upsert_passengers sch (cleared db)) as [st|ps] eqn:Hp; [by eexists|].
  exfalso. destruct Hbad as [Hnull | Hdup].
  - apply list_elem_of_fmap in Hnull as (r & Hr & Hin).
    apply upsert_insert in Hp as [Hall _]; [|apply update_passenger_excluded].
    destruct (Hall r Hin) as (k & Hk & _). congruence.
  - apply Hdup.
    apply upsert_keys_distinct in Hp; [exact Hp|apply update_passenger_excluded].
Qed.

(** C7: in every run of the transform-and-promote step, successful or not,
    the statement that clears the final Ticket table is executed once, the
    one that clears the final Passenger table once and later, and every
    INSERT into a final table comes after both; accordingly a run that
    commits leaves in the final tables only keys read from the staging
    tables. *)
Theorem clears_precede_inserts sch db :
  let run := transform_and_load sch db in
  ∃ i j : nat,
    i < j
    ∧ (∀ n, trace run !! n = Some (EvSql DeleteTickets) ↔ n = i)
    ∧ (∀ n, trace run !! n = Some (EvSql DeletePassengers) ↔ n = j)
    ∧ (∀ n, trace run !! n = Some (EvSql InsertPassengers)
            ∨ trace run !! n = Some (EvSql InsertTickets) → j < n)
    ∧ (result run = Ok tt →
       (∀ k, is_Some (passengers (final run) !! k) →
             ∃ r, r ∈ table_rows (staging_passengers db)
                  ∧ StagingPassenger.passenger_id r = Some k)
       ∧ (∀ k, is_Some (tickets (final run) !! k) →
               ∃ r, r ∈ table_rows (staging_tickets db)
                    ∧ StagingTicket.ticket_id r = Some k)).
Proof.
  simpl. exists 1, 2. split; [lia|].
  assert (Hshape :
    ∃ tl, trace (transform_and_load sch db) = promotion_prefix ++ tl
          ∧ (tl = [EvRollback] ∨ tl = [EvSql InsertTickets; EvRollback]
             ∨ tl = [EvSql InsertTickets; EvCommit; EvInfo TransformationComplete])).
  { rewrite transform_and_load_run.
    destruct (upsert_passengers sch (cleared db)); simpl; [by eauto|].
    destruct (upsert_tickets sch _); simpl; by eauto 6. }
  destruct Hshape as (tl & -> & Htl).
  repeat split.
  - destruct Htl as [-> | [-> | ->]];
      do 8 (destruct n as [|n]; simpl; try done).
  - by intros ->.
  - destruct Htl as [-> | [-> | ->]];
      do 8 (destruct n as [|n]; simpl; try done).
  - by intros ->.
  - intros n. destruct Htl as [-> | [-> | ->]];
      do 8 (destruct n as [|n]; simpl; try (intros [?|?]; done || lia)).
  - intros k Hk. apply promotion_succeeded in H as (ps & ts & Hp & Ht).
    rewrite (promoted_tables _ _ _ _ Hp Ht) in Hk.
    destruct (upsert_keys _ _ _ _ _ _ _ _ Hp k Hk) as [Hold|Hsrc]; [|done].
    change (passengers (cleared db)) with (∅ : gmap Z Passenger.t) in Hold.
    rewrite lookup_empty in Hold. by destruct Hold.
  - intros k Hk. apply promotion_succeeded in H as (ps & ts & Hp & Ht).
    rewrite (promoted_tables _ _ _ _ Hp Ht) in Hk.
    destruct (upsert_keys _ _ _ _ _ _ _ _ Ht k Hk) as [Hold|Hsrc]; [|done].
    change (tickets (set_passengers ps (cleared db))) with (∅ : gmap Z Ticket.t) in Hold.
    rewrite lookup_empty in Hold. by destruct Hold.
Qed.

(** ** [load_to_staging] *)

Lemma rows_length df : length (Pandas.rows df) = Pandas.index_len df.
Proof. unfold Pandas.rows. by rewrite length_fmap, length_seq. Qed.

Lemma rows_nil df : Pandas.index_len df = 0 → Pandas.rows df = [].
Proof. unfold Pandas.rows. by intros ->. Qed.

Lemma append_rows_nil {R} (t : StagingTable R) : append_rows [] t = t.
Proof.
  destruct t as [rows [n|]]; unfold append_rows;
    cbn [table_rows identity fmap option_fmap option_map length];
    by rewrite app_nil_r, ?Nat.add_0_r.
Qed.

Lemma append_events_rows s df :
  Pandas.rows df ≠ [] → append_events s df = [EvSql s].
Proof.
  intros Hne. unfold append_events.
  destruct (Pandas.index_len df =? 0)%nat eqn:E; [|done].
  apply Nat.eqb_eq in E. by destruct (Hne (rows_nil _ E)).
Qed.

Lemma to_sql_staging_passengers_run sch df db :
  to_sql_staging_passengers sch df db =
  match mapM (stage_passenger sch) (Pandas.rows df) with
  | Some rs =>
      mkRun (Ok tt)
        (set_staging_passengers (append_rows rs (staging_passengers db)) db)
        (append_events AppendStagingPassengers df)
  | None =>
      mkRun (Raise (SQLError SchemaViolation)) db [EvSql AppendStagingPassengers]
  end.
Proof.
  unfold to_sql_staging_passengers, append_events.
  destruct (Pandas.index_len df =? 0)%nat eqn:E.
  - apply Nat.eqb_eq in E. rewrite (rows_nil _ E).
    change (mapM (stage_passenger sch) []) with (Some (@nil StagingPassenger.t)).
    cbv beta iota. rewrite append_rows_nil. by destruct db.
  - run_M. by destruct (mapM (stage_passenger sch) (Pandas.rows df)).
Qed.

Lemma to_sql_staging_tickets_run sch df db :
  to_sql_staging_tickets sch df db =
  match mapM (stage_ticket sch) (Pandas.rows df) with
  | Some rs =>
      mkRun (Ok tt)
        (set_staging_tickets (append_rows rs (staging_tickets db)) db)
        (append_events AppendStagingTickets df)
  | None =>
      mkRun (Raise (SQLError SchemaViolation)) db [EvSql AppendStagingTickets]
  end.
Proof.
  unfold to_sql_staging_tickets, append_events.
  destruct (Pandas.index_len df =? 0)%nat eqn:E.
  - apply Nat.eqb_eq in E. rewrite (rows_nil _ E).
    change (mapM (stage_ticket sch) []) with (Some (@nil StagingTicket.t)).
    cbv beta iota. rewrite append_rows_nil. by destruct db.
  - run_M. by destruct (mapM (stage_ticket sch) (Pandas.rows df)).
Qed.

Lemma engine_begin_ok {A} (body : M A) db a db1 t :
  body db = mkRun (Ok a) db1 t →
  engine_begin body db = mkRun (Ok a) db1 (EvBegin :: t ++ [EvCommit]).
Proof. intros H. unfold engine_begin. by rewrite H. Qed.

Lemma engine_begin_raise {A} (body : M A) db e db1 t :
  body db = mkRun (Raise e) db1 t →
  engine_begin body db = mkRun (Raise e) db (EvBegin :: t ++ [EvRollback]).
Proof. intros H. unfold engine_begin. by rewrite H. Qed.

(** The staging load as one equation: it commits exactly when the schema
    accepts every record of the two batches. *)
Lemma load_to_staging_run sch passengers_df tickets_df db :
  load_to_staging sch passengers_df tickets_df db =
  match mapM (stage_passenger sch) (Pandas.rows passengers_df) with
  | None =>
      mkRun (Raise (SQLError SchemaViolation)) db
        (staging_prefix passengers_df ++ [EvRollback])
  | Some ps =>
      match mapM (stage_ticket sch) (Pandas.rows tickets_df) with
      | None =>
          mkRun (Raise (SQLError SchemaViolation)) db
            (staging_prefix passengers_df
               ++ append_events AppendStagingTickets tickets_df ++ [EvRollback])
      | Some ts =>
          mkRun (Ok tt)
            (mkDB (append_rows ps (truncate_restart (staging_passengers db)))
                  (append_rows ts (truncate_restart (staging_tickets db)))
                  (passengers db) (tickets db))
            (staged_events passengers_df tickets_df)
      end
  end.
Proof.
  unfold load_to_staging, staged_events, staging_prefix.
  set (db1 := set_staging_tickets (truncate_restart (staging_tickets db))
                (set_staging_passengers
                   (truncate_restart (staging_passengers db)) db)).
  assert (Htrunc : truncate_staging db = mkRun (Ok tt) db1 [EvSql TruncateStaging])
    by reflexivity.
  pose proof (to_sql_staging_passengers_run sch passengers_df db1) as Hp.
  destruct (mapM (stage_passenger sch) (Pandas.rows passengers_df)) as [ps|] eqn:Hps.
  2: { rewrite append_events_rows by (by intros Hnil; rewrite Hnil in Hps).
       apply bind_raise.
       apply (engine_begin_raise _ _ _ db1
                [EvSql TruncateStaging; EvSql AppendStagingPassengers]).
       by rewrite (bind_ok _ _ _ _ _ _ Htrunc), (bind_raise _ _ _ _ _ _ Hp). }
  set (db2 := set_staging_passengers
                (append_rows ps (staging_passengers db1)) db1) in *.
  pose proof (to_sql_staging_tickets_run sch tickets_df db2) as Ht.
  destruct (mapM (stage_ticket sch) (Pandas.rows tickets_df)) as [ts|] eqn:Hts.
  2: { rewrite (append_events_rows AppendStagingTickets)
         by (by intros Hnil; rewrite Hnil in Hts).
       apply bind_raise.
       rewrite (engine_begin_raise _ db (SQLError SchemaViolation) db2
                  ([EvSql TruncateStaging]
                     ++ append_events AppendStagingPassengers passengers_df
                     ++ [EvSql AppendStagingTickets])).
       - f_equal. cbn [app]. by rewrite <- !app_assoc.
       - by rewrite (bind_ok _ _ _ _ _ _ Htrunc), (bind_ok _ _ _ _ _ _ Hp), Ht. }
  rewrite (bind_ok _ _ db tt
             (set_staging_tickets (append_rows ts (staging_tickets db2)) db2)
             (EvBegin :: ([EvSql TruncateStaging]
                ++ append_events AppendStagingPassengers passengers_df
                ++ append_events AppendStagingTickets tickets_df)
                ++ [EvCommit])).
  - unfold prepend. rewrite logger_info_run. run_proj.
    cbn [app]. by rewrite <- !app_assoc.
  - rewrite (engine_begin_ok _ db tt
               (set_staging_tickets (append_rows ts (staging_tickets db2)) db2)
               ([EvSql TruncateStaging]
                  ++ append_events AppendStagingPassengers passengers_df
                  ++ append_events AppendStagingTickets tickets_df)); [done|].
    by rewrite (bind_ok _ _ _ _ _ _ Htrunc), (bind_ok _ _ _ _ _ _ Hp), Ht.
Qed.

(** C6: the staging load is one transaction whose first statement clears
    both staging tables and restarts their identity sequences, followed by
    the append of the Passenger batch and then the append of the Ticket
    batch (a batch without rows sends no statement).  When the database
    accepts every record of the two batches, the load commits: the staging
    tables hold exactly the rows of the two batches, one per record and in
    order, whatever they held before, their sequences have advanced by the
    number of rows since the restart, and the final tables are untouched.
    When it refuses a record, the load raises, the transaction is rolled
    back and the database is the one from before: neither batch is applied
    and the clearing is undone. *)
Theorem staging_load_atomic sch passengers_df tickets_df db :
  let run := load_to_staging sch passengers_df tickets_df db in
  (∀ ps ts,
     mapM (stage_passenger sch) (Pandas.rows passengers_df) = Some ps →
     mapM (stage_ticket sch) (Pandas.rows tickets_df) = Some ts →
     result run = Ok tt
     ∧ trace run
       = [EvBegin; EvSql TruncateStaging]
         ++ append_events AppendStagingPassengers passengers_df
         ++ append_events AppendStagingTickets tickets_df
         ++ [EvCommit; EvInfo StagingLoaded]
     ∧ table_rows (staging_passengers (final run)) = ps
     ∧ table_rows (staging_tickets (final run)) = ts
     ∧ length ps = Pandas.index_len passengers_df
     ∧ length ts = Pandas.index_len tickets_df
     ∧ identity (staging_passengers (final run))
       = (fun _ => Pandas.index_len passengers_df) <$> identity (staging_passengers db)
     ∧ identity (staging_tickets (final run))
       = (fun _ => Pandas.index_len tickets_df) <$> identity (staging_tickets db)
     ∧ passengers (final run) = passengers db
     ∧ tickets (final run) = tickets db)
  ∧ (mapM (stage_passenger sch) (Pandas.rows passengers_df) = None →
     run = mkRun (Raise (SQLError SchemaViolation)) db
             [EvBegin; EvSql TruncateStaging; EvSql AppendStagingPassengers;
              EvRollback])
  ∧ (is_Some (mapM (stage_passenger sch) (Pandas.rows passengers_df)) →
     mapM (stage_ticket sch) (Pandas.rows tickets_df) = None →
     run = mkRun (Raise (SQLError SchemaViolation)) db
             ([EvBegin; EvSql TruncateStaging]
                ++ append_events AppendStagingPassengers passengers_df
                ++ [EvSql AppendStagingTickets; EvRollback]))
  ∧ (∀ e, result run = Raise e → final run = db).
Proof.
  cbv zeta. rewrite load_to_staging_run.
  destruct (mapM (stage_passenger sch) (Pandas.rows passengers_df)) as [ps|] eqn:Hp.
  2: { split; [done|]. split; [|split; [by intros [? ?]|done]].
       intros _. unfold staging_prefix.
       by rewrite append_events_rows by (by intros Hnil; rewrite Hnil in Hp). }
  destruct (mapM (stage_ticket sch) (Pandas.rows tickets_df)) as [ts|] eqn:Ht.
  2: { split; [done|]. split; [done|]. split; [|done].
       intros _ _. unfold staging_prefix.
       rewrite (append_events_rows AppendStagingTickets)
         by (by intros Hnil; rewrite Hnil in Ht).
       by rewrite <- app_assoc. }
  split; [|by repeat split].
  intros ps' ts' [= <-] [= <-].
  apply length_mapM in Hp, Ht. rewrite rows_length in Hp, Ht.
  run_proj. unfold staged_events, staging_prefix.
  cbn [staging_passengers staging_tickets passengers tickets append_rows
       truncate_restart table_rows identity].
  split; [done|]. split; [by rewrite <- app_assoc|].
  repeat split; try done.
  - by destruct (identity (staging_passengers db)); simpl; rewrite ?Hp.
  - by destruct (identity (staging_tickets db)); simpl; rewrite ?Ht.
Qed.

(** The scenario's batches loaded over staging tables that hold rows of an
    earlier run: the old rows are gone and the sequences count the new rows;
    a Ticket batch the database refuses leaves everything as it was; two
    batches without rows clear the tables and send no INSERT. *)
Lemma staging_load_atomic_witness :
  let run := load_to_staging Titanic.schema (prepare Titanic.two_passengers)
               two_tickets used_db in
  let refused := load_to_staging Titanic.schema (prepare Titanic.two_passengers)
                   bad_tickets used_db in
  let empty := load_to_staging Titanic.schema no_rows no_rows used_db in
  (result run = Ok tt
   ∧ table_rows (staging_passengers (final run)) = [alice; bob]
   ∧ table_rows (staging_tickets (final run)) = [ticket_of 1 "T1"; ticket_of 2 "T2"]
   ∧ identity (staging_passengers (final run)) = Some 2
   ∧ trace run = [EvBegin; EvSql TruncateStaging; EvSql AppendStagingPassengers;
                  EvSql AppendStagingTickets; EvCommit; EvInfo StagingLoaded])
  ∧ refused = mkRun (Raise (SQLError SchemaViolation)) used_db
                [EvBegin; EvSql TruncateStaging; EvSql AppendStagingPassengers;
                 EvSql AppendStagingTickets; EvRollback]
  ∧ (result empty = Ok tt
     ∧ table_rows (staging_passengers (final empty)) = []
     ∧ table_rows (staging_tickets (final empty)) = []
     ∧ trace empty = [EvBegin; EvSql TruncateStaging; EvCommit; EvInfo StagingLoaded]).
Proof.
  cbv zeta. split; [|split].
  - destruct (staging_load_atomic Titanic.schema (prepare Titanic.two_passengers)
                two_tickets used_db) as [Hok _].
    destruct (Hok [alice; bob] [ticket_of 1 "T1"; ticket_of 2 "T2"] eq_refl eq_refl)
      as (Hr & Htr & Hp & Ht & _ & _ & Hi & _).
    exact (conj Hr (conj Hp (conj Ht (conj Hi Htr)))).
  - destruct (staging_load_atomic Titanic.schema (prepare Titanic.two_passengers)
                bad_tickets used_db) as (_ & _ & Hbad & _).
    exact (Hbad (mk_is_Some _ _ eq_refl) eq_refl).
  - destruct (staging_load_atomic Titanic.schema no_rows no_rows used_db)
      as [Hok _].
    destruct (Hok [] [] eq_refl eq_refl) as (Hr & Htr & Hp & Ht & _).
    exact (conj Hr (conj Hp (conj Ht Htr))).
Defined.

(** The events a staging load can produce. *)
Lemma append_events_elem s df ev : ev ∈ append_events s df → ev = EvSql s.
Proof.
  unfold append_events. destruct (Pandas.index_len df =? 0)%nat; intros H.
  - by apply elem_of_nil in H.
  - by apply list_elem_of_singleton in H.
Qed.

Lemma staging_prefix_elem df ev :
  ev ∈ staging_prefix df →
  ev = EvBegin ∨ ev = EvSql TruncateStaging ∨ ev = EvSql AppendStagingPassengers.
Proof.
  unfold staging_prefix. intros [H|H]%elem_of_app.
  - apply elem_of_cons in H as [->|H]; [by left|].
    apply list_elem_of_singleton in H as ->. by right; left.
  - apply append_events_elem in H as ->. by right; right.
Qed.

Lemma staged_events_elem passengers_df tickets_df ev :
  ev ∈ staged_events passengers_df tickets_df →
  ev = EvBegin ∨ ev = EvSql TruncateStaging ∨ ev = EvSql AppendStagingPassengers
  ∨ ev = EvSql AppendStagingTickets ∨ ev = EvCommit ∨ ev = EvInfo StagingLoaded.
Proof.
  unfold staged_events. intros [H|H]%elem_of_app.
  { apply staging_prefix_elem in H. by repeat destruct H as [H|H]; auto 6. }
  apply elem_of_app in H as [H|H].
  { apply append_events_elem in H as ->. auto 6. }
  apply elem_of_cons in H as [->|H]; [auto 6|].
  apply list_elem_of_singleton in H as ->. auto 6.
Qed.

Lemma staging_rollback_elem passengers_df tickets_df tr ev :
  tr = staging_prefix passengers_df ++ [EvRollback]
  ∨ tr = staging_prefix passengers_df
         ++ append_events AppendStagingTickets tickets_df ++ [EvRollback] →
  ev ∈ tr →
  ev = EvBegin ∨ ev = EvSql TruncateStaging ∨ ev = EvSql AppendStagingPassengers
  ∨ ev = EvSql AppendStagingTickets ∨ ev = EvRollback.
Proof.
  intros [-> | ->] [H|H]%elem_of_app.
  - apply staging_prefix_elem in H. by repeat destruct H as [H|H]; auto 6.
  - apply list_elem_of_singleton in H as ->. auto 6.
  - apply staging_prefix_elem in H. by repeat destruct H as [H|H]; auto 6.
  - apply elem_of_app in H as [H|H].
    + apply append_events_elem in H as ->. auto 6.
    + apply list_elem_of_singleton in H as ->. auto 6.
Qed.

Lemma staging_rollback_last passengers_df tickets_df tr :
  tr = staging_prefix passengers_df ++ [EvRollback]
  ∨ tr = staging_prefix passengers_df
         ++ append_events AppendStagingTickets tickets_df ++ [EvRollback] →
  last tr = Some EvRollback.
Proof.
  intros [-> | ->]; [by rewrite last_snoc|].
  by rewrite !app_assoc, last_snoc.
Qed.

(** Tactics that close a goal from a hypothesis placing a given event in
    the trace of a staging load where it cannot be. *)
Ltac not_staged H :=
  apply staged_events_elem in H; by repeat destruct H as [H|H].

Ltac not_unstaged Htr H :=
  apply (staging_rollback_elem _ _ _ _ Htr) in H; by repeat destruct H as [H|H].

(** ** The Record Normalizer *)

Lemma rename_label_cases l :
  Pandas.rename_label column_map l ∈ column_map_values
  ∨ Pandas.rename_label column_map l = l.
Proof.
  unfold column_map_values, column_map.
  cbn [Pandas.rename_label fmap list_fmap snd].
  repeat match goal with
         | |- context [String.eqb ?a l] => destruct (String.eqb a l)
         end;
    first [by right | left; apply list_elem_of_In; simpl; tauto].
Qed.

Lemma has_column_true df v :
  Pandas.has_column df v = true ↔ v ∈ Pandas.labels df.
Proof.
  unfold Pandas.has_column. rewrite existsb_exists. split.
  - intros (x & Hx & ->%String.eqb_eq). by apply list_elem_of_In.
  - intros Hv. exists v. by rewrite <- list_elem_of_In, String.eqb_refl.
Qed.

Lemma select_columns df vs c :
  c ∈ Pandas.columns (Pandas.select df vs) ↔ c ∈ Pandas.columns df ∧ fst c ∈ vs.
Proof.
  unfold Pandas.select, Pandas.columns_named. simpl.
  rewrite list_elem_of_bind. split.
  - intros (v & Hc & Hv). apply list_elem_of_filter in Hc as [<- Hc]. done.
  - intros [Hc Hv]. exists (fst c). by rewrite list_elem_of_filter.
Qed.

(** The part of C4 that holds: the prepared frame carries exactly the
    columns of the raw frame whose renamed label is canonical, so every
    label it has is one of the eight canonical names and every other column
    is dropped; the rows are neither added nor removed. *)
Lemma prepare_columns raw l s :
  (l, s) ∈ Pandas.columns (prepare raw)
  ↔ l ∈ column_map_values
    ∧ ∃ l0, (l0, s) ∈ Pandas.columns raw ∧ Pandas.rename_label column_map l0 = l.
Proof.
  unfold prepare. rewrite select_columns. cbn [fst].
  rewrite (list_elem_of_In (List.filter _ _)), filter_In, <- list_elem_of_In,
    has_column_true.
  unfold Pandas.labels, Pandas.rename. cbn [Pandas.columns].
  rewrite list_elem_of_fmap. split.
  - intros [([l0 s0] & [= -> ->] & Hin) [Hl _]]. split; [done|]. by exists l0.
  - intros [Hl (l0 & Hin & <-)]. split; [by exists (l0, s)|]. split; [done|].
    apply list_elem_of_fmap. exists (Pandas.rename_label column_map l0, s).
    split; [done|]. apply list_elem_of_fmap. by exists (l0, s).
Qed.

Lemma prepare_labels_canonical raw l :
  l ∈ Pandas.labels (prepare raw) → l ∈ column_map_values.
Proof.
  intros ([l' s] & -> & Hc)%list_elem_of_fmap.
  by apply prepare_columns in Hc as [? _].
Qed.

Lemma prepare_index_len raw : Pandas.index_len (prepare raw) = Pandas.index_len raw.
Proof. reflexivity. Qed.

Lemma prepare_wf raw : Pandas.wf raw → Pandas.wf (prepare raw).
Proof.
  unfold Pandas.wf. rewrite !Forall_forall. intros Hraw [l s] Hc.
  apply prepare_columns in Hc as [_ (l0 & Hin & _)].
  rewrite prepare_index_len. by apply (Hraw (l0, s)).
Qed.

Lemma getitem_None df k :
  Pandas.getitem df k = None ↔ k ∉ Pandas.labels df.
Proof.
  unfold Pandas.getitem, Pandas.columns_named, Pandas.labels.
  destruct (filter _ (Pandas.columns df)) as [|c cs] eqn:Hf.
  - split; [|done]. intros _ (c & Hk & Hc)%list_elem_of_fmap.
    assert (Hin : c ∈ filter (fun c => fst c = k) (Pandas.columns df))
      by by apply list_elem_of_filter.
    rewrite Hf in Hin. by apply elem_of_nil in Hin.
  - split; [by destruct cs|]. intros Hk. exfalso. apply Hk.
    assert (Hin : c ∈ filter (fun c => fst c = k) (Pandas.columns df))
      by (rewrite Hf; left).
    apply list_elem_of_filter in Hin as [<- Hin].
    apply list_elem_of_fmap. by exists c.
Qed.

(** The preparation ends the run exactly when no column of the file is
    labelled [Age] or [age]. *)
Lemma load_and_prepare_passengers_run w csv_path db :
  load_and_prepare_passengers w csv_path db =
  match read_csv w csv_path with
  | None =>
      mkRun (Raise (SystemExit 1)) db [EvReadCsv csv_path; EvError PrepareError]
  | Some raw =>
      match Pandas.getitem (prepare raw) "age" with
      | None =>
          mkRun (Raise (SystemExit 1)) db
            [EvReadCsv csv_path; EvInfo (LoadedRows (Pandas.index_len raw) csv_path);
             EvError PrepareError]
      | Some x =>
          mkRun (Ok (prepare raw)) db
            [EvReadCsv csv_path; EvInfo (LoadedRows (Pandas.index_len raw) csv_path);
             EvInfo (DataPrepared (Pandas.index_len (prepare raw)) (Pandas.isna_sum x))]
      end
  end.
Proof.
  unfold load_and_prepare_passengers, pd_read_csv, missing_ages. run_M.
  destruct (read_csv w csv_path) as [raw|]; [|reflexivity]. run_M.
  destruct (Pandas.getitem (prepare raw) "age"); reflexivity.
Qed.

Lemma prepare_without_age w csv_path db raw :
  read_csv w csv_path = Some raw →
  "age" ∉ Pandas.labels (prepare raw) →
  result (load_and_prepare_passengers w csv_path db) = Raise (SystemExit 1).
Proof.
  intros Hcsv Hage%getitem_None.
  by rewrite load_and_prepare_passengers_run, Hcsv, Hage.
Qed.

Lemma prepare_with_age w csv_path db raw :
  read_csv w csv_path = Some raw →
  "age" ∈ Pandas.labels (prepare raw) →
  result (load_and_prepare_passengers w csv_path db) = Ok (prepare raw).
Proof.
  intros Hcsv Hage. rewrite load_and_prepare_passengers_run, Hcsv.
  destruct (Pandas.getitem (prepare raw) "age") eqn:Hg; [done|].
  by apply getitem_None in Hg.
Qed.

(** C4, on a file without an Age column: the selection keeps the two
    canonical columns the file has and drops the unrecognized one, yet the
    count of missing ages raises [KeyError], the handler logs the error and
    the run ends with status 1 instead of returning the batch. *)
Theorem missing_age_column_terminates db :
  let w := Titanic.world no_age in
  Pandas.labels (prepare no_age) = ["passenger_id"; "name"]
  ∧ load_and_prepare_passengers w "passengers.csv" db
    = mkRun (Raise (SystemExit 1)) db
        [EvReadCsv "passengers.csv"; EvInfo (LoadedRows 1 "passengers.csv");
         EvError PrepareError]
  ∧ exit_status (result (load_and_prepare_passengers w "passengers.csv" db)) = 1%Z.
Proof.
  simpl. split; [by vm_compute|].
  rewrite load_and_prepare_passengers_run. simpl.
  replace (Pandas.getitem (prepare no_age) "age") with (@None Pandas.Item)
    by (by vm_compute).
  done.
Qed.

(** ** [create_tickets_df] *)

Lemma getitem_series df k ids :
  Pandas.getitem df k = Some (Pandas.ItemSeries ids) → (k, ids) ∈ Pandas.columns df.
Proof.
  unfold Pandas.getitem, Pandas.columns_named.
  destruct (filter _ (Pandas.columns df)) as [|c [|c' cs]] eqn:Hf; [done| |done].
  intros [= <-].
  assert (Hin : c ∈ filter (fun c => fst c = k) (Pandas.columns df))
    by (rewrite Hf; left).
  apply list_elem_of_filter in Hin as [<- Hin]. by destruct c.
Qed.

Lemma getitem_series_length df k ids :
  Pandas.wf df →
  Pandas.getitem df k = Some (Pandas.ItemSeries ids) →
  length ids = Pandas.index_len df.
Proof.
  unfold Pandas.wf. rewrite Forall_forall.
  intros Hwf Hc%getitem_series. exact (Hwf _ Hc).
Qed.

Lemma ticket_numbers_length n : length (ticket_numbers n) = n.
Proof. unfold ticket_numbers. by rewrite length_fmap, length_seq. Qed.

Lemma ticket_numbers_lookup n i :
  i < n → ticket_numbers n !! i = Some ("T" +:+ pretty (i + 1)).
Proof.
  intros Hi. unfold ticket_numbers.
  rewrite list_lookup_fmap, lookup_seq_lt by done.
  by rewrite (Nat.add_comm 1 i).
Qed.

(** [create_tickets_df] reads and writes nothing. *)
Lemma create_tickets_df_pure df db :
  final (create_tickets_df df db) = db ∧ trace (create_tickets_df df db) = [].
Proof.
  unfold create_tickets_df.
  destruct (Pandas.getitem df "passenger_id") as [[ids|cs]|]; [|done|done].
  by destruct (decide _).
Qed.

(** C3: on a Passenger batch that has one [passenger_id] column, the
    synthesis returns a Ticket batch with one record per passenger, in the
    order of the passengers; the record of the passenger at 0-based
    position [i] has that passenger's passenger_id as ticket_id and as
    passenger_id, the ticket number "T" followed by the decimal numeral of
    [i + 1], the class 3 and the cabin "Unknown". *)
Theorem synthesized_tickets passengers_df ids db :
  Pandas.wf passengers_df →
  Pandas.getitem passengers_df "passenger_id" = Some (Pandas.ItemSeries ids) →
  ∃ tickets_df,
    create_tickets_df passengers_df db = mkRun (Ok tickets_df) db []
    ∧ Pandas.labels tickets_df
      = ["ticket_id"; "passenger_id"; "ticket"; "class"; "cabin"]
    ∧ length (Pandas.rows tickets_df) = Pandas.index_len passengers_df
    ∧ ∀ i, i < Pandas.index_len passengers_df →
        ∃ pid,
          ("passenger_id", pid) ∈ Pandas.row passengers_df i
          ∧ Pandas.rows tickets_df !! i
            = Some [ ("ticket_id", pid);
                     ("passenger_id", pid);
                     ("ticket", Pandas.StrCell ("T" +:+ pretty (i + 1)));
                     ("class", Pandas.IntCell 3);
                     ("cabin", Pandas.StrCell "Unknown") ].
Proof.
  intros Hwf Hids.
  pose proof (getitem_series_length _ _ _ Hwf Hids) as Hlen.
  pose proof (getitem_series _ _ _ Hids) as Hcol.
  unfold create_tickets_df. rewrite Hids.
  destruct (decide _) as [_|Hne].
  2: { exfalso. apply Hne. by rewrite length_fmap, ticket_numbers_length. }
  eexists. split; [reflexivity|]. split; [reflexivity|].
  split; [by rewrite rows_length|].
  intros i Hi.
  destruct (lookup_lt_is_Some_2 ids i) as [pid Hpid]; [by rewrite Hlen|].
  exists pid. split.
  - unfold Pandas.row. apply list_elem_of_fmap. exists ("passenger_id", ids).
    cbn [fst snd]. by rewrite Hpid.
  - unfold Pandas.rows. cbn [Pandas.index_len].
    rewrite list_lookup_fmap, lookup_seq_lt by by rewrite Hlen.
    unfold Pandas.row.
    cbn [Pandas.columns fmap list_fmap fst snd option_fmap option_map Nat.add].
    rewrite Hpid, list_lookup_fmap, ticket_numbers_lookup by done.
    rewrite !lookup_replicate_2 by by rewrite Hlen.
    reflexivity.
Qed.

Lemma two_passengers_wf : Pandas.wf (prepare Titanic.two_passengers).
Proof.
  apply prepare_wf. unfold Pandas.wf, Titanic.two_passengers.
  cbn [Pandas.columns Pandas.index_len]. repeat constructor.
Qed.

Lemma synthesized_tickets_witness :
  Pandas.wf (prepare Titanic.two_passengers)
  ∧ Pandas.getitem (prepare Titanic.two_passengers) "passenger_id"
    = Some (Pandas.ItemSeries [Pandas.IntCell 1; Pandas.IntCell 2])
  ∧ ∃ tickets_df,
      create_tickets_df (prepare Titanic.two_passengers) Titanic.empty_db
      = mkRun (Ok tickets_df) Titanic.empty_db []
      ∧ Pandas.labels tickets_df
        = ["ticket_id"; "passenger_id"; "ticket"; "class"; "cabin"]
      ∧ length (Pandas.rows tickets_df)
        = Pandas.index_len (prepare Titanic.two_passengers)
      ∧ ∀ i, i < Pandas.index_len (prepare Titanic.two_passengers) →
          ∃ pid,
            ("passenger_id", pid) ∈ Pandas.row (prepare Titanic.two_passengers) i
            ∧ Pandas.rows tickets_df !! i
              = Some [ ("ticket_id", pid);
                       ("passenger_id", pid);
                       ("ticket", Pandas.StrCell ("T" +:+ pretty (i + 1)));
                       ("class", Pandas.IntCell 3);
                       ("cabin", Pandas.StrCell "Unknown") ].
Proof.
  assert (Hids : Pandas.getitem (prepare Titanic.two_passengers) "passenger_id"
                 = Some (Pandas.ItemSeries [Pandas.IntCell 1; Pandas.IntCell 2]))
    by (vm_compute; reflexivity).
  split; [exact two_passengers_wf|]. split; [exact Hids|].
  exact (synthesized_tickets _ _ Titanic.empty_db two_passengers_wf Hids).
Defined.

(** ** [show_analytics] *)

Lemma format_row_run r db :
  format_row r db = mkRun (Ok tt) db [EvInfo (AnalyticsRow r)]
  ∨ format_row r db = mkRun (Raise TypeError) db [].
Proof.
  unfold format_row.
  destruct (s_sex r), (s_embarked r), (s_avg_age r), (s_passenger_count r);
    first [left; reflexivity | right; reflexivity].
Qed.

Lemma for_each_format_row rows db :
  final (for_each format_row rows db) = db
  ∧ Forall (fun ev => report_event ev = true) (trace (for_each format_row rows db))
  ∧ (result (for_each format_row rows db) = Ok tt
     ∨ result (for_each format_row rows db) = Raise TypeError).
Proof.
  induction rows as [|r rows IH].
  { split; [reflexivity|]. split; [constructor|by left]. }
  destruct IH as (Hf & Htr & Hres).
  cbn [for_each]. run_M.
  destruct (format_row_run r db) as [-> | ->].
  - destruct (for_each format_row rows db) as [res fin tr].
    cbn [result final trace] in *.
    split; [done|]. split; [by constructor|done].
  - split; [reflexivity|]. split; [constructor|by right].
Qed.

Lemma show_analytics_run w db :
  final (show_analytics w db) = db
  ∧ Forall (fun ev => report_event ev = true) (trace (show_analytics w db))
  ∧ (result (show_analytics w db) = Ok tt
     ∨ result (show_analytics w db) = Raise TypeError
     ∨ result (show_analytics w db) = Raise (SQLError SchemaViolation)).
Proof.
  unfold show_analytics. run_M.
  destruct (analytics_summary w db) as [rows|].
  2: { split; [reflexivity|]. split; [by repeat constructor|by right; right]. }
  destruct (for_each_format_row rows db) as (Hf & Htr & Hres). run_M.
  destruct (for_each format_row rows db) as [[[]|e] fin tr];
    cbn [result final trace app] in *.
  - split; [done|]. split; [by repeat constructor|by left].
  - split; [done|]. split; [by repeat constructor|].
    destruct Hres as [?|?]; [done|by right; left].
Qed.

(** The report on rows without a null field, and up to the first row that
    has one. *)
Lemma for_each_complete rows db :
  forallb complete_row rows = true →
  for_each format_row rows db
  = mkRun (Ok tt) db ((fun r => EvInfo (AnalyticsRow r)) <$> rows).
Proof.
  induction rows as [|r rows IH]; [done|].
  cbn [forallb]. intros [Hr Hrows]%andb_true_iff.
  cbn [for_each].
  assert (Hrow : format_row r db = mkRun (Ok tt) db [EvInfo (AnalyticsRow r)]).
  { unfold format_row. unfold complete_row in Hr.
    by destruct (s_sex r), (s_embarked r), (s_avg_age r), (s_passenger_count r). }
  rewrite (bind_ok _ _ _ _ _ _ Hrow), (IH Hrows). reflexivity.
Qed.

Lemma for_each_incomplete pre r post db :
  forallb complete_row pre = true →
  complete_row r = false →
  for_each format_row (pre ++ r :: post) db
  = mkRun (Raise TypeError) db ((fun r => EvInfo (AnalyticsRow r)) <$> pre).
Proof.
  intros Hpre Hr. induction pre as [|r0 pre IH].
  - cbn [app for_each].
    assert (Hrow : format_row r db = mkRun (Raise TypeError) db []).
    { unfold format_row. unfold complete_row in Hr.
      by destruct (s_sex r), (s_embarked r), (s_avg_age r), (s_passenger_count r). }
    by rewrite (bind_raise _ _ _ _ _ _ Hrow).
  - cbn [forallb] in Hpre. apply andb_true_iff in Hpre as [Hr0 Hpre].
    cbn [app for_each].
    assert (Hrow : format_row r0 db = mkRun (Ok tt) db [EvInfo (AnalyticsRow r0)]).
    { unfold format_row. unfold complete_row in Hr0.
      by destruct (s_sex r0), (s_embarked r0), (s_avg_age r0),
           (s_passenger_count r0). }
    rewrite (bind_ok _ _ _ _ _ _ Hrow), (IH Hpre). reflexivity.
Qed.

Lemma show_analytics_rows w db rows :
  analytics_summary w db = Some rows →
  show_analytics w db
  = prepend [EvSql SelectAnalytics; EvInfo AnalyticsResults; EvInfo AnalyticsHeader]
      (for_each format_row rows db).
Proof.
  intros Hq. unfold show_analytics.
  rewrite (bind_ok _ _ _ _ _ _ (eq_refl : emit (EvSql SelectAnalytics) db = _)).
  rewrite (bind_ok _ _ _ _ _ _ (eq_refl : get db = mkRun (Ok db) db [])).
  rewrite Hq.
  rewrite (bind_ok _ _ _ _ _ _ (logger_info_run _ _)).
  rewrite (bind_ok _ _ _ _ _ _ (logger_info_run _ _)).
  by destruct (for_each format_row rows db).
Qed.

(** ** [main] as one equation *)

Lemma pipeline_run sch w passengers_df tickets_df db :
  pipeline sch w passengers_df tickets_df db =
  let s := load_to_staging sch passengers_df tickets_df db in
  match result s with
  | Raise e => mkRun (Raise e) (final s) (trace s)
  | Ok _ =>
      let t := transform_and_load sch (final s) in
      match result t with
      | Raise e => mkRun (Raise e) (final t) (trace s ++ trace t)
      | Ok _ =>
          let a := show_analytics w (final t) in
          match result a with
          | Raise e => mkRun (Raise e) (final a) (trace s ++ trace t ++ trace a)
          | Ok _ =>
              mkRun (Ok tt) (final a)
                (trace s ++ trace t ++ trace a ++ [EvInfo Completed])
          end
      end
  end.
Proof.
  unfold pipeline. run_M.
  destruct (load_to_staging sch passengers_df tickets_df db) as [[[]|e] db1 tr1];
    [|reflexivity].
  run_M.
  destruct (transform_and_load sch db1) as [[[]|e] db2 tr2]; [|reflexivity].
  run_M.
  destruct (show_analytics w db2) as [[[]|e] db3 tr3]; reflexivity.
Qed.

Lemma exists_run w p db :
  exists_ w p db = mkRun (Ok (path_exists w p)) db [EvExists p (path_exists w p)].
Proof. reflexivity. Qed.

Lemma error_exit_run {A} l db :
  (logger_error l;; sys_exit (A:=A) 1) db = mkRun (Raise (SystemExit 1)) db [EvError l].
Proof. reflexivity. Qed.

Lemma tickets_branch_run w tickets_path db :
  (found ← exists_ w tickets_path;
   (if negb found then
      logger_error (TicketsNotFound tickets_path);;
      sys_exit 1
    else mret tt);;
   load_and_prepare_tickets tickets_path) db
  = if path_exists w tickets_path then
      mkRun (Raise (NameError "load_and_prepare_tickets")) db
        [EvExists tickets_path true]
    else
      mkRun (Raise (SystemExit 1)) db
        [EvExists tickets_path false; EvError (TicketsNotFound tickets_path)].
Proof.
  rewrite (bind_ok _ _ _ _ _ _ (exists_run _ _ _)).
  destruct (path_exists w tickets_path); cbn [negb].
  - rewrite (bind_ok (mret tt) _ _ tt db []) by reflexivity. reflexivity.
  - by rewrite (bind_raise _ _ _ _ _ _ (error_exit_run _ _)).
Qed.

Lemma connect_db_run w db :
  connect_db w db =
  if db_reachable w then
    mkRun (Ok tt) db [EvConnect; EvSql SelectOne; EvInfo ConnectionSuccessful]
  else mkRun (Raise (SystemExit 1)) db [EvConnect; EvError ConnectionFailed].
Proof.
  unfold connect_db, engine_connect. run_M. by destruct (db_reachable w).
Qed.

Lemma main_run sch w p t db :
  main sch w p t db =
  if path_exists w p then
    if db_reachable w then
      match read_csv w p with
      | None =>
          mkRun (Raise (SystemExit 1)) db
            (connected p ++ [EvReadCsv p; EvError PrepareError])
      | Some raw =>
          match Pandas.getitem (prepare raw) "age" with
          | None =>
              mkRun (Raise (SystemExit 1)) db
                (connected p
                 ++ [EvReadCsv p; EvInfo (LoadedRows (Pandas.index_len raw) p);
                     EvError PrepareError])
          | Some x =>
              if truthy t then
                if path_exists w (default "" t) then
                  mkRun (Raise (NameError "load_and_prepare_tickets")) db
                    (prepared p raw x ++ [EvExists (default "" t) true])
                else
                  mkRun (Raise (SystemExit 1)) db
                    (prepared p raw x
                     ++ [EvExists (default "" t) false;
                         EvError (TicketsNotFound (default "" t))])
              else
                match result (create_tickets_df (prepare raw) db) with
                | Raise e => mkRun (Raise e) db (prepared p raw x)
                | Ok tickets_df =>
                    let r := pipeline sch w (prepare raw) tickets_df db in
                    mkRun (result r) (final r) (prepared p raw x ++ trace r)
                end
          end
      end
    else
      mkRun (Raise (SystemExit 1)) db
        [EvInfo Starting; EvExists p true; EvConnect; EvError ConnectionFailed]
  else
    mkRun (Raise (SystemExit 1)) db
      [EvInfo Starting; EvExists p false; EvError (PassengersNotFound p)].
Proof.
  unfold main.
  change (load_to_staging sch ?a ?b;; transform_and_load sch;; show_analytics w;;
          logger_info Completed) with (pipeline sch w a b).
  rewrite (bind_ok _ _ _ _ _ _ (logger_info_run _ _)).
  rewrite (bind_ok _ _ _ _ _ _ (exists_run _ _ _)).
  destruct (path_exists w p); cbn [negb].
  2: { by rewrite (bind_raise _ _ _ _ _ _ (error_exit_run _ _)). }
  rewrite (bind_ok (mret tt) _ _ tt db []) by reflexivity.
  pose proof (connect_db_run w db) as Hconn.
  destruct (db_reachable w).
  2: { by rewrite (bind_raise _ _ _ _ _ _ Hconn). }
  rewrite (bind_ok _ _ _ _ _ _ Hconn).
  pose proof (load_and_prepare_passengers_run w p db) as Hprep.
  destruct (read_csv w p) as [raw|].
  2: { by rewrite (bind_raise _ _ _ _ _ _ Hprep). }
  destruct (Pandas.getitem (prepare raw) "age") as [x|].
  2: { by rewrite (bind_raise _ _ _ _ _ _ Hprep). }
  rewrite (bind_ok _ _ _ _ _ _ Hprep).
  destruct (truthy t).
  - cbv zeta. pose proof (tickets_branch_run w (default "" t) db) as Htk.
    destruct (path_exists w (default "" t));
      by rewrite (bind_raise _ _ _ _ _ _ Htk).
  - destruct (create_tickets_df_pure (prepare raw) db) as [Hf Htr].
    destruct (create_tickets_df (prepare raw) db) as [[tdf|e] fin tr] eqn:Hc;
      cbn [final trace result] in *; subst fin tr.
    + rewrite (bind_ok _ _ _ _ _ _ Hc).
      destruct (pipeline sch w (prepare raw) tdf db) as [res fin tr].
      reflexivity.
    + by rewrite (bind_raise _ _ _ _ _ _ Hc).
Qed.

(** ** The stages of [main] by their events *)

Lemma report_event_benign ev :
  report_event ev = true →
  failure_event ev = false ∧ store_event ev = false ∧ ev ≠ EvInfo Completed.
Proof. destruct ev as [?[]| | | |[]| | |[]|]; by intros [=]. Qed.

Lemma create_tickets_df_result df db :
  (∃ tickets_df, result (create_tickets_df df db) = Ok tickets_df)
  ∨ result (create_tickets_df df db) = Raise (KeyError "passenger_id")
  ∨ result (create_tickets_df df db) = Raise ValueError.
Proof.
  unfold create_tickets_df.
  destruct (Pandas.getitem df "passenger_id") as [[ids|cs]|]; [|by auto..].
  destruct (decide _); [left; by eexists|by auto].
Qed.

Lemma load_to_staging_cases sch passengers_df tickets_df db :
  let s := load_to_staging sch passengers_df tickets_df db in
  (result s = Ok tt
   ∧ passengers (final s) = passengers db ∧ tickets (final s) = tickets db
   ∧ trace s = staged_events passengers_df tickets_df)
  ∨ (result s = Raise (SQLError SchemaViolation) ∧ final s = db
     ∧ (trace s = staging_prefix passengers_df ++ [EvRollback]
        ∨ trace s = staging_prefix passengers_df
                    ++ append_events AppendStagingTickets tickets_df
                    ++ [EvRollback])).
Proof.
  cbv zeta. rewrite load_to_staging_run.
  destruct (mapM (stage_passenger sch) _); [|by right; auto].
  destruct (mapM (stage_ticket sch) _); [by left|by right; auto].
Qed.

Lemma transform_and_load_cases sch db :
  let t := transform_and_load sch db in
  (result t = Ok tt
   ∧ staging_passengers (final t) = staging_passengers db
   ∧ staging_tickets (final t) = staging_tickets db
   ∧ trace t = promotion_prefix
               ++ [EvSql InsertTickets; EvCommit; EvInfo TransformationComplete])
  ∨ ((∃ st, result t = Raise (SQLError st)) ∧ final t = db
     ∧ (trace t = promotion_prefix ++ [EvRollback]
        ∨ trace t = promotion_prefix ++ [EvSql InsertTickets; EvRollback])).
Proof.
  cbv zeta. rewrite transform_and_load_run.
  destruct (upsert_passengers sch (cleared db)); [by right; eauto|].
  destruct (upsert_tickets sch _); [by right; eauto|by left].
Qed.

Ltac not_in_list H :=
  cbn [app] in H;
  repeat (apply elem_of_cons in H as [H|H]; [discriminate H|]);
  try (by apply elem_of_nil in H).

(** A run of the last four statements either completes, and then no event
    of it records a failure and its last event is the completion line, or
    ends with an exception of status 1 without that line. *)
Lemma pipeline_status sch w passengers_df tickets_df db :
  let r := pipeline sch w passengers_df tickets_df db in
  (result r = Ok tt
   ∧ Forall (fun ev => failure_event ev = false) (trace r)
   ∧ last (trace r) = Some (EvInfo Completed))
  ∨ ((∃ e, result r = Raise e) ∧ exit_status (result r) = 1%Z
     ∧ EvInfo Completed ∉ trace r).
Proof.
  cbv zeta. rewrite pipeline_run. cbv zeta.
  destruct (load_to_staging_cases sch passengers_df tickets_df db)
    as [(Hs & _ & _ & Hst) | (Hs & _ & Hst)]; rewrite Hs.
  2: { right. split; [by eexists|]. split; [done|].
       cbn [trace]. intros H. not_unstaged Hst H. }
  destruct (transform_and_load_cases sch
              (final (load_to_staging sch passengers_df tickets_df db)))
    as [(Ht & _ & _ & Htt) | ([st Ht] & _ & Htt)]; rewrite Ht.
  2: { right. split; [by eexists|]. split; [done|].
       cbn [trace]. rewrite Hst. intros H.
       apply elem_of_app in H as [H|H].
       - not_staged H.
       - destruct Htt as [Htt|Htt]; rewrite Htt in H;
           unfold promotion_prefix in H; not_in_list H. }
  set (db2 := final (transform_and_load sch _)).
  destruct (show_analytics_run w db2) as (_ & Ha & Hres).
  assert (Hquiet : Forall (fun ev => failure_event ev = false)
                     (trace (load_to_staging sch passengers_df tickets_df db)
                      ++ trace (transform_and_load sch
                                  (final (load_to_staging sch passengers_df tickets_df db)))
                      ++ trace (show_analytics w db2))).
  { rewrite Hst, Htt. rewrite !Forall_app. split.
    { apply Forall_forall. intros ev Hev. apply staged_events_elem in Hev.
      by repeat destruct Hev as [Hev|Hev]; subst ev. }
    split; [by repeat constructor|].
    eapply Forall_impl; [exact Ha|]. by intros ev [? _]%report_event_benign. }
  assert (Hnot : EvInfo Completed
                 ∉ trace (load_to_staging sch passengers_df tickets_df db)
                   ++ trace (transform_and_load sch
                               (final (load_to_staging sch passengers_df tickets_df db)))
                   ++ trace (show_analytics w db2)).
  { rewrite Hst, Htt. intros H.
    apply elem_of_app in H as [H|H]; [not_staged H|].
    apply elem_of_app in H as [H|H]; [unfold promotion_prefix in H; not_in_list H|].
    rewrite Forall_forall in Ha.
    by destruct (report_event_benign _ (Ha _ H)) as (_ & _ & ?). }
  destruct Hres as [Hr | [Hr | Hr]]; rewrite Hr.
  - left. split; [done|]. cbn [trace]. split.
    + rewrite !app_assoc. apply Forall_app. split; [|by repeat constructor].
      by rewrite <- !app_assoc.
    + rewrite !app_assoc. by rewrite last_snoc.
  - right. split; [by eexists|]. by split.
  - right. split; [by eexists|]. by split.
Qed.

(** ** A rollback ends the run *)

(** Whichever of the two transactions is rolled back, the run stops there
    with status 1 and the final tables are the ones from before the run. *)
Lemma pipeline_rollback sch w passengers_df tickets_df db :
  let r := pipeline sch w passengers_df tickets_df db in
  EvRollback ∈ trace r →
  passengers (final r) = passengers db
  ∧ tickets (final r) = tickets db
  ∧ last (trace r) = Some EvRollback
  ∧ exit_status (result r) = 1%Z.
Proof.
  cbv zeta. rewrite pipeline_run. cbv zeta.
  destruct (load_to_staging_cases sch passengers_df tickets_df db)
    as [(Hs & Hp & Htk & Hst) | (Hs & Hf & Hst)]; rewrite Hs; run_proj.
  2: { intros _. rewrite Hf.
       split; [reflexivity|]. split; [reflexivity|].
       split; [by apply (staging_rollback_last passengers_df tickets_df)|reflexivity]. }
  destruct (transform_and_load_cases sch
              (final (load_to_staging sch passengers_df tickets_df db)))
    as [(Ht & _ & _ & Htt) | ([st Ht] & Hf & Htt)]; rewrite Ht; run_proj.
  2: { intros _. rewrite Hf, Hst.
       split; [exact Hp|]. split; [exact Htk|].
       split; [by destruct Htt as [-> | ->]; rewrite last_app|reflexivity]. }
  destruct (show_analytics_run w
              (final (transform_and_load sch
                        (final (load_to_staging sch passengers_df tickets_df db)))))
    as (_ & Ha & Hres).
  assert (Hnot : EvRollback
                 ∉ trace (load_to_staging sch passengers_df tickets_df db)
                   ++ trace (transform_and_load sch
                               (final (load_to_staging sch passengers_df tickets_df db)))
                   ++ trace (show_analytics w
                               (final (transform_and_load sch
                                  (final (load_to_staging sch passengers_df tickets_df db)))))).
  { rewrite Hst, Htt. intros H.
    apply elem_of_app in H as [H|H]; [not_staged H|].
    apply elem_of_app in H as [H|H]; [unfold promotion_prefix in H; not_in_list H|].
    rewrite Forall_forall in Ha.
    by destruct (report_event_benign _ (Ha _ H)) as (? & _ & _). }
  destruct Hres as [Hr | [Hr | Hr]]; rewrite Hr; run_proj; intros H; exfalso.
  - apply elem_of_app in H as [H|H];
      [apply Hnot, elem_of_app; left; exact H|].
    apply elem_of_app in H as [H|H];
      [apply Hnot, elem_of_app; right; apply elem_of_app; left; exact H|].
    apply elem_of_app in H as [H|H];
      [apply Hnot; do 2 (apply elem_of_app; right); exact H|].
    not_in_list H.
  - exact (Hnot H).
  - exact (Hnot H).
Qed.

Lemma main_rollback sch w p t db :
  let run := main sch w p t db in
  EvRollback ∈ trace run →
  passengers (final run) = passengers db
  ∧ tickets (final run) = tickets db
  ∧ last (trace run) = Some EvRollback
  ∧ exit_status (result run) = 1%Z.
Proof.
  cbv zeta. rewrite main_run.
  destruct (path_exists w p); [|intros H; not_in_list H].
  destruct (db_reachable w); [|intros H; not_in_list H].
  destruct (read_csv w p) as [raw|];
    [|intros H; unfold connected in H; not_in_list H].
  destruct (Pandas.getitem (prepare raw) "age") as [x|];
    [|intros H; unfold connected in H; not_in_list H].
  destruct (truthy t).
  { destruct (path_exists w (default "" t));
      intros H; unfold prepared, connected in H; not_in_list H. }
  destruct (result (create_tickets_df (prepare raw) db)) as [tdf|e];
    [|intros H; unfold prepared, connected in H; not_in_list H].
  cbv zeta. run_proj. intros H.
  apply elem_of_app in H as [H|H];
    [unfold prepared, connected in H; not_in_list H|].
  destruct (pipeline_rollback sch w (prepare raw) tdf db H) as (Hp & Htk & Hl & Hs).
  repeat split; try done. by rewrite last_app, Hl.
Qed.

(** ** Exit status *)

Lemma main_status sch w p t db :
  let run := main sch w p t db in
  (result run = Ok tt
   ∧ Forall (fun ev => failure_event ev = false) (trace run)
   ∧ last (trace run) = Some (EvInfo Completed))
  ∨ ((∃ e, result run = Raise e) ∧ exit_status (result run) = 1%Z
     ∧ EvInfo Completed ∉ trace run).
Proof.
  cbv zeta. rewrite main_run.
  destruct (path_exists w p).
  2: { right. split; [by eexists|]. split; [done|]. intros H. not_in_list H. }
  destruct (db_reachable w).
  2: { right. split; [by eexists|]. split; [done|]. intros H. not_in_list H. }
  destruct (read_csv w p) as [raw|].
  2: { right. split; [by eexists|]. split; [done|]. intros H.
       unfold connected in H. not_in_list H. }
  destruct (Pandas.getitem (prepare raw) "age") as [x|].
  2: { right. split; [by eexists|]. split; [done|]. intros H.
       unfold connected in H. not_in_list H. }
  destruct (truthy t).
  { destruct (path_exists w (default "" t));
      (right; split; [by eexists|]; split; [done|]; intros H;
       unfold prepared, connected in H; not_in_list H). }
  destruct (create_tickets_df_result (prepare raw) db) as [[tdf Hc] | [Hc | Hc]];
    rewrite Hc.
  2, 3: (right; split; [by eexists|]; split; [done|]; intros H;
         unfold prepared, connected in H; not_in_list H).
  cbv zeta. run_proj.
  destruct (pipeline_status sch w (prepare raw) tdf db)
    as [(Hr & Hq & Hl) | (He & Hs & Hn)].
  - left. split; [done|]. split.
    + apply Forall_app. split; [by repeat constructor|done].
    + rewrite last_app, Hl. done.
  - right. split; [done|]. split; [done|]. intros H.
    apply elem_of_app in H as [H|H]; [|done].
    unfold prepared, connected in H. not_in_list H.
Qed.

(** A run of [main] returns only when every guard passes and every stage
    returns. *)
Lemma main_ok_stages sch w p t db :
  result (main sch w p t db) = Ok tt →
  path_exists w p = true ∧ db_reachable w = true ∧ truthy t = false
  ∧ ∃ raw tickets_df,
      read_csv w p = Some raw
      ∧ "age" ∈ Pandas.labels (prepare raw)
      ∧ result (create_tickets_df (prepare raw) db) = Ok tickets_df
      ∧ result (load_to_staging sch (prepare raw) tickets_df db) = Ok tt
      ∧ result (transform_and_load sch
                  (final (load_to_staging sch (prepare raw) tickets_df db)))
        = Ok tt
      ∧ result (show_analytics w
                  (final (transform_and_load sch
                     (final (load_to_staging sch (prepare raw) tickets_df db)))))
        = Ok tt.
Proof.
  rewrite main_run.
  destruct (path_exists w p); [|done].
  destruct (db_reachable w); [|done].
  destruct (read_csv w p) as [raw|]; [|done].
  destruct (Pandas.getitem (prepare raw) "age") as [x|] eqn:Hage; [|done].
  destruct (truthy t).
  { by destruct (path_exists w (default "" t)). }
  destruct (result (create_tickets_df (prepare raw) db)) as [tdf|e] eqn:Hc; [|done].
  cbv zeta. run_proj. rewrite pipeline_run. cbv zeta.
  destruct (result (load_to_staging sch (prepare raw) tdf db))
    as [[]|e] eqn:Hs; [|done].
  destruct (result (transform_and_load sch
                      (final (load_to_staging sch (prepare raw) tdf db))))
    as [[]|e] eqn:Htl; [|done].
  destruct (result (show_analytics w
                      (final (transform_and_load sch
                         (final (load_to_staging sch (prepare raw) tdf db))))))
    as [[]|e] eqn:Ha; [|done].
  intros _. split; [done|]. split; [done|]. split; [done|].
  exists raw, tdf. split; [done|]. split.
  { apply dec_stable. intros Hn. apply getitem_None in Hn. congruence. }
  by repeat split.
Qed.

(** C9: the exit status of a run of [main] is 0 when the whole pipeline
    succeeds and 1 otherwise.  It is 1 whenever the database is
    unreachable, the passengers path or a supplied tickets path does not
    exist, the passengers CSV cannot be read, or the staging load or the
    promotion of the batches of the run raises and is rolled back, as they
    do when the database refuses a record and when a staged passenger has
    no key or the key of another.  It is 0
    when the passengers file exists, the database is reachable, the CSV is
    read and has an age column, no tickets path is supplied, the tickets
    are synthesized, the staging load and the promotion commit and the
    report has no null field; and only then: a run with status 0 has passed
    every guard and every stage.  Accordingly a run with a failed
    connection, a missing path, a failed preparation or a rollback among
    its events has status 1. *)
Theorem exit_status_of_main sch w p t db :
  let run := main sch w p t db in
  ((result run = Ok tt ∧ exit_status (result run) = 0%Z
    ∧ Forall (fun ev => failure_event ev = false) (trace run)
    ∧ last (trace run) = Some (EvInfo Completed))
   ∨ ((∃ e, result run = Raise e) ∧ exit_status (result run) = 1%Z
      ∧ EvInfo Completed ∉ trace run))
  ∧ (db_reachable w = false → exit_status (result run) = 1%Z)
  ∧ (path_exists w p = false → exit_status (result run) = 1%Z)
  ∧ (truthy t = true → path_exists w (default "" t) = false →
     exit_status (result run) = 1%Z)
  ∧ (read_csv w p = None → exit_status (result run) = 1%Z)
  ∧ (∀ raw tickets_df e,
       read_csv w p = Some raw →
       result (create_tickets_df (prepare raw) db) = Ok tickets_df →
       result (load_to_staging sch (prepare raw) tickets_df db) = Raise e →
       exit_status (result run) = 1%Z)
  ∧ (∀ raw tickets_df e,
       read_csv w p = Some raw →
       result (create_tickets_df (prepare raw) db) = Ok tickets_df →
       result (transform_and_load sch
                 (final (load_to_staging sch (prepare raw) tickets_df db)))
       = Raise e →
       exit_status (result run) = 1%Z)
  ∧ (∀ raw tickets_df,
       read_csv w p = Some raw →
       result (create_tickets_df (prepare raw) db) = Ok tickets_df →
       mapM (stage_passenger sch) (Pandas.rows (prepare raw)) = None
       ∨ mapM (stage_ticket sch) (Pandas.rows tickets_df) = None →
       exit_status (result run) = 1%Z)
  ∧ (∀ raw tickets_df ps ts,
       read_csv w p = Some raw →
       result (create_tickets_df (prepare raw) db) = Ok tickets_df →
       mapM (stage_passenger sch) (Pandas.rows (prepare raw)) = Some ps →
       mapM (stage_ticket sch) (Pandas.rows tickets_df) = Some ts →
       None ∈ StagingPassenger.passenger_id <$> ps
       ∨ ¬ NoDup (StagingPassenger.passenger_id <$> ps) →
       exit_status (result run) = 1%Z)
  ∧ (∀ raw tickets_df rows,
       path_exists w p = true → db_reachable w = true →
       read_csv w p = Some raw →
       "age" ∈ Pandas.labels (prepare raw) →
       truthy t = false →
       result (create_tickets_df (prepare raw) db) = Ok tickets_df →
       result (load_to_staging sch (prepare raw) tickets_df db) = Ok tt →
       result (transform_and_load sch
                 (final (load_to_staging sch (prepare raw) tickets_df db)))
       = Ok tt →
       analytics_summary w
         (final (transform_and_load sch
                   (final (load_to_staging sch (prepare raw) tickets_df db))))
       = Some rows →
       forallb complete_row rows = true →
       result run = Ok tt ∧ exit_status (result run) = 0%Z)
  ∧ (exit_status (result run) = 0%Z →
     path_exists w p = true ∧ db_reachable w = true ∧ truthy t = false
     ∧ ∃ raw tickets_df,
         read_csv w p = Some raw
         ∧ "age" ∈ Pandas.labels (prepare raw)
         ∧ result (create_tickets_df (prepare raw) db) = Ok tickets_df
         ∧ result (load_to_staging sch (prepare raw) tickets_df db) = Ok tt
         ∧ result (transform_and_load sch
                     (final (load_to_staging sch (prepare raw) tickets_df db)))
           = Ok tt)
  ∧ (EvError ConnectionFailed ∈ trace run → exit_status (result run) = 1%Z)
  ∧ (∀ q, EvExists q false ∈ trace run → exit_status (result run) = 1%Z)
  ∧ (EvError PrepareError ∈ trace run → exit_status (result run) = 1%Z)
  ∧ (EvRollback ∈ trace run → exit_status (result run) = 1%Z).
Proof.
  cbv zeta.
  assert (Hfail : ∀ ev, failure_event ev = true →
                        ev ∈ trace (main sch w p t db) →
                        exit_status (result (main sch w p t db)) = 1%Z).
  { intros ev Hev Hin.
    destruct (main_status sch w p t db) as [(_ & Hq & _) | (_ & Hs & _)]; [|done].
    rewrite Forall_forall in Hq. specialize (Hq _ Hin). congruence. }
  assert (Hone : result (main sch w p t db) ≠ Ok tt →
                 exit_status (result (main sch w p t db)) = 1%Z).
  { intros Hno.
    by destruct (main_status sch w p t db) as [(Hr & _) | (_ & Hs & _)]. }
  split.
  { destruct (main_status sch w p t db) as [(Hr & Hq & Hl) | H]; [|by right].
    left. split; [done|]. split; [by rewrite Hr|]. done. }
  split.
  { intros Hdb. apply Hone. intros (_ & Hdb' & _)%main_ok_stages. congruence. }
  split.
  { intros Hp. apply Hone. intros (Hp' & _)%main_ok_stages. congruence. }
  split.
  { intros Ht _. apply Hone. intros (_ & _ & Ht' & _)%main_ok_stages. congruence. }
  split.
  { intros Hcsv. apply Hone.
    intros (_ & _ & _ & raw & tdf & Hcsv' & _)%main_ok_stages. congruence. }
  split.
  { intros raw tdf e Hcsv Hc Hs. apply Hone.
    intros (_ & _ & _ & raw' & tdf' & Hcsv' & _ & Hc' & Hs' & _)%main_ok_stages.
    rewrite Hcsv in Hcsv'. injection Hcsv' as <-.
    rewrite Hc in Hc'. injection Hc' as <-. congruence. }
  split.
  { intros raw tdf e Hcsv Hc Hs. apply Hone.
    intros (_ & _ & _ & raw' & tdf' & Hcsv' & _ & Hc' & _ & Hs' & _)%main_ok_stages.
    rewrite Hcsv in Hcsv'. injection Hcsv' as <-.
    rewrite Hc in Hc'. injection Hc' as <-. congruence. }
  split.
  { intros raw tdf Hcsv Hc Hbad. apply Hone.
    intros (_ & _ & _ & raw' & tdf' & Hcsv' & _ & Hc' & Hs' & _)%main_ok_stages.
    rewrite Hcsv in Hcsv'. injection Hcsv' as <-.
    rewrite Hc in Hc'. injection Hc' as <-.
    rewrite load_to_staging_run in Hs'.
    destruct Hbad as [Hb|Hb]; rewrite Hb in Hs'; [done|].
    by destruct (mapM (stage_passenger sch) _). }
  split.
  { intros raw tdf ps ts Hcsv Hc Hps Hts Hbad. apply Hone.
    intros (_ & _ & _ & raw' & tdf' & Hcsv' & _ & Hc' & _ & Htl' & _)%main_ok_stages.
    rewrite Hcsv in Hcsv'. injection Hcsv' as <-.
    rewrite Hc in Hc'. injection Hc' as <-.
    rewrite load_to_staging_run, Hps, Hts, run_final in Htl'.
    destruct (promotion_fails_on_bad_keys sch
                (mkDB (append_rows ps (truncate_restart (staging_passengers db)))
                      (append_rows ts (truncate_restart (staging_tickets db)))
                      (passengers db) (tickets db))) as [st Hst]; [exact Hbad|].
    congruence. }
  split.
  { intros raw tdf rows Hp Hdb Hcsv Hage Ht Hc Hs Htl Hq Hrows.
    assert (Hok : result (main sch w p t db) = Ok tt); [|by rewrite Hok].
    rewrite main_run, Hp, Hdb, Hcsv, Ht.
    destruct (Pandas.getitem (prepare raw) "age") as [x|] eqn:Hx;
      [|by apply getitem_None in Hx].
    rewrite Hc. cbv zeta. run_proj. rewrite pipeline_run. cbv zeta.
    rewrite Hs. cbv beta iota. rewrite Htl. cbv beta iota.
    rewrite (show_analytics_rows _ _ _ Hq), (for_each_complete _ _ Hrows).
    unfold prepend. by run_proj. }
  split.
  { intros H0.
    assert (Hok : result (main sch w p t db) = Ok tt).
    { destruct (main_status sch w p t db) as [(Hr & _) | (_ & Hs & _)]; [done|].
      rewrite Hs in H0. discriminate H0. }
    destruct (main_ok_stages _ _ _ _ _ Hok)
      as (Hp & Hdb & Ht & raw & tdf & Hcsv & Hage & Hc & Hs & Htl & _).
    split; [done|]. split; [done|]. split; [done|]. by exists raw, tdf. }
  repeat split; intros; (eapply Hfail; [|eassumption]); reflexivity.
Qed.

(** The exit status of four runs: an unreachable database, a passengers
    file whose two records share a key (the promotion is rolled back), a
    file the CSV reader refuses, and the scenario, which completes. *)
Lemma exit_status_of_main_witness :
  exit_status (result (main Titanic.schema offline_world "passengers.csv" None
                         Titanic.empty_db)) = 1%Z
  ∧ (result (transform_and_load Titanic.schema
               (final (load_to_staging Titanic.schema (prepare twins) twin_tickets
                         Titanic.empty_db)))
     = Raise (SQLError CardinalityViolation)
     ∧ exit_status (result (main Titanic.schema (Titanic.world twins)
                              "passengers.csv" None Titanic.empty_db)) = 1%Z)
  ∧ exit_status (result (main Titanic.schema unreadable_world "passengers.csv"
                           None Titanic.empty_db)) = 1%Z
  ∧ (result (main Titanic.schema (Titanic.world Titanic.two_passengers)
               "passengers.csv" None Titanic.empty_db) = Ok tt
     ∧ exit_status (result (main Titanic.schema
                              (Titanic.world Titanic.two_passengers)
                              "passengers.csv" None Titanic.empty_db)) = 0%Z).
Proof.
  split; [|split; [|split]].
  - destruct (exit_status_of_main Titanic.schema offline_world "passengers.csv"
                None Titanic.empty_db) as (_ & Hdb & _).
    exact (Hdb eq_refl).
  - assert (Hs : result (transform_and_load Titanic.schema
                           (final (load_to_staging Titanic.schema (prepare twins)
                                     twin_tickets Titanic.empty_db)))
                 = Raise (SQLError CardinalityViolation))
      by (vm_compute; reflexivity).
    split; [exact Hs|].
    destruct (exit_status_of_main Titanic.schema (Titanic.world twins)
                "passengers.csv" None Titanic.empty_db)
      as (_ & _ & _ & _ & _ & _ & Hpromo & _).
    exact (Hpromo twins twin_tickets _ eq_refl eq_refl Hs).
  - destruct (exit_status_of_main Titanic.schema unreadable_world "passengers.csv"
                None Titanic.empty_db) as (_ & _ & _ & _ & Hcsv & _).
    exact (Hcsv eq_refl).
  - destruct (exit_status_of_main Titanic.schema
                (Titanic.world Titanic.two_passengers) "passengers.csv" None
                Titanic.empty_db) as (_ & _ & _ & _ & _ & _ & _ & _ & _ & Hok & _).
    refine (Hok Titanic.two_passengers two_tickets [] eq_refl eq_refl eq_refl _
              eq_refl eq_refl _ _ eq_refl eq_refl).
    + apply list_elem_of_In. vm_compute. tauto.
    + vm_compute. reflexivity.
    + vm_compute. reflexivity.
Defined.

(** ** Missing files *)

(** C8, as amended: a passengers path that does not exist ends the run with
    status 1 right after the check, before the database connection is
    attempted.  A supplied tickets path that does not exist ends the run
    with [sys.exit(1)], before any statement of the staging or promotion
    stage and with the database untouched; its check, and the error line
    it logs, come after the connection to the database has been attempted
    and after the passengers CSV has been read and prepared: the run is
    then the start of the log, the check of the passengers path, the
    connection, [SELECT 1], the read of the CSV and the two lines of the
    normalizer, followed by the check of the tickets path and its error
    line. *)
Theorem missing_file_exits sch w p t db :
  let run := main sch w p t db in
  let q := default "" t in
  (path_exists w p = false →
   run = mkRun (Raise (SystemExit 1)) db
           [EvInfo Starting; EvExists p false; EvError (PassengersNotFound p)]
   ∧ EvConnect ∉ trace run)
  ∧ (truthy t = true → path_exists w q = false →
     result run = Raise (SystemExit 1)
     ∧ exit_status (result run) = 1%Z
     ∧ final run = db
     ∧ Forall (fun ev => store_event ev = false) (trace run)
     ∧ (path_exists w p = true → db_reachable w = true →
        ∀ raw, read_csv w p = Some raw →
               "age" ∈ Pandas.labels (prepare raw) →
               ∃ x, Pandas.getitem (prepare raw) "age" = Some x
                    ∧ trace run
                      = [EvInfo Starting; EvExists p true; EvConnect;
                         EvSql SelectOne; EvInfo ConnectionSuccessful;
                         EvReadCsv p;
                         EvInfo (LoadedRows (Pandas.index_len raw) p);
                         EvInfo (DataPrepared (Pandas.index_len (prepare raw))
                                   (Pandas.isna_sum x));
                         EvExists q false; EvError (TicketsNotFound q)])
     ∧ (∀ n, trace run !! n = Some (EvError (TicketsNotFound q)) →
             n = 9
             ∧ trace run !! 2 = Some EvConnect
             ∧ trace run !! 5 = Some (EvReadCsv p)
             ∧ trace run !! 8 = Some (EvExists q false))).
Proof.
  cbv zeta. rewrite main_run. split.
  - intros ->. split; [done|]. intros H. not_in_list H.
  - intros -> ->.
    destruct (path_exists w p).
    2: { split; [done|]. split; [done|]. split; [done|].
         split; [by repeat constructor|]. split; [done|].
         intros n. do 3 (destruct n as [|n]; [by intros [=]|]). by intros [=]. }
    destruct (db_reachable w).
    2: { split; [done|]. split; [done|]. split; [done|].
         split; [by repeat constructor|]. split; [done|].
         intros n. do 4 (destruct n as [|n]; [by intros [=]|]). by intros [=]. }
    destruct (read_csv w p) as [raw|].
    2: { split; [done|]. split; [done|]. split; [done|].
         split; [by repeat constructor|]. split; [done|].
         intros n. cbn [connected app trace].
         do 7 (destruct n as [|n]; [by intros [=]|]). by intros [=]. }
    destruct (Pandas.getitem (prepare raw) "age") as [x|] eqn:Hage.
    2: { split; [done|]. split; [done|]. split; [done|].
         split; [by repeat constructor|]. split.
         - intros _ _ raw' [= <-] Hin. by apply getitem_None in Hage.
         - intros n. cbn [connected app trace].
           do 8 (destruct n as [|n]; [by intros [=]|]). by intros [=]. }
    split; [done|]. split; [done|]. split; [done|].
    split; [by repeat constructor|]. split.
    + intros _ _ raw' [= <-] _. exists x. by split.
    + intros n Hn. cbn [prepared connected app trace] in Hn |- *.
      do 9 (destruct n as [|n]; [by inversion Hn|]).
      destruct n as [|n]; [done|]. by inversion Hn.
Qed.

Lemma missing_file_exits_witness :
  let w := Titanic.world Titanic.two_passengers in
  let run := main Titanic.schema w "passengers.csv" (Some "tickets.csv")
               Titanic.empty_db in
  (path_exists w "absent.csv" = false
   ∧ main Titanic.schema w "absent.csv" None Titanic.empty_db
     = mkRun (Raise (SystemExit 1)) Titanic.empty_db
         [EvInfo Starting; EvExists "absent.csv" false;
          EvError (PassengersNotFound "absent.csv")])
  ∧ (truthy (Some "tickets.csv") = true
     ∧ path_exists w "tickets.csv" = false
     ∧ result run = Raise (SystemExit 1)
     ∧ final run = Titanic.empty_db
     ∧ trace run !! 2 = Some EvConnect
     ∧ trace run !! 5 = Some (EvReadCsv "passengers.csv")
     ∧ trace run !! 8 = Some (EvExists "tickets.csv" false)
     ∧ trace run !! 9 = Some (EvError (TicketsNotFound "tickets.csv"))).
Proof.
  cbv zeta. split.
  - split; [reflexivity|].
    exact (proj1 (proj1 (missing_file_exits Titanic.schema
                           (Titanic.world Titanic.two_passengers)
                           "absent.csv" None Titanic.empty_db) eq_refl)).
  - split; [reflexivity|]. split; [reflexivity|].
    destruct (proj2 (missing_file_exits Titanic.schema
                       (Titanic.world Titanic.two_passengers)
                       "passengers.csv" (Some "tickets.csv") Titanic.empty_db)
                eq_refl eq_refl) as (Hr & _ & Hf & _ & Hrun & Hpos).
    split; [exact Hr|]. split; [exact Hf|].
    assert (Hage : "age" ∈ Pandas.labels (prepare Titanic.two_passengers)).
    { apply list_elem_of_In. vm_compute. tauto. }
    destruct (Hrun eq_refl eq_refl _ eq_refl Hage) as (x & _ & Htr).
    assert (H9 : trace (main Titanic.schema (Titanic.world Titanic.two_passengers)
                          "passengers.csv" (Some "tickets.csv") Titanic.empty_db)
                 !! 9 = Some (EvError (TicketsNotFound "tickets.csv")))
      by (rewrite Htr; reflexivity).
    destruct (Hpos 9 H9) as (_ & H2 & H5 & H8).
    exact (conj H2 (conj H5 (conj H8 H9))).
Defined.

(** C8 as the specification words it fails for the tickets path: with a
    readable passengers file and a tickets path that does not exist, the
    connection is attempted (and [SELECT 1] sent) at positions 2 and 3 of
    the run, six events before the existence check of the tickets path. *)
Lemma tickets_check_follows_connection :
  let w := Titanic.world Titanic.two_passengers in
  let run := main Titanic.schema w "passengers.csv" (Some "tickets.csv")
               Titanic.empty_db in
  path_exists w "tickets.csv" = false
  ∧ trace run !! 2 = Some EvConnect
  ∧ trace run !! 3 = Some (EvSql SelectOne)
  ∧ trace run !! 8 = Some (EvExists "tickets.csv" false)
  ∧ result run = Raise (SystemExit 1).
Proof.
  cbv zeta. rewrite main_run. by vm_compute.
Qed.

(** ** A supplied tickets file *)

Ltac no_store_event H :=
  let ev := fresh "ev" in
  let Hin := fresh "Hin" in
  let Hev := fresh "Hev" in
  apply Exists_exists in H as (ev & Hin & Hev);
  unfold prepared, connected in Hin; cbn [app trace] in Hin;
  repeat (apply elem_of_cons in Hin as [-> | Hin]; [discriminate Hev|]);
  by apply elem_of_nil in Hin.

Lemma main_store_events sch w p t db :
  Exists (fun ev => store_event ev = true) (trace (main sch w p t db)) →
  truthy t = false.
Proof.
  rewrite main_run. intros H.
  destruct (truthy t); [exfalso|done].
  destruct (path_exists w p); [|no_store_event H].
  destruct (db_reachable w); [|no_store_event H].
  destruct (read_csv w p) as [raw|]; [|no_store_event H].
  destruct (Pandas.getitem (prepare raw) "age"); [|no_store_event H].
  destruct (path_exists w (default "" t)); no_store_event H.
Qed.

(** C10, as amended: in a run with a supplied tickets path that exists, no
    statement of the staging or promotion stage is executed, the database
    is left as it was and the exit status is 1.  The run ends with the
    unhandled [NameError] of the undefined [load_and_prepare_tickets]
    exactly when the passengers file exists, the database is reachable and
    the passengers CSV is read and has an age column, and then right after
    the check of the tickets path; in every other case it has ended before
    through [sys.exit(1)], with the error line of the guard that failed as
    its last event.  A run that executes a statement of the staging or
    promotion stage was given no tickets path. *)
Theorem tickets_file_never_staged sch w p t db :
  let run := main sch w p t db in
  let q := default "" t in
  (truthy t = true → path_exists w q = true →
   final run = db
   ∧ Forall (fun ev => store_event ev = false) (trace run)
   ∧ exit_status (result run) = 1%Z
   ∧ (result run = Raise (NameError "load_and_prepare_tickets")
      ↔ path_exists w p = true ∧ db_reachable w = true
        ∧ ∃ raw, read_csv w p = Some raw
                 ∧ "age" ∈ Pandas.labels (prepare raw))
   ∧ (result run = Raise (NameError "load_and_prepare_tickets") →
      ∃ raw x, read_csv w p = Some raw
               ∧ trace run = prepared p raw x ++ [EvExists q true])
   ∧ (result run ≠ Raise (NameError "load_and_prepare_tickets") →
      result run = Raise (SystemExit 1)
      ∧ (EvExists q true ∉ trace run ∨ q = p)
      ∧ (last (trace run) = Some (EvError (PassengersNotFound p))
         ∨ last (trace run) = Some (EvError ConnectionFailed)
         ∨ last (trace run) = Some (EvError PrepareError))))
  ∧ (Exists (fun ev => store_event ev = true) (trace run) → truthy t = false).
Proof.
  cbv zeta. split; [|apply main_store_events].
  intros Ht Hex.
  assert (Hq : Forall (fun ev => store_event ev = false)
                 (trace (main sch w p t db))).
  { apply Forall_forall. intros ev Hin.
    destruct (store_event ev) eqn:Hev; [|done].
    assert (truthy t = false); [|congruence].
    apply (main_store_events sch w p t db), Exists_exists. eauto. }
  split.
  { rewrite main_run, Ht, Hex.
    destruct (path_exists w p); [|done].
    destruct (db_reachable w); [|done].
    destruct (read_csv w p) as [raw|]; [|done].
    by destruct (Pandas.getitem (prepare raw) "age"). }
  split; [exact Hq|].
  rewrite main_run, Ht, Hex.
  destruct (path_exists w p) eqn:Hp.
  2: { split; [done|]. split; [split; [done|intros [H _]; discriminate H]|].
       split; [done|]. intros _. split; [done|]. split; [|by left].
       destruct (decide (default "" t = p)) as [Heq|Hne]; [by right|left].
       cbn [trace]. intros H. not_in_list H. }
  destruct (db_reachable w).
  2: { split; [done|]. split; [split; [done|intros (_ & H & _); discriminate H]|].
       split; [done|]. intros _. split; [done|]. split; [|by right; left].
       destruct (decide (default "" t = p)) as [Heq|Hne]; [by right|left].
       cbn [trace]. intros H.
       apply elem_of_cons in H as [H|H]; [discriminate H|].
       apply elem_of_cons in H as [H|H]; [injection H as H; congruence|].
       not_in_list H. }
  destruct (read_csv w p) as [raw|].
  2: { split; [done|]. split; [split; [done|intros (_ & _ & ? & H & _); discriminate H]|].
       split; [done|]. intros _. split; [done|]. split; [|by right; right].
       destruct (decide (default "" t = p)) as [Heq|Hne]; [by right|left].
       cbn [trace connected app]. intros H.
       apply elem_of_cons in H as [H|H]; [discriminate H|].
       apply elem_of_cons in H as [H|H]; [injection H as H; congruence|].
       not_in_list H. }
  destruct (Pandas.getitem (prepare raw) "age") as [x|] eqn:Hage.
  2: { split; [done|]. split.
       { split; [done|]. intros (_ & _ & raw' & [= <-] & Hin).
         by apply getitem_None in Hage. }
       split; [done|]. intros _. split; [done|]. split; [|by right; right].
       destruct (decide (default "" t = p)) as [Heq|Hne]; [by right|left].
       cbn [trace connected app]. intros H.
       apply elem_of_cons in H as [H|H]; [discriminate H|].
       apply elem_of_cons in H as [H|H]; [injection H as H; congruence|].
       not_in_list H. }
  split; [done|]. split.
  { split; [|done]. intros _. split; [done|]. split; [done|].
    exists raw. split; [done|].
    apply dec_stable. intros Hn. apply getitem_None in Hn. congruence. }
  split; [|done]. intros _. by exists raw, x.
Qed.

Lemma tickets_file_never_staged_witness :
  let w := Titanic.world Titanic.two_passengers in
  let run := main Titanic.schema w "passengers.csv" (Some "passengers.csv")
               Titanic.empty_db in
  truthy (Some "passengers.csv") = true
  ∧ path_exists w "passengers.csv" = true
  ∧ final run = Titanic.empty_db
  ∧ Forall (fun ev => store_event ev = false) (trace run)
  ∧ exit_status (result run) = 1%Z
  ∧ result run = Raise (NameError "load_and_prepare_tickets").
Proof.
  cbv zeta. split; [reflexivity|]. split; [reflexivity|].
  destruct (proj1 (tickets_file_never_staged Titanic.schema
                     (Titanic.world Titanic.two_passengers)
                     "passengers.csv" (Some "passengers.csv") Titanic.empty_db)
              eq_refl eq_refl) as (Hf & Hq & Hs & Hiff & _).
  split; [exact Hf|]. split; [exact Hq|]. split; [exact Hs|].
  apply Hiff. split; [reflexivity|]. split; [reflexivity|].
  exists Titanic.two_passengers. split; [reflexivity|].
  apply list_elem_of_In. vm_compute. tauto.
Defined.

(** C10 as written fails when an earlier guard ends the run: with a tickets
    path that exists and a passengers path that does not, the run logs the
    missing passengers file and leaves through [sys.exit(1)]; no
    [NameError] is raised and the tickets branch is never reached. *)
Lemma missing_passengers_before_tickets :
  let w := Titanic.world Titanic.two_passengers in
  truthy (Some "passengers.csv") = true
  ∧ path_exists w "passengers.csv" = true
  ∧ main Titanic.schema w "absent.csv" (Some "passengers.csv") Titanic.empty_db
    = mkRun (Raise (SystemExit 1)) Titanic.empty_db
        [EvInfo Starting; EvExists "absent.csv" false;
         EvError (PassengersNotFound "absent.csv")].
Proof.
  cbv zeta. split; [reflexivity|]. split; [reflexivity|].
  by rewrite main_run.
Qed.

(** ** The end-to-end scenario

    A passengers file with the rows (1, " Alice ", "Female", no age, 1, 0,
    "C") and (2, "Bob", "Male", 40, 0, 0, no port) and no tickets file. *)
Example end_to_end_scenario :
  let run := main Titanic.schema (Titanic.world Titanic.two_passengers)
               "passengers.csv" None Titanic.empty_db in
  result run = Ok tt
  ∧ exit_status (result run) = 0%Z
  ∧ passengers (final run)
    = {[ 1%Z := Passenger.mk (Some "Alice") (Some "female") (30 # 1) 2 "C";
         2%Z := Passenger.mk (Some "Bob") (Some "male") (40 # 1) 1 "S" ]}
  ∧ tickets (final run)
    = {[ 1%Z := Ticket.mk (Some 1%Z) (Some "T1") (Some 3%Z) (Some "Unknown");
         2%Z := Ticket.mk (Some 2%Z) (Some "T2") (Some 3%Z) (Some "Unknown") ]}
  ∧ table_rows (staging_passengers (final run)) = [alice; bob]
  ∧ table_rows (staging_tickets (final run)) = [ticket_of 1 "T1"; ticket_of 2 "T2"].
Proof. cbv zeta. repeat split; by vm_compute. Qed.

(** A staging load that fails on the Ticket batch leaves the staging tables
    of the previous run in place. *)
Example staging_load_refused :
  let bad := Pandas.mkDataFrame 1 [("ticket_id", [Pandas.StrCell "x"])] in
  let run := load_to_staging Titanic.schema (prepare Titanic.two_passengers) bad
               staged_db in
  result run = Raise (SQLError SchemaViolation)
  ∧ final run = staged_db
  ∧ trace run = [EvBegin; EvSql TruncateStaging; EvSql AppendStagingPassengers;
                 EvSql AppendStagingTickets; EvRollback].
Proof. cbv zeta. repeat split; by vm_compute. Qed.

(** Promoting the scenario's staging tables twice. *)
Example promotion_twice :
  let once := transform_and_load Titanic.schema staged_db in
  let twice := transform_and_load Titanic.schema (final once) in
  result once = Ok tt ∧ result twice = Ok tt
  ∧ passengers (final twice) = passengers (final once)
  ∧ size (passengers (final twice)) = 2.
Proof. cbv zeta. repeat split; by vm_compute. Qed.

(** * Further properties of the stages *)

(** * Further properties of the promotion *)

Section UpsertMore.

Context {S R : Type}.
Variable key : S → option Z.
Variable excluded : S → R.
Variable constraint : Z → R → bool.
Variable do_update : R → R → R.

(** Rows with a key, accepted by the constraints and with keys that are
    pairwise distinct and not yet written are all upserted. *)
Lemma upsert_succeeds (src : list S) written (tbl : gmap Z R) :
  Forall (fun s => ∃ k, key s = Some k ∧ (k ∉ written)
                      ∧ constraint k (excluded s) = true) src →
  NoDup (key <$> src) →
  ∃ tbl', upsert key excluded constraint do_update src written tbl = inr tbl'.
Proof.
  revert written tbl. induction src as [|s src IH]; intros written tbl Hall Hnd.
  { by eexists. }
  apply Forall_cons in Hall as [(k & Hk & Hfresh & Hc) Hall].
  apply NoDup_cons in Hnd as [Hhead Hnd].
  cbn [upsert]. rewrite Hk, Hc. cbn [negb].
  destruct (decide (k ∈ written)) as [|_]; [done|].
  apply IH; [|done].
  apply Forall_forall. intros s' Hs'.
  rewrite Forall_forall in Hall.
  destruct (Hall s' Hs') as (k' & Hk' & Hfresh' & Hc').
  exists k'. split; [done|]. split; [|done].
  intros [Heq%elem_of_singleton | Hin]%elem_of_union; [|done].
  apply Hhead. rewrite Hk. apply list_elem_of_fmap. exists s'.
  split; [congruence|done].
Qed.

(** Over a table whose keys have all been written, a successful upsert adds
    one row per source row. *)
Lemma upsert_size (src : list S) written (tbl tbl' : gmap Z R) :
  dom tbl ⊆ written →
  upsert key excluded constraint do_update src written tbl = inr tbl' →
  size tbl' = size tbl + length src.
Proof.
  revert written tbl. induction src as [|s src IH]; intros written tbl Hdom; cbn [upsert].
  { intros [= <-]. cbn [length]. lia. }
  destruct (key s) as [k|]; [|done].
  destruct (constraint k (excluded s)); cbn [negb]; [|done].
  destruct (decide (k ∈ written)) as [|Hfresh]; [done|].
  assert (Hnone : tbl !! k = None).
  { apply not_elem_of_dom. intros Hin. apply Hfresh. by apply Hdom. }
  rewrite Hnone. intros H. apply IH in H.
  - rewrite H, map_size_insert_None by done. cbn [length]. lia.
  - rewrite dom_insert_L. intros x [Hx%elem_of_singleton | Hx]%elem_of_union.
    + subst x. apply elem_of_union. left. by apply elem_of_singleton.
    + apply elem_of_union. right. by apply Hdom.
Qed.

End UpsertMore.

(** After a promotion that commits, the final tables are exactly the image
    of the staging tables. *)
Lemma promoted_passenger_origin sch db k p :
  result (transform_and_load sch db) = Ok tt →
  (passengers (final (transform_and_load sch db)) !! k = Some p
   ↔ ∃ r, r ∈ table_rows (staging_passengers db)
          ∧ StagingPassenger.passenger_id r = Some k
          ∧ p = select_passenger sch r).
Proof.
  intros (ps & ts & Hp & Ht)%promotion_succeeded.
  rewrite (promoted_tables _ _ _ _ Hp Ht), run_final.
  change (passengers (set_tickets ts (set_passengers ps (cleared db)))) with ps.
  pose proof (upsert_insert _ _ _ _ update_passenger_excluded _ _ _ _ Hp) as [Hin _].
  split.
  - intros Hk.
    destruct (upsert_keys _ _ _ _ _ _ _ _ Hp k (mk_is_Some _ _ Hk)) as [Hold|Hsrc].
    { change (passengers (cleared db)) with (∅ : gmap Z Passenger.t) in Hold.
      rewrite lookup_empty in Hold. by destruct Hold. }
    destruct Hsrc as (r & Hr & Hkr). exists r. split; [done|]. split; [done|].
    destruct (Hin r Hr) as (k' & Hk' & _ & _ & Hlook).
    assert (k' = k) as -> by congruence. congruence.
  - intros (r & Hr & Hkr & ->).
    destruct (Hin r Hr) as (k' & Hk' & _ & _ & Hlook).
    assert (k' = k) as -> by congruence. done.
Qed.

Lemma promoted_ticket_origin sch db k t :
  result (transform_and_load sch db) = Ok tt →
  (tickets (final (transform_and_load sch db)) !! k = Some t
   ↔ ∃ r, r ∈ table_rows (staging_tickets db)
          ∧ StagingTicket.ticket_id r = Some k
          ∧ t = select_ticket r).
Proof.
  intros (ps & ts & Hp & Ht)%promotion_succeeded.
  rewrite (promoted_tables _ _ _ _ Hp Ht), run_final.
  change (tickets (set_tickets ts (set_passengers ps (cleared db)))) with ts.
  pose proof (upsert_insert _ _ _ _ update_ticket_excluded _ _ _ _ Ht) as [Hin _].
  split.
  - intros Hk.
    destruct (upsert_keys _ _ _ _ _ _ _ _ Ht k (mk_is_Some _ _ Hk)) as [Hold|Hsrc].
    { change (tickets (set_passengers ps (cleared db))) with (∅ : gmap Z Ticket.t) in Hold.
      rewrite lookup_empty in Hold. by destruct Hold. }
    destruct Hsrc as (r & Hr & Hkr). exists r. split; [done|]. split; [done|].
    destruct (Hin r Hr) as (k' & Hk' & _ & _ & Hlook).
    assert (k' = k) as -> by congruence. congruence.
  - intros (r & Hr & Hkr & ->).
    destruct (Hin r Hr) as (k' & Hk' & _ & _ & Hlook).
    assert (k' = k) as -> by congruence. done.
Qed.

(** X1: in a promotion that commits, every staging Ticket row has a key and
    the final Ticket row under that key carries the row's passenger_id,
    ticket (as ticket_number), class and cabin unchanged, null or not, and
    whether or not its passenger_id is a key of the final Passenger table
    (the statement itself checks no reference). *)
Theorem promoted_ticket_fields sch db (r : StagingTicket.t) :
  result (transform_and_load sch db) = Ok tt →
  r ∈ table_rows (staging_tickets db) →
  ∃ k t,
    StagingTicket.ticket_id r = Some k
    ∧ tickets (final (transform_and_load sch db)) !! k = Some t
    ∧ Ticket.passenger_id t = StagingTicket.passenger_id r
    ∧ Ticket.ticket_number t = StagingTicket.ticket r
    ∧ Ticket.class t = StagingTicket.class r
    ∧ Ticket.cabin t = StagingTicket.cabin r.
Proof.
  intros Hok Hr.
  destruct (promotion_succeeded _ _ Hok) as (ps & ts & Hp & Ht).
  pose proof (upsert_insert _ _ _ _ update_ticket_excluded _ _ _ _ Ht) as [Hin _].
  destruct (Hin r Hr) as (k & Hk & _ & _ & Hlook).
  exists k, (select_ticket r). split; [done|]. split; [|done].
  apply promoted_ticket_origin; [done|]. by exists r.
Qed.

Lemma promoted_ticket_fields_witness :
  result (transform_and_load Titanic.schema orphan_db) = Ok tt
  ∧ orphan_ticket ∈ table_rows (staging_tickets orphan_db)
  ∧ passengers (final (transform_and_load Titanic.schema orphan_db)) !! 99%Z = None
  ∧ ∃ k t,
      StagingTicket.ticket_id orphan_ticket = Some k
      ∧ tickets (final (transform_and_load Titanic.schema orphan_db)) !! k = Some t
      ∧ Ticket.passenger_id t = StagingTicket.passenger_id orphan_ticket
      ∧ Ticket.ticket_number t = StagingTicket.ticket orphan_ticket
      ∧ Ticket.class t = StagingTicket.class orphan_ticket
      ∧ Ticket.cabin t = StagingTicket.cabin orphan_ticket.
Proof.
  assert (Hok : result (transform_and_load Titanic.schema orphan_db) = Ok tt)
    by (vm_compute; reflexivity).
  assert (Hin : orphan_ticket ∈ table_rows (staging_tickets orphan_db))
    by (cbn; left).
  split; [exact Hok|]. split; [exact Hin|]. split; [by vm_compute|].
  exact (promoted_ticket_fields Titanic.schema orphan_db orphan_ticket Hok Hin).
Defined.

(** X2: after a promotion that commits, the final tables are exactly the
    images of the staging tables: a row is stored under a key if and only
    if it is the transformed row of a staged row with that key (the SELECT
    list of the query, its [LOWER] taken under the locale of the
    database).  No row from before the promotion is left and none is made
    up. *)
Theorem final_tables_are_staging_images sch db :
  result (transform_and_load sch db) = Ok tt →
  (∀ k p,
     passengers (final (transform_and_load sch db)) !! k = Some p
     ↔ ∃ r, r ∈ table_rows (staging_passengers db)
            ∧ StagingPassenger.passenger_id r = Some k
            ∧ p = select_passenger sch r)
  ∧ (∀ k t,
       tickets (final (transform_and_load sch db)) !! k = Some t
       ↔ ∃ r, r ∈ table_rows (staging_tickets db)
              ∧ StagingTicket.ticket_id r = Some k
              ∧ t = select_ticket r).
Proof.
  intros Hok. split; intros k x.
  - by apply promoted_passenger_origin.
  - by apply promoted_ticket_origin.
Qed.

Lemma final_tables_are_staging_images_witness :
  result (transform_and_load Titanic.schema stale_db) = Ok tt
  ∧ passengers stale_db !! 9%Z = Some old_passenger
  ∧ passengers (final (transform_and_load Titanic.schema stale_db)) !! 9%Z = None
  ∧ (∀ k p,
       passengers (final (transform_and_load Titanic.schema stale_db)) !! k = Some p
       ↔ ∃ r, r ∈ table_rows (staging_passengers stale_db)
              ∧ StagingPassenger.passenger_id r = Some k
              ∧ p = select_passenger Titanic.schema r).
Proof.
  assert (Hok : result (transform_and_load Titanic.schema stale_db) = Ok tt)
    by (vm_compute; reflexivity).
  split; [exact Hok|]. split; [by vm_compute|]. split; [by vm_compute|].
  exact (proj1 (final_tables_are_staging_images Titanic.schema stale_db Hok)).
Defined.

(** X3: a promotion commits only if every staged passenger and every staged
    ticket has a key and no key occurs twice in its staging table. *)
Theorem promotion_needs_distinct_keys sch db :
  result (transform_and_load sch db) = Ok tt →
  Forall (fun r => is_Some (StagingPassenger.passenger_id r))
    (table_rows (staging_passengers db))
  ∧ NoDup (StagingPassenger.passenger_id <$> table_rows (staging_passengers db))
  ∧ Forall (fun r => is_Some (StagingTicket.ticket_id r))
      (table_rows (staging_tickets db))
  ∧ NoDup (StagingTicket.ticket_id <$> table_rows (staging_tickets db)).
Proof.
  intros (ps & ts & Hp & Ht)%promotion_succeeded.
  pose proof (upsert_insert _ _ _ _ update_passenger_excluded _ _ _ _ Hp) as [Hinp _].
  pose proof (upsert_insert _ _ _ _ update_ticket_excluded _ _ _ _ Ht) as [Hint _].
  split; [|split; [|split]].
  - apply Forall_forall. intros r Hr.
    destruct (Hinp r Hr) as (k & Hk & _). by exists k.
  - exact (upsert_keys_distinct _ _ _ _ update_passenger_excluded _ _ _ _ Hp).
  - apply Forall_forall. intros r Hr.
    destruct (Hint r Hr) as (k & Hk & _). by exists k.
  - exact (upsert_keys_distinct _ _ _ _ update_ticket_excluded _ _ _ _ Ht).
Qed.

Lemma promotion_needs_distinct_keys_witness :
  result (transform_and_load Titanic.schema staged_db) = Ok tt
  ∧ NoDup (StagingPassenger.passenger_id <$> table_rows (staging_passengers staged_db))
  ∧ NoDup (StagingTicket.ticket_id <$> table_rows (staging_tickets staged_db)).
Proof.
  assert (Hok : result (transform_and_load Titanic.schema staged_db) = Ok tt)
    by (vm_compute; reflexivity).
  split; [exact Hok|].
  destruct (promotion_needs_distinct_keys Titanic.schema staged_db Hok)
    as (_ & Hp & _ & Ht).
  exact (conj Hp Ht).
Defined.

(** X4: conversely a promotion commits when every staged row has a key that
    occurs once in its staging table and satisfies the constraints of its
    final table. *)
Theorem promotion_succeeds_on_good_keys sch db :
  Forall (fun r => ∃ k, StagingPassenger.passenger_id r = Some k
                      ∧ passenger_ok sch k (select_passenger sch r) = true)
    (table_rows (staging_passengers db)) →
  NoDup (StagingPassenger.passenger_id <$> table_rows (staging_passengers db)) →
  (∀ ps, upsert_passengers sch (cleared db) = inr ps →
         Forall (fun r => ∃ k, StagingTicket.ticket_id r = Some k
                             ∧ ticket_ok sch ps k (select_ticket r) = true)
           (table_rows (staging_tickets db))) →
  NoDup (StagingTicket.ticket_id <$> table_rows (staging_tickets db)) →
  result (transform_and_load sch db) = Ok tt
  ∧ last (trace (transform_and_load sch db)) = Some (EvInfo TransformationComplete).
Proof.
  intros Hp Hpn Ht Htn.
  destruct (upsert_succeeds StagingPassenger.passenger_id (select_passenger sch)
              (passenger_ok sch) update_passenger
              (table_rows (staging_passengers db)) ∅ ∅) as [ps Hps]; [|done|].
  { eapply Forall_impl; [exact Hp|]. intros r (k & Hk & Hc).
    exists k. split; [done|]. split; [|done]. apply not_elem_of_empty. }
  destruct (upsert_succeeds StagingTicket.ticket_id select_ticket
              (ticket_ok sch ps) update_ticket
              (table_rows (staging_tickets db)) ∅ ∅) as [ts Hts]; [|done|].
  { eapply Forall_impl; [exact (Ht ps Hps)|]. intros r (k & Hk & Hc).
    exists k. split; [done|]. split; [|done]. apply not_elem_of_empty. }
  by rewrite (promoted_tables sch db ps ts Hps Hts).
Qed.

Lemma promotion_succeeds_on_good_keys_witness :
  result (transform_and_load Titanic.schema staged_db) = Ok tt
  ∧ last (trace (transform_and_load Titanic.schema staged_db))
    = Some (EvInfo TransformationComplete).
Proof.
  apply (promotion_succeeds_on_good_keys Titanic.schema staged_db).
  - repeat constructor; eexists; (split; [reflexivity|reflexivity]).
  - cbn. apply NoDup_cons. split; [|apply NoDup_singleton].
    intros H. apply list_elem_of_singleton in H. discriminate H.
  - intros ps _. repeat constructor; eexists; (split; [reflexivity|reflexivity]).
  - cbn. apply NoDup_cons. split; [|apply NoDup_singleton].
    intros H. apply list_elem_of_singleton in H. discriminate H.
Defined.

(** X5: a promotion that commits leaves one final Passenger row per staged
    passenger and one final Ticket row per staged ticket. *)
Theorem promotion_row_counts sch db :
  result (transform_and_load sch db) = Ok tt →
  size (passengers (final (transform_and_load sch db)))
  = length (table_rows (staging_passengers db))
  ∧ size (tickets (final (transform_and_load sch db)))
    = length (table_rows (staging_tickets db)).
Proof.
  intros (ps & ts & Hp & Ht)%promotion_succeeded.
  rewrite (promoted_tables _ _ _ _ Hp Ht), run_final.
  assert (Hsp : size ps = size (∅ : gmap Z Passenger.t)
                          + length (table_rows (staging_passengers db))).
  { by apply (upsert_size StagingPassenger.passenger_id (select_passenger sch)
                (passenger_ok sch) update_passenger _ ∅ ∅ ps). }
  assert (Hst : size ts = size (∅ : gmap Z Ticket.t)
                          + length (table_rows (staging_tickets db))).
  { by apply (upsert_size StagingTicket.ticket_id select_ticket
                (ticket_ok sch ps) update_ticket _ ∅ ∅ ts). }
  rewrite map_size_empty in Hsp. rewrite map_size_empty in Hst.
  split.
  - change (passengers (set_tickets ts (set_passengers ps (cleared db)))) with ps.
    exact Hsp.
  - change (tickets (set_tickets ts (set_passengers ps (cleared db)))) with ts.
    exact Hst.
Qed.

Lemma promotion_row_counts_witness :
  result (transform_and_load Titanic.schema stale_db) = Ok tt
  ∧ size (passengers (final (transform_and_load Titanic.schema stale_db))) = 2
  ∧ size (tickets (final (transform_and_load Titanic.schema stale_db))) = 2.
Proof.
  assert (Hok : result (transform_and_load Titanic.schema stale_db) = Ok tt)
    by (vm_compute; reflexivity).
  split; [exact Hok|].
  exact (promotion_row_counts Titanic.schema stale_db Hok).
Defined.

Lemma lower_ascii_not_upper c : is_upper_ascii (Sql.lower_ascii c) = false.
Proof. destruct c as [[] [] [] [] [] [] [] []]; reflexivity. Qed.

Lemma lower_bytes_no_upper s :
  Sql.all_chars (fun c => negb (is_upper_ascii c)) (Sql.lower_bytes s) = true.
Proof.
  induction s as [|c s IH]; [done|].
  cbn [Sql.lower_bytes Sql.all_chars]. by rewrite lower_ascii_not_upper, IH.
Qed.

Lemma lower_no_upper lc s :
  Sql.all_chars (fun c => negb (is_upper_ascii c)) (Sql.lower lc s) = true.
Proof. apply lower_bytes_no_upper. Qed.

(** X6: after a promotion that commits, no name stored in the final
    Passenger table starts or ends with a space and no stored sex contains
    an upper-case ASCII letter. *)
Theorem final_passengers_normalized sch db k p :
  result (transform_and_load sch db) = Ok tt →
  passengers (final (transform_and_load sch db)) !! k = Some p →
  (∀ n, Passenger.name p = Some n →
        Sql.starts_with Sql.is_space n = false
        ∧ Sql.ends_with Sql.is_space n = false)
  ∧ (∀ s, Passenger.sex p = Some s →
          Sql.all_chars (fun c => negb (is_upper_ascii c)) s = true).
Proof.
  intros Hok Hk.
  apply (promoted_passenger_origin sch db k p Hok) in Hk as (r & _ & _ & ->).
  split.
  - intros n. cbn [select_passenger Passenger.name].
    destruct (StagingPassenger.name r) as [n0|]; [|done].
    intros [= <-].
    by destruct (trim_decompose n0) as (_ & _ & _ & _ & _ & ? & ?).
  - intros s. cbn [select_passenger Passenger.sex].
    destruct (StagingPassenger.sex r) as [s0|]; [|done].
    intros [= <-]. apply lower_no_upper.
Qed.

Lemma final_passengers_normalized_witness :
  result (transform_and_load Titanic.schema staged_db) = Ok tt
  ∧ passengers (final (transform_and_load Titanic.schema staged_db)) !! 1%Z
    = Some (Passenger.mk (Some "Alice") (Some "female") (30 # 1) 2 "C")
  ∧ Sql.starts_with Sql.is_space "Alice" = false
  ∧ Sql.ends_with Sql.is_space "Alice" = false
  ∧ Sql.all_chars (fun c => negb (is_upper_ascii c)) "female" = true.
Proof.
  assert (Hok : result (transform_and_load Titanic.schema staged_db) = Ok tt)
    by (vm_compute; reflexivity).
  assert (Hk : passengers (final (transform_and_load Titanic.schema staged_db)) !! 1%Z
               = Some (Passenger.mk (Some "Alice") (Some "female") (30 # 1) 2 "C"))
    by (vm_compute; reflexivity).
  split; [exact Hok|]. split; [exact Hk|].
  destruct (final_passengers_normalized Titanic.schema staged_db _ _ Hok Hk)
    as [Hname Hsex].
  destruct (Hname "Alice" eq_refl) as [Hs He].
  exact (conj Hs (conj He (Hsex "female" eq_refl))).
Defined.

(** X7: when no staged passenger has a negative sibsp or parch, every row
    of the final Passenger table after a committed promotion has a
    family_size of at least 1. *)
Theorem family_size_at_least_one sch db :
  result (transform_and_load sch db) = Ok tt →
  Forall (fun r => (0 ≤ default 0 (StagingPassenger.sibsp r))%Z
                   ∧ (0 ≤ default 0 (StagingPassenger.parch r))%Z)
    (table_rows (staging_passengers db)) →
  ∀ k p, passengers (final (transform_and_load sch db)) !! k = Some p →
         (1 ≤ Passenger.family_size p)%Z.
Proof.
  intros Hok Hall k p Hk.
  apply (promoted_passenger_origin sch db k p Hok) in Hk as (r & Hr & _ & ->).
  rewrite Forall_forall in Hall. destruct (Hall r Hr) as [Hs Hp].
  cbn [select_passenger Passenger.family_size].
  destruct (StagingPassenger.sibsp r), (StagingPassenger.parch r);
    cbn [Sql.coalesce default from_option id] in *; lia.
Qed.

Lemma family_size_at_least_one_witness :
  result (transform_and_load Titanic.schema staged_db) = Ok tt
  ∧ ∀ k p, passengers (final (transform_and_load Titanic.schema staged_db)) !! k
           = Some p →
           (1 ≤ Passenger.family_size p)%Z.
Proof.
  assert (Hok : result (transform_and_load Titanic.schema staged_db) = Ok tt)
    by (vm_compute; reflexivity).
  split; [exact Hok|].
  apply (family_size_at_least_one Titanic.schema staged_db Hok).
  repeat constructor; by vm_compute.
Defined.

(** * The report *)

(** X8: when the query on the view returns rows without a null field, the
    report logs the two header lines and then one line per row, in the
    order of the result, returns, and leaves the database as it was; an
    empty result gives the two header lines alone. *)
Theorem report_lists_every_row w db rows :
  analytics_summary w db = Some rows →
  forallb complete_row rows = true →
  show_analytics w db = mkRun (Ok tt) db (report_of rows)
  ∧ length (trace (show_analytics w db)) = 3 + length rows.
Proof.
  intros Hq Hrows.
  rewrite (show_analytics_rows w db rows Hq), (for_each_complete rows db Hrows).
  split; [reflexivity|].
  unfold prepend. rewrite !run_trace. cbn [app length]. by rewrite length_fmap.
Qed.

Lemma report_lists_every_row_witness :
  let w := mkWorld (fun _ => true) (fun _ => None) true (fun _ => Some report_rows) in
  analytics_summary w Titanic.empty_db = Some report_rows
  ∧ forallb complete_row report_rows = true
  ∧ show_analytics w Titanic.empty_db
    = mkRun (Ok tt) Titanic.empty_db (report_of report_rows).
Proof.
  cbv zeta. split; [reflexivity|]. split; [reflexivity|].
  exact (proj1 (report_lists_every_row
                  (mkWorld (fun _ => true) (fun _ => None) true
                     (fun _ => Some report_rows))
                  Titanic.empty_db report_rows eq_refl eq_refl)).
Defined.

(** X9: the report stops at the first row that has a null field: the rows
    before it are logged, the format specification raises [TypeError], the
    rows after it are not logged, and the database is as it was. *)
Theorem report_stops_at_null_field w db pre r post :
  analytics_summary w db = Some (pre ++ r :: post) →
  forallb complete_row pre = true →
  complete_row r = false →
  show_analytics w db = mkRun (Raise TypeError) db (report_of pre)
  ∧ exit_status (result (show_analytics w db)) = 1%Z.
Proof.
  intros Hq Hpre Hr.
  rewrite (show_analytics_rows w db _ Hq), (for_each_incomplete pre r post db Hpre Hr).
  by split.
Qed.

Lemma report_stops_at_null_field_witness :
  let w := mkWorld (fun _ => true) (fun _ => None) true
             (fun _ => Some (report_rows ++ null_sex_row :: report_rows)) in
  show_analytics w Titanic.empty_db
  = mkRun (Raise TypeError) Titanic.empty_db (report_of report_rows).
Proof.
  cbv zeta.
  exact (proj1 (report_stops_at_null_field
                  (mkWorld (fun _ => true) (fun _ => None) true
                     (fun _ => Some (report_rows ++ null_sex_row :: report_rows)))
                  Titanic.empty_db report_rows null_sex_row report_rows
                  eq_refl eq_refl eq_refl)).
Defined.

(** * The staging load and the whole run *)

Lemma truncate_restart_append {R} (new : list R) (t : StagingTable R) :
  truncate_restart (append_rows new t) = truncate_restart t.
Proof. destruct t as [rows [n|]]; reflexivity. Qed.

Lemma truncate_restart_idem {R} (t : StagingTable R) :
  truncate_restart (truncate_restart t) = truncate_restart t.
Proof. destruct t as [rows [n|]]; reflexivity. Qed.

Lemma staged_staged ps ts db : staged ps ts (staged ps ts db) = staged ps ts db.
Proof.
  unfold staged. cbn [staging_passengers staging_tickets passengers tickets].
  by rewrite !truncate_restart_append, !truncate_restart_idem.
Qed.

Lemma load_to_staging_staged sch passengers_df tickets_df db ps ts :
  mapM (stage_passenger sch) (Pandas.rows passengers_df) = Some ps →
  mapM (stage_ticket sch) (Pandas.rows tickets_df) = Some ts →
  load_to_staging sch passengers_df tickets_df db
  = mkRun (Ok tt) (staged ps ts db) (staged_events passengers_df tickets_df).
Proof. intros Hp Ht. by rewrite load_to_staging_run, Hp, Ht. Qed.

Lemma load_to_staging_refused sch passengers_df tickets_df db :
  mapM (stage_passenger sch) (Pandas.rows passengers_df) = None
  ∨ mapM (stage_ticket sch) (Pandas.rows tickets_df) = None →
  ∃ tr, load_to_staging sch passengers_df tickets_df db
        = mkRun (Raise (SQLError SchemaViolation)) db tr
        ∧ (tr = staging_prefix passengers_df ++ [EvRollback]
           ∨ tr = staging_prefix passengers_df
                  ++ append_events AppendStagingTickets tickets_df
                  ++ [EvRollback]).
Proof.
  intros H. rewrite load_to_staging_run.
  destruct (mapM (stage_passenger sch) _) as [ps|]; [|by eauto].
  destruct H as [H|H]; [done|]. rewrite H. by eauto.
Qed.

(** X10: loading the same two batches a second time, from the database the
    first load left, ends the same way and leaves the same database: the
    load replaces the staging tables, it does not append to what an earlier
    run staged. *)
Theorem staging_load_idempotent sch passengers_df tickets_df db :
  let once := load_to_staging sch passengers_df tickets_df db in
  let twice := load_to_staging sch passengers_df tickets_df (final once) in
  twice = once
  ∧ (result once = Ok tt →
     length (table_rows (staging_passengers (final twice)))
     = Pandas.index_len passengers_df).
Proof.
  cbv zeta.
  destruct (mapM (stage_passenger sch) (Pandas.rows passengers_df)) as [ps|] eqn:Hp.
  2: { destruct (load_to_staging_refused sch passengers_df tickets_df db)
         as (tr & Hrun & _); [by left|].
       rewrite Hrun, run_final, Hrun, run_result. by split. }
  destruct (mapM (stage_ticket sch) (Pandas.rows tickets_df)) as [ts|] eqn:Ht.
  2: { destruct (load_to_staging_refused sch passengers_df tickets_df db)
         as (tr & Hrun & _); [by right|].
       rewrite Hrun, run_final, Hrun, run_result. by split. }
  rewrite (load_to_staging_staged _ _ _ db ps ts Hp Ht), run_final.
  rewrite (load_to_staging_staged _ _ _ (staged ps ts db) ps ts Hp Ht).
  rewrite staged_staged, run_final. split; [done|]. intros _.
  apply length_mapM in Hp. rewrite rows_length in Hp.
  unfold staged. cbn [staging_passengers append_rows truncate_restart table_rows app].
  by rewrite <- Hp.
Qed.

(** A promotion that commits is a function of the staging tables. *)
Lemma transform_same_staging sch db db' :
  staging_passengers db' = staging_passengers db →
  staging_tickets db' = staging_tickets db →
  result (transform_and_load sch db) = Ok tt →
  transform_and_load sch db' = transform_and_load sch db.
Proof.
  intros Hsp Hst (ps & ts & Hp & Ht)%promotion_succeeded.
  assert (Hc : cleared db' = cleared db).
  { unfold cleared, set_passengers, set_tickets.
    cbn [staging_passengers staging_tickets passengers tickets].
    by rewrite Hsp, Hst. }
  rewrite (promoted_tables _ _ _ _ Hp Ht).
  rewrite <- Hc in Hp, Ht. by rewrite (promoted_tables _ _ _ _ Hp Ht), Hc.
Qed.

(** The three ways the last four statements of [main] can end. *)
Lemma pipeline_outcomes sch w passengers_df tickets_df db :
  (∃ tr, pipeline sch w passengers_df tickets_df db
         = mkRun (Raise (SQLError SchemaViolation)) db tr
         ∧ load_to_staging sch passengers_df tickets_df db
           = mkRun (Raise (SQLError SchemaViolation)) db tr
         ∧ (tr = staging_prefix passengers_df ++ [EvRollback]
            ∨ tr = staging_prefix passengers_df
                   ++ append_events AppendStagingTickets tickets_df
                   ++ [EvRollback]))
  ∨ (∃ ps ts,
       mapM (stage_passenger sch) (Pandas.rows passengers_df) = Some ps
       ∧ mapM (stage_ticket sch) (Pandas.rows tickets_df) = Some ts
       ∧ ((∃ st tr,
             result (transform_and_load sch (staged ps ts db)) = Raise (SQLError st)
             ∧ trace (transform_and_load sch (staged ps ts db)) = tr
             ∧ (tr = promotion_prefix ++ [EvRollback]
                ∨ tr = promotion_prefix ++ [EvSql InsertTickets; EvRollback])
             ∧ pipeline sch w passengers_df tickets_df db
               = mkRun (Raise (SQLError st)) (staged ps ts db) (staged_events passengers_df tickets_df ++ tr))
          ∨ (∃ dbT tr,
               transform_and_load sch (staged ps ts db)
               = mkRun (Ok tt) dbT promoted_events
               ∧ Forall (fun ev => report_event ev = true) tr
               ∧ trace (show_analytics w dbT) = tr
               ∧ ((result (show_analytics w dbT) = Ok tt
                   ∧ pipeline sch w passengers_df tickets_df db
                     = mkRun (Ok tt) dbT
                         (staged_events passengers_df tickets_df ++ promoted_events ++ tr ++ [EvInfo Completed]))
                  ∨ ((result (show_analytics w dbT) = Raise TypeError
                      ∨ result (show_analytics w dbT) = Raise (SQLError SchemaViolation))
                     ∧ pipeline sch w passengers_df tickets_df db
                       = mkRun (result (show_analytics w dbT)) dbT
                           (staged_events passengers_df tickets_df ++ promoted_events ++ tr)))))).
Proof.
  rewrite pipeline_run. cbv zeta.
  destruct (mapM (stage_passenger sch) (Pandas.rows passengers_df)) as [ps|] eqn:Hp.
  2: { left.
       destruct (load_to_staging_refused sch passengers_df tickets_df db)
         as (tr & Hrun & Htr); [by left|].
       exists tr. rewrite Hrun. run_proj. by repeat split. }
  destruct (mapM (stage_ticket sch) (Pandas.rows tickets_df)) as [ts|] eqn:Ht.
  2: { left.
       destruct (load_to_staging_refused sch passengers_df tickets_df db)
         as (tr & Hrun & Htr); [by right|].
       exists tr. rewrite Hrun. run_proj. by repeat split. }
  right. exists ps, ts. split; [done|]. split; [done|].
  rewrite (load_to_staging_staged _ _ _ db ps ts Hp Ht). run_proj.
  destruct (transform_and_load_cases sch (staged ps ts db))
    as [(Hr & _ & _ & Htr) | ([st Hr] & Hf & Htr)].
  - right.
    destruct (transform_and_load sch (staged ps ts db)) as [res dbT trT] eqn:HT.
    rewrite run_result in Hr. rewrite run_trace in Htr. subst res trT.
    exists dbT, (trace (show_analytics w dbT)).
    split; [done|]. run_proj.
    destruct (show_analytics_run w dbT) as (Hfa & Ha & Hres).
    split; [done|]. split; [done|].
    destruct (show_analytics w dbT) as [resA dbA trA].
    rewrite run_final in Hfa. rewrite run_result in Hres. rewrite !run_result.
    rewrite !run_trace. rewrite !run_final. subst dbA.
    destruct Hres as [-> | [-> | ->]]; [left|right|right]; (split; [auto|done]).
  - left. exists st, (trace (transform_and_load sch (staged ps ts db))).
    split; [done|]. split; [done|]. split; [done|].
    rewrite Hr, Hf. reflexivity.
Qed.

Lemma prepend_final {A} t (r : Run A) : final (prepend t r) = final r.
Proof. reflexivity. Qed.

Lemma prepend_result {A} t (r : Run A) : result (prepend t r) = result r.
Proof. reflexivity. Qed.

Lemma prepend_trace {A} t (r : Run A) : trace (prepend t r) = t ++ trace r.
Proof. reflexivity. Qed.

Lemma create_tickets_df_db df db db' :
  create_tickets_df df db' = mkRun (result (create_tickets_df df db)) db' [].
Proof.
  unfold create_tickets_df.
  destruct (Pandas.getitem df "passenger_id") as [[ids|cs]|]; [|done|done].
  by destruct (decide _).
Qed.

Lemma create_tickets_df_index_len df db tickets_df :
  result (create_tickets_df df db) = Ok tickets_df →
  Pandas.index_len tickets_df = Pandas.index_len df.
Proof.
  unfold create_tickets_df.
  destruct (Pandas.getitem df "passenger_id") as [[ids|cs]|]; [|done|done].
  destruct (decide _) as [Hlen|]; [|done]. intros [= <-].
  cbn [Pandas.index_len]. rewrite <- Hlen.
  by rewrite length_fmap, ticket_numbers_length.
Qed.

Lemma prepared_prelude p raw x :
  Forall (fun ev => prelude_event ev = true) (prepared p raw x).
Proof. unfold prepared, connected. cbn [app]. by repeat constructor. Qed.

(** A run of [main] ends before the staging stage, with the database
    untouched, or is the prelude followed by the last four statements. *)
Lemma main_outcomes sch w p t db :
  (final (main sch w p t db) = db
   ∧ Forall (fun ev => prelude_event ev = true) (trace (main sch w p t db))
   ∧ (result (main sch w p t db) = Raise (SystemExit 1)
      ∨ result (main sch w p t db) = Raise (NameError "load_and_prepare_tickets")
      ∨ result (main sch w p t db) = Raise (KeyError "passenger_id")
      ∨ result (main sch w p t db) = Raise ValueError))
  ∨ (∃ raw x tickets_df,
       path_exists w p = true ∧ db_reachable w = true
       ∧ read_csv w p = Some raw
       ∧ Pandas.getitem (prepare raw) "age" = Some x
       ∧ truthy t = false
       ∧ (∀ db', create_tickets_df (prepare raw) db' = mkRun (Ok tickets_df) db' [])
       ∧ (∀ db', main sch w p t db'
                 = prepend (prepared p raw x)
                     (pipeline sch w (prepare raw) tickets_df db'))).
Proof.
  destruct (path_exists w p) eqn:Hp.
  2: { left. rewrite main_run, Hp. run_proj.
       split; [done|]. split; [by repeat constructor|by left]. }
  destruct (db_reachable w) eqn:Hdb.
  2: { left. rewrite main_run, Hp, Hdb. run_proj.
       split; [done|]. split; [by repeat constructor|by left]. }
  destruct (read_csv w p) as [raw|] eqn:Hcsv.
  2: { left. rewrite main_run, Hp, Hdb, Hcsv. run_proj.
       split; [done|]. split; [by repeat constructor|by left]. }
  destruct (Pandas.getitem (prepare raw) "age") as [x|] eqn:Hage.
  2: { left. rewrite main_run, Hp, Hdb, Hcsv, Hage. run_proj.
       split; [done|]. split; [by repeat constructor|by left]. }
  destruct (truthy t) eqn:Ht.
  { left. rewrite main_run, Hp, Hdb, Hcsv, Hage, Ht.
    destruct (path_exists w (default "" t)); run_proj;
      (split; [done|]; split;
       [apply Forall_app; split; [apply prepared_prelude|by repeat constructor]|]);
      [right; by left|by left]. }
  destruct (create_tickets_df_result (prepare raw) db) as [[tdf Hc] | Hc].
  - right. exists raw, x, tdf. repeat split; try done.
    + intros db'. by rewrite (create_tickets_df_db _ db db'), Hc.
    + intros db'. rewrite main_run, Hp, Hdb, Hcsv, Hage, Ht.
      rewrite (create_tickets_df_db _ db db'), run_result, Hc. reflexivity.
  - left. rewrite main_run, Hp, Hdb, Hcsv, Hage, Ht.
    destruct Hc as [Hc|Hc]; rewrite Hc; run_proj;
      (split; [done|]; split; [apply prepared_prelude|]); auto.
Qed.

Lemma pipeline_idempotent sch w passengers_df tickets_df db :
  pipeline sch w passengers_df tickets_df
    (final (pipeline sch w passengers_df tickets_df db))
  = pipeline sch w passengers_df tickets_df db.
Proof.
  destruct (pipeline_outcomes sch w passengers_df tickets_df db)
    as [(tr & Hrun & _) | (ps & ts & Hp & Ht & H)].
  { by rewrite Hrun, run_final, Hrun. }
  pose proof (load_to_staging_staged sch _ _ (staged ps ts db) ps ts Hp Ht) as Hs2.
  rewrite staged_staged in Hs2.
  destruct H as [(st & tr & Hr & Htr & _ & Hrun) | (dbT & tr & HT & _ & Htr & H)].
  - rewrite Hrun, run_final.
    destruct (promotion_failed _ _ _ Hr) as (Hf & _).
    rewrite pipeline_run. cbv zeta. rewrite Hs2. run_proj.
    rewrite Hr. run_proj. by rewrite Hf, Htr.
  - assert (Hfin : final (pipeline sch w passengers_df tickets_df db) = dbT).
    { destruct H as [[_ ->] | [_ ->]]; by rewrite run_final. }
    rewrite Hfin.
    destruct (transform_and_load_cases sch (staged ps ts db))
      as [(Hr & Hsp & Hst & _) | ([st Hr] & _)];
      [|by rewrite HT, run_result in Hr].
    rewrite HT, run_final in Hsp, Hst.
    pose proof (load_to_staging_staged sch _ _ dbT ps ts Hp Ht) as Hs3.
    assert (HT3 : transform_and_load sch (staged ps ts dbT)
                  = mkRun (Ok tt) dbT promoted_events).
    { rewrite <- HT. apply transform_same_staging; [| |done].
      - unfold staged at 1. cbn [staging_passengers]. rewrite Hsp.
        unfold staged. cbn [staging_passengers].
        by rewrite truncate_restart_append, truncate_restart_idem.
      - unfold staged at 1. cbn [staging_tickets]. rewrite Hst.
        unfold staged. cbn [staging_tickets].
        by rewrite truncate_restart_append, truncate_restart_idem. }
    rewrite (pipeline_run sch w passengers_df tickets_df dbT). cbv zeta.
    rewrite Hs3. run_proj. rewrite HT3. run_proj.
    destruct (show_analytics_run w dbT) as (Hfa & _).
    destruct H as [[Hra ->] | [Hra ->]].
    + rewrite Hra. run_proj. by rewrite Htr, Hfa.
    + destruct Hra as [Hra|Hra]; rewrite Hra; run_proj; by rewrite Htr, Hfa.
Qed.

(** X11: running [main] again with the same files, from the database the
    first run left, is the same run: the same events, the same result and
    the same database.  Staging and promotion replace what an earlier run
    wrote, whether that run completed or failed at any stage. *)
Theorem main_idempotent sch w p t db :
  main sch w p t (final (main sch w p t db)) = main sch w p t db.
Proof.
  destruct (main_outcomes sch w p t db)
    as [(Hf & _) | (raw & x & tdf & _ & _ & _ & _ & _ & _ & Hmain)].
  { by rewrite Hf. }
  rewrite (Hmain db), prepend_final.
  by rewrite Hmain, pipeline_idempotent.
Qed.

Ltac not_prelude H Hq :=
  rewrite Forall_forall in Hq; specialize (Hq _ H); discriminate Hq.

Lemma promoted_events_elem ev :
  ev ∈ promoted_events →
  ev = EvBegin ∨ ev = EvSql DeleteTickets ∨ ev = EvSql DeletePassengers
  ∨ ev = EvSql InsertPassengers ∨ ev = EvSql InsertTickets ∨ ev = EvCommit
  ∨ ev = EvInfo TransformationComplete.
Proof.
  unfold promoted_events, promotion_prefix. cbn [app]. intros H.
  repeat (apply elem_of_cons in H as [->|H]; [by auto 10|]).
  by apply elem_of_nil in H.
Qed.

(** What the events of a run of the last four statements say about the
    database it leaves. *)
Lemma pipeline_effects sch w passengers_df tickets_df db :
  let r := pipeline sch w passengers_df tickets_df db in
  ((EvInfo StagingLoaded ∉ trace r) → final r = db)
  ∧ (EvInfo StagingLoaded ∈ trace r →
     ∃ ps ts,
       mapM (stage_passenger sch) (Pandas.rows passengers_df) = Some ps
       ∧ mapM (stage_ticket sch) (Pandas.rows tickets_df) = Some ts
       ∧ table_rows (staging_passengers (final r)) = ps
       ∧ table_rows (staging_tickets (final r)) = ts)
  ∧ ((EvInfo TransformationComplete ∉ trace r) →
     passengers (final r) = passengers db ∧ tickets (final r) = tickets db)
  ∧ (EvInfo TransformationComplete ∈ trace r →
     (EvRollback ∉ trace r)
     ∧ size (passengers (final r)) = Pandas.index_len passengers_df
     ∧ size (tickets (final r)) = Pandas.index_len tickets_df)
  ∧ (result r = Raise TypeError → EvInfo TransformationComplete ∈ trace r).
Proof.
  cbv zeta.
  destruct (pipeline_outcomes sch w passengers_df tickets_df db)
    as [(tr & Hrun & _ & Htr) | (ps & ts & Hp & Ht & H)].
  { rewrite Hrun. run_proj.
    assert (Hno : ∀ ev, ev = EvInfo StagingLoaded ∨ ev = EvInfo TransformationComplete →
                        ev ∉ tr).
    { intros ev Hev Hin.
      apply (staging_rollback_elem _ _ _ _ Htr) in Hin.
      destruct Hev as [-> | ->]; by repeat destruct Hin as [Hin|Hin]. }
    split; [done|]. split; [intros H; by destruct (Hno _ (or_introl eq_refl))|].
    split; [done|]. split; [intros H; by destruct (Hno _ (or_intror eq_refl))|done]. }
  assert (Hlp : length ps = Pandas.index_len passengers_df).
  { apply length_mapM in Hp. by rewrite rows_length in Hp. }
  assert (Hlt : length ts = Pandas.index_len tickets_df).
  { apply length_mapM in Ht. by rewrite rows_length in Ht. }
  assert (Hin : EvInfo StagingLoaded ∈ staged_events passengers_df tickets_df).
  { unfold staged_events. do 2 (apply elem_of_app; right).
    apply list_elem_of_further, list_elem_of_here. }
  destruct H as [(st & tr & Hr & _ & Htr & Hrun) | (dbT & tr & HT & Hq & _ & H)].
  - rewrite Hrun. run_proj.
    assert (Hno : EvInfo TransformationComplete ∉ staged_events passengers_df tickets_df ++ tr).
    { intros [H|H]%elem_of_app.
      - apply staged_events_elem in H. by repeat destruct H as [H|H].
      - destruct Htr as [-> | ->]; unfold promotion_prefix in H; not_in_list H. }
    split; [intros H; destruct H; apply elem_of_app; by left|].
    split; [intros _; by exists ps, ts|].
    split; [done|]. split; [done|done].
  - assert (Hrun : ∃ res, pipeline sch w passengers_df tickets_df db
                          = mkRun res dbT
                              (staged_events passengers_df tickets_df ++ promoted_events
                               ++ tr ++ match res with
                                  | Ok _ => [EvInfo Completed]
                                  | Raise _ => []
                                  end)).
    { destruct H as [[Hra Hrun] | [Hra Hrun]].
      - by exists (Ok tt).
      - exists (result (show_analytics w dbT)). rewrite Hrun.
        destruct Hra as [-> | ->]; by rewrite app_nil_r. }
    destruct Hrun as (res & ->). run_proj.
    destruct (transform_and_load_cases sch (staged ps ts db))
      as [(Hr & Hsp & Hst & _) | ([st Hr] & _)];
      [|by rewrite HT, run_result in Hr].
    rewrite HT, run_final in Hsp, Hst.
    assert (Hsize : size (passengers dbT) = length ps ∧ size (tickets dbT) = length ts).
    { destruct (promotion_succeeded sch (staged ps ts db)) as (fp & ft & Hfp & Hft);
        [by rewrite HT|].
      pose proof (promoted_tables _ _ _ _ Hfp Hft) as HT'.
      rewrite HT in HT'. injection HT' as ->.
      assert (Hsp' : size fp = size (∅ : gmap Z Passenger.t) + length ps).
      { by apply (upsert_size StagingPassenger.passenger_id (select_passenger sch)
                    (passenger_ok sch) update_passenger _ ∅ ∅ fp). }
      assert (Hst' : size ft = size (∅ : gmap Z Ticket.t) + length ts).
      { by apply (upsert_size StagingTicket.ticket_id select_ticket
                    (ticket_ok sch fp) update_ticket _ ∅ ∅ ft). }
      rewrite map_size_empty in Hsp'. rewrite map_size_empty in Hst'.
      by split. }
    assert (Hcomplete : EvInfo TransformationComplete
                        ∈ staged_events passengers_df tickets_df ++ promoted_events ++ tr
                          ++ match res with
                             | Ok _ => [EvInfo Completed]
                             | Raise _ => []
                             end).
    { apply elem_of_app. right. apply elem_of_app. left.
      unfold promoted_events, promotion_prefix. cbn [app].
      do 6 apply list_elem_of_further. apply list_elem_of_here. }
    split; [intros H'; destruct H'; apply elem_of_app; by left|].
    split.
    { intros _. exists ps, ts. split; [done|]. split; [done|].
      rewrite Hsp, Hst. by split. }
    split; [intros H'; by destruct H'|].
    split; [|done]. intros _. split; [|by rewrite <- Hlp, <- Hlt].
    intros [H'|H']%elem_of_app.
    { apply staged_events_elem in H'. by repeat destruct H' as [H'|H']. }
    apply elem_of_app in H' as [H'|H'].
    { apply promoted_events_elem in H'. by repeat destruct H' as [H'|H']. }
    apply elem_of_app in H' as [H'|H'].
    { rewrite Forall_forall in Hq. specialize (Hq _ H'). discriminate Hq. }
    destruct res; not_in_list H'.
Qed.

Lemma not_in_prelude ev tr :
  prelude_event ev = false →
  Forall (fun ev => prelude_event ev = true) tr → ev ∉ tr.
Proof.
  intros Hev Hall Hin. rewrite Forall_forall in Hall.
  specialize (Hall _ Hin). congruence.
Qed.

Lemma in_after_prelude ev tr tr' :
  prelude_event ev = false →
  Forall (fun ev => prelude_event ev = true) tr →
  ev ∈ tr ++ tr' ↔ ev ∈ tr'.
Proof.
  intros Hev Hall. rewrite elem_of_app. split; [|by right].
  intros [Hin|Hin]; [|done]. by destruct (not_in_prelude ev tr Hev Hall).
Qed.

(** X12: once the staging load of a run has committed, the staging tables
    hold the batch of that run until the end of the run, also when the
    promotion that follows is rolled back or the report fails: the rows of
    [staging_passengers] are the records of the prepared passengers file
    and the rows of [staging_tickets] are the records of the tickets
    synthesized from it, as the database coerces them, one row per record
    of the passengers file in each table. *)
Theorem staged_batch_outlives_failures sch w p t db :
  EvInfo StagingLoaded ∈ trace (main sch w p t db) →
  ∃ raw tickets_df ps ts,
    read_csv w p = Some raw
    ∧ result (create_tickets_df (prepare raw) db) = Ok tickets_df
    ∧ mapM (stage_passenger sch) (Pandas.rows (prepare raw)) = Some ps
    ∧ mapM (stage_ticket sch) (Pandas.rows tickets_df) = Some ts
    ∧ table_rows (staging_passengers (final (main sch w p t db))) = ps
    ∧ table_rows (staging_tickets (final (main sch w p t db))) = ts
    ∧ length ps = Pandas.index_len raw
    ∧ length ts = Pandas.index_len raw.
Proof.
  intros Hin.
  destruct (main_outcomes sch w p t db)
    as [(_ & Hq & _) | (raw & x & tdf & _ & _ & Hcsv & _ & _ & Hc & Hmain)].
  { by destruct (not_in_prelude (EvInfo StagingLoaded) _ eq_refl Hq). }
  rewrite (Hmain db), prepend_trace in Hin.
  apply (proj1 (in_after_prelude (EvInfo StagingLoaded) (prepared p raw x) _
                  eq_refl (prepared_prelude p raw x))) in Hin.
  rewrite (Hmain db), prepend_final.
  destruct (pipeline_effects sch w (prepare raw) tdf db) as (_ & Hst & _).
  destruct (Hst Hin) as (ps & ts & Hp & Ht & Hrp & Hrt).
  exists raw, tdf, ps, ts.
  split; [done|]. split; [by rewrite Hc|].
  split; [done|]. split; [done|]. split; [done|]. split; [done|]. split.
  - apply length_mapM in Hp. by rewrite rows_length in Hp.
  - apply length_mapM in Ht. rewrite rows_length in Ht. rewrite <- Ht.
    apply (create_tickets_df_index_len (prepare raw) db). by rewrite Hc.
Qed.

Lemma staged_batch_outlives_failures_witness :
  let run := main Titanic.schema null_report_world "passengers.csv" None
               Titanic.empty_db in
  EvInfo StagingLoaded ∈ trace run
  ∧ result run = Raise TypeError
  ∧ table_rows (staging_passengers (final run)) = [alice; bob]
  ∧ table_rows (staging_tickets (final run)) = [ticket_of 1 "T1"; ticket_of 2 "T2"].
Proof.
  cbv zeta.
  assert (Hin : EvInfo StagingLoaded
                ∈ trace (main Titanic.schema null_report_world "passengers.csv"
                           None Titanic.empty_db)).
  { rewrite main_run. vm_compute. do 13 apply list_elem_of_further.
    apply list_elem_of_here. }
  split; [exact Hin|]. split; [by rewrite main_run; vm_compute|].
  destruct (staged_batch_outlives_failures Titanic.schema null_report_world
              "passengers.csv" None Titanic.empty_db Hin)
    as (raw & tdf & ps & ts & Hcsv & Hc & Hp & Ht & Hrp & Hrt & _).
  injection Hcsv as <-. injection Hc as <-.
  injection Hp as <-. injection Ht as <-.
  exact (conj Hrp Hrt).
Defined.

(** X13: [main] changes the staging tables only through a staging load that
    commits and the final tables only through a promotion that commits: a
    run without the log line of the staging load leaves the whole database
    as it was, a run without the log line of the promotion leaves the final
    Passenger and Ticket tables as they were. *)
Theorem writes_follow_commits sch w p t db :
  let run := main sch w p t db in
  ((EvInfo StagingLoaded ∉ trace run) → final run = db)
  ∧ ((EvInfo TransformationComplete ∉ trace run) →
     passengers (final run) = passengers db ∧ tickets (final run) = tickets db).
Proof.
  cbv zeta.
  destruct (main_outcomes sch w p t db)
    as [(Hf & _ & _) | (raw & x & tdf & _ & _ & _ & _ & _ & _ & Hmain)].
  { rewrite Hf. by split. }
  rewrite (Hmain db), prepend_trace, prepend_final.
  destruct (pipeline_effects sch w (prepare raw) tdf db) as (Hns & _ & Hnt & _).
  split.
  - intros Hno. apply Hns. intros Hin. apply Hno, elem_of_app. by right.
  - intros Hno. apply Hnt. intros Hin. apply Hno, elem_of_app. by right.
Qed.

(** X14: when the promotion of a run has committed, the final Passenger
    table and the final Ticket table each hold as many rows as the
    passengers file has records, and no transaction of the run was rolled
    back. *)
Theorem committed_promotion_counts sch w p t db :
  EvInfo TransformationComplete ∈ trace (main sch w p t db) →
  ∃ raw,
    read_csv w p = Some raw
    ∧ size (passengers (final (main sch w p t db))) = Pandas.index_len raw
    ∧ size (tickets (final (main sch w p t db))) = Pandas.index_len raw
    ∧ EvRollback ∉ trace (main sch w p t db).
Proof.
  intros Hin.
  destruct (main_outcomes sch w p t db)
    as [(_ & Hq & _) | (raw & x & tdf & _ & _ & Hcsv & _ & _ & Hc & Hmain)].
  { by destruct (not_in_prelude (EvInfo TransformationComplete) _ eq_refl Hq). }
  rewrite (Hmain db), prepend_trace in Hin.
  apply (proj1 (in_after_prelude (EvInfo TransformationComplete) (prepared p raw x) _ eq_refl (prepared_prelude p raw x))) in Hin.
  rewrite (Hmain db), prepend_final, prepend_trace.
  destruct (pipeline_effects sch w (prepare raw) tdf db) as (_ & _ & _ & Hc' & _).
  destruct (Hc' Hin) as (Hnr & Hsp & Hst).
  exists raw. split; [done|]. split; [done|]. split.
  - rewrite Hst. apply (create_tickets_df_index_len (prepare raw) db). by rewrite Hc.
  - by rewrite (in_after_prelude EvRollback (prepared p raw x) _ eq_refl (prepared_prelude p raw x)).
Qed.

Lemma committed_promotion_counts_witness :
  let run := main Titanic.schema (Titanic.world Titanic.two_passengers)
               "passengers.csv" None Titanic.empty_db in
  EvInfo TransformationComplete ∈ trace run
  ∧ size (passengers (final run)) = 2
  ∧ size (tickets (final run)) = 2.
Proof.
  cbv zeta.
  assert (Hin : EvInfo TransformationComplete
                ∈ trace (main Titanic.schema (Titanic.world Titanic.two_passengers)
                           "passengers.csv" None Titanic.empty_db)).
  { rewrite main_run. vm_compute. do 20 apply list_elem_of_further.
    apply list_elem_of_here. }
  split; [exact Hin|].
  destruct (committed_promotion_counts Titanic.schema
              (Titanic.world Titanic.two_passengers) "passengers.csv" None
              Titanic.empty_db Hin) as (raw & Hcsv & Hsp & Hst & _).
  injection Hcsv as <-. exact (conj Hsp Hst).
Defined.

(** X15: a run that ends with the [TypeError] of the report has committed
    both of its transactions before: the log line of the promotion is among
    its events and no rollback took place; the completion line is not
    logged and the exit status is 1. *)
Theorem report_failure_follows_commit sch w p t db :
  result (main sch w p t db) = Raise TypeError →
  EvInfo TransformationComplete ∈ trace (main sch w p t db)
  ∧ (EvRollback ∉ trace (main sch w p t db))
  ∧ (EvInfo Completed ∉ trace (main sch w p t db))
  ∧ exit_status (result (main sch w p t db)) = 1%Z.
Proof.
  intros Hres.
  assert (Hc : EvInfo TransformationComplete ∈ trace (main sch w p t db)
               ∧ (EvRollback ∉ trace (main sch w p t db))).
  { destruct (main_outcomes sch w p t db)
      as [(_ & _ & Hr) | (raw & x & tdf & _ & _ & _ & _ & _ & _ & Hmain)].
    { rewrite Hres in Hr. by repeat destruct Hr as [Hr|Hr]. }
    rewrite (Hmain db), prepend_result in Hres.
    rewrite (Hmain db), prepend_trace.
    destruct (pipeline_effects sch w (prepare raw) tdf db)
      as (_ & _ & _ & Hcommit & Hreport).
    pose proof (Hreport Hres) as Hin.
    destruct (Hcommit Hin) as (Hnr & _).
    split; [apply elem_of_app; by right|].
    by rewrite (in_after_prelude EvRollback (prepared p raw x) _ eq_refl
                  (prepared_prelude p raw x)). }
  destruct Hc as [Hin Hnr]. split; [done|]. split; [done|].
  destruct (main_status sch w p t db) as [(Hok & _) | (_ & Hs & Hn)]; [congruence|].
  by split.
Qed.

Lemma report_failure_follows_commit_witness :
  let run := main Titanic.schema null_report_world "passengers.csv" None
               Titanic.empty_db in
  result run = Raise TypeError
  ∧ EvInfo TransformationComplete ∈ trace run
  ∧ exit_status (result run) = 1%Z.
Proof.
  cbv zeta.
  assert (Hres : result (main Titanic.schema null_report_world "passengers.csv"
                           None Titanic.empty_db) = Raise TypeError)
    by (rewrite main_run; vm_compute; reflexivity).
  split; [exact Hres|].
  destruct (report_failure_follows_commit Titanic.schema null_report_world
              "passengers.csv" None Titanic.empty_db Hres) as (Hin & _ & _ & Hs).
  exact (conj Hin Hs).
Defined.

(** X16: a passengers file that has an age column and no PassengerId column
    passes the normalizer; with no tickets file, the ticket synthesis then
    raises a [KeyError] that nothing catches: the run ends with status 1
    before the staging load, and the database is untouched. *)
Theorem missing_passenger_id_column sch w p t db raw :
  path_exists w p = true →
  db_reachable w = true →
  read_csv w p = Some raw →
  "age" ∈ Pandas.labels (prepare raw) →
  "passenger_id" ∉ Pandas.labels (prepare raw) →
  truthy t = false →
  result (main sch w p t db) = Raise (KeyError "passenger_id")
  ∧ final (main sch w p t db) = db
  ∧ Forall (fun ev => prelude_event ev = true) (trace (main sch w p t db))
  ∧ (EvError PrepareError ∉ trace (main sch w p t db))
  ∧ exit_status (result (main sch w p t db)) = 1%Z.
Proof.
  intros Hp Hdb Hcsv Hage Hkey%getitem_None Ht.
  rewrite main_run, Hp, Hdb, Hcsv, Ht.
  destruct (Pandas.getitem (prepare raw) "age") as [x|] eqn:Hx.
  2: { by apply getitem_None in Hx. }
  unfold create_tickets_df. rewrite Hkey. run_proj.
  split; [done|]. split; [done|]. split; [apply prepared_prelude|].
  split; [|done]. intros H. unfold prepared, connected in H. not_in_list H.
Qed.

Lemma missing_passenger_id_column_witness :
  let w := Titanic.world no_key in
  result (main Titanic.schema w "passengers.csv" None Titanic.empty_db)
  = Raise (KeyError "passenger_id")
  ∧ final (main Titanic.schema w "passengers.csv" None Titanic.empty_db)
    = Titanic.empty_db.
Proof.
  cbv zeta.
  assert (Hage : "age" ∈ Pandas.labels (prepare no_key)).
  { vm_compute. apply list_elem_of_further, list_elem_of_here. }
  assert (Hkey : "passenger_id" ∉ Pandas.labels (prepare no_key)).
  { vm_compute. intros H.
    apply elem_of_cons in H as [H|H]; [discriminate H|].
    apply list_elem_of_singleton in H. discriminate H. }
  destruct (missing_passenger_id_column Titanic.schema (Titanic.world no_key)
              "passengers.csv" None Titanic.empty_db no_key
              eq_refl eq_refl eq_refl Hage Hkey eq_refl) as (Hr & Hf & _).
  exact (conj Hr Hf).
Defined.

(** ** The normalizer on arbitrary files *)

Lemma column_map_lookup l0 l :
  (l0, l) ∈ column_map → Pandas.rename_label column_map l0 = l.
Proof.
  unfold column_map. intros H.
  repeat (apply elem_of_cons in H as [[= -> ->]|H]; [reflexivity|]).
  by apply elem_of_nil in H.
Qed.

Lemma column_map_value l0 l : (l0, l) ∈ column_map → l ∈ column_map_values.
Proof.
  intros H. apply list_elem_of_fmap. by exists (l0, l).
Qed.

Lemma canonical_label_fixed l :
  l ∈ column_map_values → Pandas.rename_label column_map l = l.
Proof.
  unfold column_map_values, column_map. cbn [fmap list_fmap snd]. intros H.
  repeat (apply elem_of_cons in H as [->|H]; [reflexivity|]).
  by apply elem_of_nil in H.
Qed.

Lemma rename_label_spec l0 :
  (l0, Pandas.rename_label column_map l0) ∈ column_map
  ∨ Pandas.rename_label column_map l0 = l0.
Proof.
  unfold column_map. cbn [Pandas.rename_label].
  repeat match goal with
         | |- context [String.eqb ?a l0] =>
             destruct (String.eqb_spec a l0) as [<-|_];
             [left; apply list_elem_of_In; simpl; tauto|]
         end.
  by right.
Qed.

Lemma prepare_columns_by_name raw l s :
  (l, s) ∈ Pandas.columns (prepare raw)
  ↔ ∃ l0, (l0, s) ∈ Pandas.columns raw
          ∧ ((l0, l) ∈ column_map ∨ (l0 = l ∧ l ∈ column_map_values)).
Proof.
  rewrite prepare_columns. split.
  - intros (Hl & l0 & Hin & Hren). exists l0. split; [done|].
    destruct (rename_label_spec l0) as [Hm|Hfix].
    + left. by rewrite <- Hren.
    + right. split; [congruence|done].
  - intros (l0 & Hin & [Hm|[-> Hl]]).
    + split; [by apply (column_map_value l0)|].
      exists l0. split; [done|]. by apply column_map_lookup.
    + split; [done|]. exists l. split; [done|]. by apply canonical_label_fixed.
Qed.

(** X17: the prepared frame has the rows of the file and consists of the
    columns of the file that carry a Kaggle name of the column map,
    relabelled with its canonical name, and of the columns that carry a
    canonical name already; their cells are the cells of the file, every
    other column is dropped, and a frame whose columns are as long as its
    index stays one. *)
Theorem prepared_columns_origin raw :
  Pandas.index_len (prepare raw) = Pandas.index_len raw
  ∧ (Pandas.wf raw → Pandas.wf (prepare raw))
  ∧ ∀ l s,
      (l, s) ∈ Pandas.columns (prepare raw)
      ↔ ∃ l0, (l0, s) ∈ Pandas.columns raw
              ∧ ((l0, l) ∈ column_map ∨ (l0 = l ∧ l ∈ column_map_values)).
Proof.
  split; [reflexivity|]. split; [apply prepare_wf|].
  apply prepare_columns_by_name.
Qed.

Lemma prepared_age_label raw :
  "age" ∈ Pandas.labels (prepare raw)
  ↔ "Age" ∈ Pandas.labels raw ∨ "age" ∈ Pandas.labels raw.
Proof.
  unfold Pandas.labels. rewrite !list_elem_of_fmap. split.
  - intros ([l s] & Hl & Hc). cbn [fst] in Hl. subst l.
    apply prepare_columns_by_name in Hc as (l0 & Hin & [Hm|[-> _]]).
    + left. exists (l0, s). split; [|done]. cbn [fst].
      unfold column_map in Hm.
      repeat (apply elem_of_cons in Hm as [Hm'|Hm];
              [first [discriminate Hm' | by injection Hm' as ->]|]).
      by apply elem_of_nil in Hm.
    + right. by exists ("age", s).
  - assert (Hage : ("Age", "age") ∈ column_map).
    { apply list_elem_of_In. simpl. tauto. }
    assert (Hval : "age" ∈ column_map_values).
    { by apply (column_map_value "Age"). }
    intros [([l s] & Hl & Hc)|([l s] & Hl & Hc)]; cbn [fst] in Hl; subst l;
      exists ("age", s); (split; [done|]); apply prepare_columns_by_name.
    + exists "Age". split; [done|]. by left.
    + exists "age". split; [done|]. by right.
Qed.

(** X18: the normalizer returns the prepared frame exactly when the file
    has a column labelled [Age] or [age]; otherwise the statistic of the
    missing ages raises, the handler logs the error and ends the run with
    [sys.exit(1)].  Either way the database is not touched. *)
Theorem normalizer_needs_age_column w csv_path db raw :
  read_csv w csv_path = Some raw →
  final (load_and_prepare_passengers w csv_path db) = db
  ∧ ("Age" ∈ Pandas.labels raw ∨ "age" ∈ Pandas.labels raw →
     result (load_and_prepare_passengers w csv_path db) = Ok (prepare raw)
     ∧ (EvError PrepareError ∉ trace (load_and_prepare_passengers w csv_path db)))
  ∧ (¬ ("Age" ∈ Pandas.labels raw ∨ "age" ∈ Pandas.labels raw) →
     result (load_and_prepare_passengers w csv_path db) = Raise (SystemExit 1)
     ∧ last (trace (load_and_prepare_passengers w csv_path db))
       = Some (EvError PrepareError)).
Proof.
  intros Hcsv. rewrite load_and_prepare_passengers_run, Hcsv.
  rewrite <- prepared_age_label.
  destruct (Pandas.getitem (prepare raw) "age") as [x|] eqn:Hx; run_proj.
  - split; [done|]. split.
    + intros _. split; [done|]. intros H. not_in_list H.
    + intros Hno. exfalso. apply Hno. apply dec_stable. intros Hn.
      apply getitem_None in Hn. congruence.
  - split; [done|]. split; [|done].
    intros Hage. by apply getitem_None in Hx.
Qed.

Lemma normalizer_needs_age_column_witness :
  result (load_and_prepare_passengers (Titanic.world shuffled) "passengers.csv"
            Titanic.empty_db) = Ok (prepare shuffled)
  ∧ result (load_and_prepare_passengers (Titanic.world no_age) "passengers.csv"
              Titanic.empty_db) = Raise (SystemExit 1).
Proof.
  split.
  - refine (proj1 (proj1 (proj2 (normalizer_needs_age_column
      (Titanic.world shuffled) "passengers.csv" Titanic.empty_db shuffled
      eq_refl)) _)).
    right. vm_compute. do 2 apply list_elem_of_further. apply list_elem_of_here.
  - refine (proj1 (proj2 (proj2 (normalizer_needs_age_column
      (Titanic.world no_age) "passengers.csv" Titanic.empty_db no_age
      eq_refl)) _)).
    vm_compute. intros [H|H]; not_in_list H.
Defined.

Lemma columns_named_unique (cs : list (string * Pandas.Series)) v :
  NoDup (fst <$> cs) → v ∈ fst <$> cs →
  fst <$> filter (fun c => fst c = v) cs = [v].
Proof.
  induction cs as [|[l s] cs IH]; intros Hnd Hv.
  { by apply elem_of_nil in Hv. }
  cbn [fmap list_fmap fst] in Hnd, Hv.
  apply NoDup_cons in Hnd as [Hl Hnd].
  rewrite filter_cons. cbn [fst]. destruct (decide (l = v)) as [->|Hne].
  - cbn [fmap list_fmap fst]. f_equal.
    destruct (filter _ cs) as [|c cs'] eqn:Hf; [done|]. exfalso. apply Hl.
    assert (Hin : c ∈ filter (fun c => fst c = v) cs) by (rewrite Hf; left).
    apply list_elem_of_filter in Hin as [<- Hin].
    apply list_elem_of_fmap. by exists c.
  - apply elem_of_cons in Hv as [->|Hv]; [done|]. by apply IH.
Qed.

Lemma select_labels_unique df vs :
  NoDup (Pandas.labels df) →
  Forall (fun v => v ∈ Pandas.labels df) vs →
  Pandas.labels (Pandas.select df vs) = vs.
Proof.
  intros Hnd. unfold Pandas.labels, Pandas.select. cbn [Pandas.columns].
  induction 1 as [|v vs Hv _ IH]; [done|].
  rewrite bind_cons, fmap_app, IH. unfold Pandas.columns_named.
  by rewrite (columns_named_unique _ v Hnd Hv).
Qed.

Lemma filter_sublist {A} (f : A → bool) (l : list A) :
  sublist (List.filter f l) l.
Proof.
  induction l as [|a l IH]; [constructor|].
  cbn [List.filter]. destruct (f a); by constructor.
Qed.

(** X19: when no two columns of the file end up under one label, the
    columns of the prepared frame come in the order of the column map
    (passenger_id, name, sex, age, sibsp, parch, fare, embarked), whatever
    their order in the file, and each label occurs once. *)
Theorem prepared_labels_in_map_order raw :
  NoDup (Pandas.rename_label column_map <$> Pandas.labels raw) →
  sublist (Pandas.labels (prepare raw)) column_map_values
  ∧ NoDup (Pandas.labels (prepare raw))
  ∧ ∀ l, l ∈ Pandas.labels (prepare raw)
         ↔ l ∈ column_map_values
           ∧ l ∈ (Pandas.rename_label column_map <$> Pandas.labels raw).
Proof.
  intros Hnd.
  assert (Hlab : Pandas.labels (Pandas.rename column_map raw)
                 = Pandas.rename_label column_map <$> Pandas.labels raw).
  { unfold Pandas.labels, Pandas.rename. cbn [Pandas.columns].
    rewrite <- !list_fmap_compose. reflexivity. }
  assert (Heq : Pandas.labels (prepare raw)
                = List.filter (Pandas.has_column (Pandas.rename column_map raw))
                    column_map_values).
  { unfold prepare. apply select_labels_unique; [by rewrite Hlab|].
    apply Forall_forall. intros v Hv.
    apply list_elem_of_In, filter_In in Hv as [_ Hv]. by apply has_column_true. }
  rewrite Heq. split; [apply filter_sublist|]. split.
  - apply (sublist_NoDup _ column_map_values); [|apply filter_sublist].
    vm_compute.
    repeat (apply NoDup_cons; split;
            [intros H; repeat (apply elem_of_cons in H as [H|H]; [discriminate H|]);
             by apply elem_of_nil in H|]).
    apply NoDup_nil_2.
  - intros l. rewrite list_elem_of_In, filter_In, <- list_elem_of_In.
    by rewrite has_column_true, Hlab.
Qed.

Lemma prepared_labels_in_map_order_witness :
  Pandas.labels shuffled = ["Embarked"; "Cabin"; "age"; "Name"; "PassengerId"]
  ∧ Pandas.labels (prepare shuffled) = ["passenger_id"; "name"; "age"; "embarked"]
  ∧ sublist (Pandas.labels (prepare shuffled)) column_map_values.
Proof.
  split; [reflexivity|]. split; [reflexivity|].
  refine (proj1 (prepared_labels_in_map_order shuffled _)).
  vm_compute.
  repeat (apply NoDup_cons; split;
          [intros H; repeat (apply elem_of_cons in H as [H|H]; [discriminate H|]);
           by apply elem_of_nil in H|]).
  apply NoDup_nil_2.
Defined.

(** ** [connect_db] within [main] *)

(** X20: when the database refuses the connection, the run ends with
    [sys.exit(1)] after the error line of [connect_db]: the passengers file
    is never read, no transaction is opened, no statement is sent and the
    database is as before. *)
Theorem unreachable_database_stops_run sch w p t db :
  db_reachable w = false →
  result (main sch w p t db) = Raise (SystemExit 1)
  ∧ final (main sch w p t db) = db
  ∧ Forall (fun ev => data_event ev = false) (trace (main sch w p t db))
  ∧ (path_exists w p = true →
     last (trace (main sch w p t db)) = Some (EvError ConnectionFailed)).
Proof.
  intros Hdb. rewrite main_run, Hdb.
  destruct (path_exists w p); run_proj.
  - split; [done|]. split; [done|]. split; [|done].
    by repeat constructor.
  - split; [done|]. split; [done|]. split; [|done].
    by repeat constructor.
Qed.

Lemma unreachable_database_stops_run_witness :
  result (main Titanic.schema offline_world "passengers.csv" None Titanic.empty_db)
  = Raise (SystemExit 1)
  ∧ last (trace (main Titanic.schema offline_world "passengers.csv" None
                   Titanic.empty_db))
    = Some (EvError ConnectionFailed).
Proof.
  destruct (unreachable_database_stops_run Titanic.schema offline_world
              "passengers.csv" None Titanic.empty_db eq_refl)
    as (Hr & _ & _ & Hl).
  exact (conj Hr (Hl eq_refl)).
Defined.
